(** * Crypto-liquidity dashboard: prediction serving and history workflow

    A shallow embedding of [app/streamlit_app.py] (the dashboard of the
    crypto-project): the input adapter [prepare_model_df_from_ui_dict], the
    history writer [save_history_csv], the single-prediction button handler
    and the batch handler, together with the properties the specification
    states about them.

    Python values are a small tagged union, floats are IEEE-754 binary64
    values ([spec_float] with 53 bits of precision), dicts are [gmap]s with
    string keys, a pandas DataFrame is an ordered list of named columns, and
    the handlers run in a state-and-exception monad over the observable
    world (history file, model calls, application log, widgets shown).
    What the program calls without defining it is a parameter of the code
    that calls it: the loaded model, the clock, the PDF canvas and pandas'
    [pd.to_numeric]. *)

From Stdlib Require Import ZArith Ascii String List Bool Lia.
From Stdlib Require Import Floats.SpecFloat.
From stdpp Require Import base option strings list gmap.

Local Open Scope string_scope.
Local Open Scope list_scope.

(** ** Floats *)

Module PyFloat.

Local Open Scope Z_scope.

(** Python's [float] is binary64. *)
Definition prec : Z := 53.
Definition emax : Z := 1024.

Definition zero : spec_float := S754_zero false.
Definition one : spec_float := binary_normalize prec emax 1 0 false.
Definition nan : spec_float := S754_nan.
Definition inf : spec_float := S754_infinity false.

Definition is_nan (x : spec_float) : bool :=
  match x with S754_nan => true | _ => false end.

Definition is_inf (x : spec_float) : bool :=
  match x with S754_infinity _ => true | _ => false end.

(** [math.isfinite]: neither NaN nor an infinity. *)
Definition is_finite (x : spec_float) : bool :=
  match x with
  | S754_zero _ | S754_finite _ _ _ => true
  | S754_infinity _ | S754_nan => false
  end.

(** [float(n)] for an [int]: round to nearest even; the caller turns an
    infinite result into [OverflowError]. *)
Definition of_Z (n : Z) : spec_float := binary_normalize prec emax n 0 false.

(** The binary64 value nearest to [m * 10^e], for [m >= 0], with the sign
    [neg]; this is what a decimal literal denotes. *)
Definition of_decimal (neg : bool) (m e : Z) : spec_float :=
  match m with
  | Z0 => S754_zero neg
  | Zpos p =>
      if 0 <=? e then
        match m * 10 ^ e with
        | Zpos q => binary_round prec emax neg q 0
        | _ => S754_zero neg
        end
      else
        let '(q, e', l) := SFdiv_core_binary prec emax m 0 (10 ^ (- e)) 0 in
        binary_round_aux prec emax neg q e' l
  | Zneg _ => S754_nan
  end.

(** *** The grammar of [float(str)]

    [floatvalue ::= [sign] (floatnumber | "inf" | "infinity" | "nan")],
    case-insensitive, surrounded by optional whitespace; digits may be
    grouped by single underscores. *)

Definition is_space (c : ascii) : bool :=
  let n := nat_of_ascii c in
  ((9 <=? n) && (n <=? 13) || (28 <=? n) && (n <=? 32))%nat.

Definition lower (c : ascii) : ascii :=
  let n := nat_of_ascii c in
  if ((65 <=? n) && (n <=? 90))%nat then ascii_of_nat (n + 32) else c.

Definition digit_val (c : ascii) : option Z :=
  let n := nat_of_ascii c in
  if ((48 <=? n) && (n <=? 57))%nat then Some (Z.of_nat (n - 48)) else None.

Fixpoint lstrip (cs : list ascii) : list ascii :=
  match cs with
  | c :: cs' => if is_space c then lstrip cs' else cs
  | [] => []
  end.

Definition strip (cs : list ascii) : list ascii :=
  rev (lstrip (rev (lstrip cs))).

(** The rest of a [digitpart] after its first digit: [acc] is the value
    read so far and [n] the number of digits read. *)
Fixpoint digits_tail (cs : list ascii) (acc : Z) (n : Z)
  : Z * Z * list ascii :=
  match cs with
  | c :: cs' =>
      match digit_val c with
      | Some d => digits_tail cs' (10 * acc + d) (n + 1)
      | None =>
          if Ascii.eqb c "_" then
            match cs' with
            | c2 :: cs'' =>
                match digit_val c2 with
                | Some d => digits_tail cs'' (10 * acc + d) (n + 1)
                | None => (acc, n, cs)
                end
            | [] => (acc, n, cs)
            end
          else (acc, n, cs)
      end
  | [] => (acc, n, [])
  end.

(** [digitpart], continuing the value [acc]. *)
Definition digitpart (acc : Z) (cs : list ascii)
  : option (Z * Z * list ascii) :=
  match cs with
  | c :: cs' =>
      match digit_val c with
      | Some d => Some (digits_tail cs' (10 * acc + d) 1)
      | None => None
      end
  | [] => None
  end.

(** [number ::= [digitpart] "." digitpart | digitpart ["."]]; the result
    is the digit string as an integer, the number of fraction digits and
    the unread input. *)
Definition number (cs : list ascii) : option (Z * Z * list ascii) :=
  match digitpart 0 cs with
  | Some (ip, _, rest) =>
      match rest with
      | "."%char :: rest' =>
          match digitpart ip rest' with
          | Some (m, nf, rest'') => Some (m, nf, rest'')
          | None => Some (ip, 0, rest')
          end
      | _ => Some (ip, 0, rest)
      end
  | None =>
      match cs with
      | "."%char :: rest' => digitpart 0 rest'
      | _ => None
      end
  end.

Definition sign (cs : list ascii) : bool * list ascii :=
  match cs with
  | "-"%char :: cs' => (true, cs')
  | "+"%char :: cs' => (false, cs')
  | _ => (false, cs)
  end.

(** [exponent ::= ("e" | "E") [sign] digitpart], up to the end of the
    input. *)
Definition exponent (cs : list ascii) : option Z :=
  match cs with
  | [] => Some 0
  | c :: cs' =>
      if Ascii.eqb (lower c) "e" then
        let '(neg, cs'') := sign cs' in
        match digitpart 0 cs'' with
        | Some (x, _, []) => Some (if neg then - x else x)
        | _ => None
        end
      else None
  end.

Definition floatnumber (neg : bool) (cs : list ascii) : option spec_float :=
  match number cs with
  | Some (m, nf, rest) =>
      match exponent rest with
      | Some x => Some (of_decimal neg m (x - nf))
      | None => None
      end
  | None => None
  end.

(** [float(s)] for a [str]: [None] stands for [ValueError]. *)
Definition of_string (s : string) : option spec_float :=
  let '(neg, body) := sign (strip (list_ascii_of_string s)) in
  let word := string_of_list_ascii (map lower body) in
  if String.eqb word "inf" || String.eqb word "infinity" then
    Some (S754_infinity neg)
  else if String.eqb word "nan" then Some S754_nan
  else floatnumber neg body.

End PyFloat.

(** ** Python values, exceptions and results *)

Inductive pyval : Type :=
| VNone
| VBool (b : bool)
| VInt (n : Z)
| VFloat (x : spec_float)
| VStr (s : string).

Inductive exn : Type :=
| TypeError
| ValueError
| OverflowError
| IndexError
| KeyError (key : string)
| EmptyDataError
| ModelError (msg : string)
| ReportError (msg : string).

Inductive result (A : Type) : Type :=
| Ok (a : A)
| Raise (e : exn).
Arguments Ok {A} a.
Arguments Raise {A} e.

Definition rbind {A B} (r : result A) (k : A -> result B) : result B :=
  match r with Ok a => k a | Raise e => Raise e end.

(** [float(v)]. *)
Definition py_float (v : pyval) : result spec_float :=
  match v with
  | VNone => Raise TypeError
  | VBool b => Ok (if b then PyFloat.one else PyFloat.zero)
  | VInt n =>
      let x := PyFloat.of_Z n in
      if PyFloat.is_inf x then Raise OverflowError else Ok x
  | VFloat x => Ok x
  | VStr s =>
      match PyFloat.of_string s with
      | Some x => Ok x
      | None => Raise ValueError
      end
  end.

(** [v == ""] and [v is None]. *)
Definition eq_empty_str (v : pyval) : bool :=
  match v with VStr "" => true | _ => false end.

Definition is_None (v : pyval) : bool :=
  match v with VNone => true | _ => false end.

(** ** DataFrames

    A frame is its number of rows (the index) and its columns in order,
    each a name and the cells of that column. *)

Record frame (A : Type) : Type := Frame {
  nrows : nat;
  cols : list (string * list A)
}.
Arguments Frame {A} nrows cols.
Arguments nrows {A} f.
Arguments cols {A} f.

Section FrameOps.
Context {A : Type}.

(** [pd.DataFrame()]. *)
Definition empty_frame : frame A := Frame 0 [].

(** [df.columns]. *)
Definition columns (df : frame A) : list string := (cols df).*1.

(** [name in df.columns]. *)
Definition has_column (df : frame A) (name : string) : bool :=
  bool_decide (name ∈ columns df).

Fixpoint assoc (name : string) (cs : list (string * list A))
  : option (list A) :=
  match cs with
  | [] => None
  | (n, c) :: cs' => if String.eqb n name then Some c else assoc name cs'
  end.

(** [df[name]] on a frame whose column names may repeat: every column of
    that name, in order. One column is a Series, several are a frame. *)
Definition named (name : string) (df : frame A) : list (list A) :=
  (List.filter (fun nc => String.eqb nc.1 name) (cols df)).*2.

(** [df[name]], read as one column. *)
Definition get_col (df : frame A) (name : string) : result (list A) :=
  match assoc name (cols df) with
  | Some c => Ok c
  | None => Raise (KeyError name)
  end.

Fixpoint select_cols (cs : list (string * list A)) (names : list string)
  : result (list (string * list A)) :=
  match names with
  | [] => Ok []
  | n :: names' =>
      match assoc n cs with
      | Some c => rbind (select_cols cs names') (fun r => Ok ((n, c) :: r))
      | None => Raise (KeyError n)
      end
  end.

(** [df[names]]: the named columns, in the order of [names]. *)
Definition select (df : frame A) (names : list string) : result (frame A) :=
  rbind (select_cols (cols df) names) (fun cs => Ok (Frame (nrows df) cs)).

(** Writing a whole column: an existing column is replaced in place, a
    new one goes last. *)
Definition put_col (df : frame A) (name : string) (c : list A) : frame A :=
  if has_column df name then
    Frame (nrows df)
      (map (fun nc => if String.eqb nc.1 name then (name, c) else nc) (cols df))
  else Frame (nrows df) (cols df ++ [(name, c)]).

(** [df[name] = v] for a scalar [v]: broadcast over the index. *)
Definition set_col_scalar (df : frame A) (name : string) (v : A) : frame A :=
  put_col df name (replicate (nrows df) v).

(** A frame without rows takes its index from the first values assigned
    to it: it is re-indexed to [n] rows, the columns it had holding [na]
    in each. *)
Definition reindexed (na : A) (n : nat) (df : frame A) : frame A :=
  Frame n (map (fun nc => (nc.1, replicate n na)) (cols df)).

(** [df[name] = values] for a list or array: on a frame without rows the
    values, when there are any, define the index; otherwise their length
    must be the frame's. *)
Definition set_col_list (na : A) (df : frame A) (name : string)
    (values : list A) : result (frame A) :=
  if Nat.eqb (nrows df) 0 && negb (Nat.eqb (length values) 0) then
    Ok (put_col (reindexed na (length values) df) name values)
  else if Nat.eqb (length values) (nrows df) then Ok (put_col df name values)
  else Raise ValueError.

(** [df[name] = series] for a Series over a range index: on a frame
    without rows the series, when it has cells, defines the index;
    otherwise it is aligned on the frame's index, [na] filling the labels
    it lacks. *)
Definition set_col_series (na : A) (df : frame A) (name : string)
    (series : list A) : frame A :=
  if Nat.eqb (nrows df) 0 && negb (Nat.eqb (length series) 0) then
    put_col (reindexed na (length series) df) name series
  else put_col df name (take (nrows df) (series ++ replicate (nrows df) na)).

(** Row [i] of a frame, and the frame as a list of rows. *)
Definition row_at (na : A) (df : frame A) (i : nat) : list A :=
  map (fun nc => default na (nc.2 !! i)) (cols df).

Definition rows_of (na : A) (df : frame A) : list (list A) :=
  map (row_at na df) (seq 0 (nrows df)).

(** Every column has one cell per row. *)
Definition wf_frame (df : frame A) : Prop :=
  Forall (fun nc => length nc.2 = nrows df) (cols df).

(** [pd.DataFrame([row])] for a dict [row], given in insertion order. *)
Definition one_row_frame (row : list (string * A)) : frame A :=
  Frame 1 (map (fun kv => (kv.1, [kv.2])) row).

End FrameOps.

(** ** The feature schema *)

Definition MODEL_FEATURES : list string :=
  ["price"; "1h"; "24h"; "7d"; "24h_volume"; "mkt_cap"; "liquidity_ratio";
   "price_change_24h"].

Definition UI_FIELDS : list string :=
  ["coin"; "symbol"; "price"; "1h"; "24h"; "7d"; "24h_volume"; "mkt_cap";
   "date"; "liquidity_ratio"; "price_change_24h"].

(** The loaded model: its [feature_names_in_] attribute when it has one and
    its [predict] method. *)
Record model_t : Type := {
  feature_names_in_ : option (list string);
  predict : frame spec_float -> result (list spec_float)
}.

(** [try: list(model.feature_names_in_) except: MODEL_FEATURES.copy()]. *)
Definition model_feature_names (model : model_t) : list string :=
  match feature_names_in_ model with
  | Some names => names
  | None => MODEL_FEATURES
  end.

(** ** The input adapter *)

(** The body of the loop of [prepare_model_df_from_ui_dict] for feature
    [f]: the value stored in [row[f]]. *)
Definition coerce_feature (d : gmap string pyval) (f : string) : spec_float :=
  let v := default (VFloat PyFloat.zero) (d !! f) in
  let attempt :=
    let v := if eq_empty_str v || is_None v then VFloat PyFloat.zero else v in
    py_float v in
  match attempt with
  | Ok x => x
  | Raise _ => PyFloat.zero
  end.

(** [all(name in df.columns for name in names)]. *)
Definition all_in_columns {A} (df : frame A) (names : list string) : bool :=
  forallb (has_column df) names.

(** [df = df[model_feature_names]] if every name is a column, else
    [df[MODEL_FEATURES]]. *)
Definition reorder {A} (names : list string) (df : frame A) : result (frame A) :=
  if all_in_columns df names then select df names
  else select df MODEL_FEATURES.

Definition prepare_model_df_from_ui_dict (names : list string)
    (d : gmap string pyval) : result (frame spec_float) :=
  let row := map (fun f => (f, coerce_feature d f)) MODEL_FEATURES in
  let df := one_row_frame row in
  reorder names df.

(** ** The observable world and the handler monad *)

(** What the handlers put on the page. *)
Inductive widget : Type :=
| StSuccess (pred : spec_float)
| StError (what : string) (e : exn)
| StWarning (msg : string)
| StDataframe (df : frame pyval)
| StDownloadPdf (path : string)
| StDownloadCsv (file_name : string) (lines : list (list pyval)).

(** Records written to [app.log]. *)
Inductive log_record : Type :=
| LogSingle (inputs : gmap string pyval) (pred : spec_float)
| LogBatch (n : nat)
| LogException (msg : string).

(** [csv_history] is the content of [CSV_HISTORY], line by line, or [None]
    when the file does not exist; a line is its cells as they were written,
    and writing to the file is taken to succeed. [predict_calls] records
    every frame handed to [model.predict]. *)
Record world : Type := World {
  csv_history : option (list (list pyval));
  predict_calls : list (frame spec_float);
  report_files : list string;
  app_log : list log_record;
  screen : list widget
}.

Definition with_history (h : option (list (list pyval))) (w : world) : world :=
  World h (predict_calls w) (report_files w) (app_log w) (screen w).
Definition with_call (df : frame spec_float) (w : world) : world :=
  World (csv_history w) (predict_calls w ++ [df]) (report_files w) (app_log w)
    (screen w).
Definition with_report (path : string) (w : world) : world :=
  World (csv_history w) (predict_calls w) (report_files w ++ [path]) (app_log w)
    (screen w).
Definition with_log (r : log_record) (w : world) : world :=
  World (csv_history w) (predict_calls w) (report_files w) (app_log w ++ [r])
    (screen w).
Definition with_widget (x : widget) (w : world) : world :=
  World (csv_history w) (predict_calls w) (report_files w) (app_log w)
    (screen w ++ [x]).

(** A computation changes the world and returns or raises; what it did to
    the world before raising stays done. *)
Definition M (A : Type) : Type := world -> result A * world.

#[global] Instance M_ret : MRet M := fun A a w => (Ok a, w).
#[global] Instance M_bind : MBind M := fun A B k m w =>
  match m w with
  | (Ok a, w') => k a w'
  | (Raise e, w') => (Raise e, w')
  end.

Definition lift {A} (r : result A) : M A := fun w => (r, w).
Definition modify (f : world -> world) : M unit := fun w => (Ok tt, f w).
Definition gets {A} (f : world -> A) : M A := fun w => (Ok (f w), w).

(** [try: body except Exception as e: handler(e)]. *)
Definition try_except (body : M unit) (handler : exn -> M unit) : M unit :=
  fun w =>
    match body w with
    | (Ok tt, w') => (Ok tt, w')
    | (Raise e, w') => handler e w'
    end.

Definition st_success (pred : spec_float) : M unit := modify (with_widget (StSuccess pred)).
Definition st_error (what : string) (e : exn) : M unit := modify (with_widget (StError what e)).
Definition st_warning (msg : string) : M unit := modify (with_widget (StWarning msg)).
Definition st_dataframe (df : frame pyval) : M unit := modify (with_widget (StDataframe df)).
Definition logging (r : log_record) : M unit := modify (with_log r).

(** ** The history file *)

(** [df.to_csv(..., header=header, index=False)]: the lines written. *)
Definition to_csv {A} (na : A) (name_cell : string -> A) (header : bool)
    (df : frame A) : list (list A) :=
  (if header then [map name_cell (columns df)] else []) ++ rows_of na df.

Definition HISTORY_COLUMNS : list string :=
  UI_FIELDS ++ ["prediction"; "mode"; "timestamp"].

(** [pd.read_csv(CSV_HISTORY)] when the file exists, no rows when it does
    not: the first line names the columns, every other line is one row. *)
Definition header_name (v : pyval) : string :=
  match v with VStr s => s | _ => "" end.

Definition read_history (w : world) : result (list (list (string * pyval))) :=
  match csv_history w with
  | None => Ok []
  | Some [] => Raise EmptyDataError
  | Some (header :: rows) => Ok (map (zip (map header_name header)) rows)
  end.

(** [row[name]] in a row read back from the history. *)
Fixpoint field (name : string) (row : list (string * pyval)) : option pyval :=
  match row with
  | [] => None
  | (n, v) :: row' => if String.eqb n name then Some v else field name row'
  end.

(** ** Filling the cells pandas could not convert *)

(** [column.fillna(x0)], on one cell. *)
Definition fillna (x0 : spec_float) (x : spec_float) : spec_float :=
  if PyFloat.is_nan x then x0 else x.

Section App.

(** pandas' [pd.to_numeric(column, errors="coerce")] is not code of this
    program and is taken as it comes: given a column it answers with the
    numeric column or it raises. The numbers of the column are read as
    floats: NaN where pandas coerced a cell, the float of an integer where
    pandas kept an integer. *)
Variable to_numeric : list pyval -> result (list spec_float).

(** The loaded model, the clock ([datetime.now()] formatted) and the PDF
    canvas, which writes the report and yields its path or raises. *)
Variable model : model_t.
Variable now : string.
Variable canvas : gmap string pyval -> spec_float -> result string.

Definition model_predict (df : frame spec_float) : M (list spec_float) :=
  modify (with_call df);; lift (predict model df).

Definition generate_pdf (input_row : gmap string pyval) (pred : spec_float)
  : M string :=
  path ← lift (canvas input_row pred);
  modify (with_report path);;
  mret path.

Definition save_history_csv (ui_df : frame pyval) (preds : list pyval)
    (mode : string) : M unit :=
  out ← lift (set_col_list (VFloat PyFloat.nan) ui_df "prediction" preds);
  let out := set_col_scalar out "mode" (VStr mode) in
  let out := set_col_scalar out "timestamp" (VStr now) in
  existing ← gets csv_history;
  match existing with
  | Some lines =>
      modify (with_history (Some (lines ++ to_csv VNone VStr false out)))
  | None =>
      modify (with_history (Some (to_csv VNone VStr true out)))
  end.

(** [float(preds[0])]. *)
Definition first_pred (preds : list spec_float) : result spec_float :=
  match preds with
  | [] => Raise IndexError
  | p :: _ => Ok p
  end.

(** The handler of the "Predict Liquidity Score" button. *)
Definition predict_button (ui : gmap string pyval) : M unit :=
  try_except
    (model_df ← lift (prepare_model_df_from_ui_dict (model_feature_names model) ui);
     preds ← model_predict model_df;
     pred ← lift (first_pred preds);
     st_success pred;;
     let ui_df :=
       one_row_frame (map (fun k => (k, default (VStr "") (ui !! k))) UI_FIELDS) in
     save_history_csv ui_df [VFloat pred] "single";;
     logging (LogSingle ui pred);;
     pdf_path ← generate_pdf ui pred;
     modify (with_widget (StDownloadPdf pdf_path)))
    (fun e =>
       st_error "Prediction failed" e;;
       logging (LogException "Prediction failed")).

(** The loop that completes the uploaded frame with the UI fields it
    lacks. *)
Definition ui_default (col : string) : pyval :=
  if bool_decide (col ∈ ["coin"; "symbol"; "date"]) then VStr ""
  else VFloat PyFloat.zero.

Definition fill_step (df : frame pyval) (col : string) : frame pyval :=
  if has_column df col then df else set_col_scalar df col (ui_default col).

Definition fill_ui_fields (ui_batch : frame pyval) : frame pyval :=
  fold_left fill_step UI_FIELDS ui_batch.

(** [pd.to_numeric(ui_batch[f], errors="coerce").fillna(0.0)]: the one
    column named [f] is converted and its NaN cells filled; when the name
    is repeated, [ui_batch[f]] is a frame and [pd.to_numeric] refuses it. *)
Definition feature_series (ui_batch : frame pyval) (f : string)
  : result (list spec_float) :=
  match named f ui_batch with
  | [column] =>
      rbind (to_numeric column) (fun nums => Ok (map (fillna PyFloat.zero) nums))
  | _ => Raise TypeError
  end.

(** The loop that builds [model_batch] from [ui_batch]. *)
Definition model_step (ui_batch : frame pyval) (mb : frame spec_float)
    (f : string) : result (frame spec_float) :=
  if has_column ui_batch f then
    rbind (feature_series ui_batch f)
          (fun series => Ok (set_col_series PyFloat.nan mb f series))
  else Ok (set_col_scalar mb f PyFloat.zero).

Definition build_model_batch (ui_batch : frame pyval)
  : result (frame spec_float) :=
  fold_left (fun acc f => rbind acc (fun mb => model_step ui_batch mb f))
    MODEL_FEATURES (Ok empty_frame).

(** The body of the batch handler's [try], from the completed table
    [ui_batch] on. *)
Definition batch_predict (ui_batch : frame pyval) : M unit :=
  model_batch ← lift (build_model_batch ui_batch);
  model_batch ← lift (reorder (model_feature_names model) model_batch);
  preds ← model_predict model_batch;
  out ← lift (set_col_list (VFloat PyFloat.nan) ui_batch "prediction"
                (map VFloat preds));
  st_dataframe out;;
  hist ← lift (select out (UI_FIELDS ++ ["prediction"]));
  save_history_csv hist (map VFloat preds) "batch";;
  modify (with_widget
    (StDownloadCsv "batch_predictions.csv" (to_csv VNone VStr true out)));;
  logging (LogBatch (nrows out)).

(** The handler of the "Predict (batch)" button; [editable] is the edited
    table, [None] when there is none. *)
Definition batch_button (editable : option (frame pyval)) : M unit :=
  match editable with
  | None => st_warning "No rows."
  | Some editable =>
      if Nat.eqb (nrows editable) 0 then st_warning "No rows."
      else
        try_except
          (let ui_batch := fill_ui_fields editable in
           batch_predict ui_batch)
          (fun e =>
             st_error "Batch prediction failed" e;;
             logging (LogException "Batch error"))
  end.

End App.

(** * The vocabulary of the properties *)

(** The declared names the frame can provide: all of them are among the
    eight features. *)
Definition declared_usable (names : list string) : bool :=
  forallb (fun n => bool_decide (n ∈ MODEL_FEATURES)) names.

(** The column of field [f] in [ui_batch], in terms of the upload. *)
Definition ui_column (ed : frame pyval) (f : string) : list pyval :=
  match assoc f (cols ed) with
  | Some c => c
  | None => replicate (nrows ed) (ui_default f)
  end.

(** pandas answers with one number for each cell of the column. *)
Definition keeps_length (to_numeric : list pyval -> result (list spec_float))
  : Prop :=
  forall column nums, to_numeric column = Ok nums -> length nums = length column.

(** The history file is absent or starts with the header line this program
    writes. *)
Definition history_ok (w : world) : Prop :=
  match csv_history w with
  | None => True
  | Some lines => exists rows, lines = map VStr HISTORY_COLUMNS :: rows
  end.

(** The history file after writing the frame [out] to it. *)
Definition appended (w : world) (out : frame pyval)
  : option (list (list pyval)) :=
  match csv_history w with
  | Some lines => Some (lines ++ to_csv VNone VStr false out)
  | None => Some (to_csv VNone VStr true out)
  end.

(** The frame with its [mode] and [timestamp] columns set. *)
Definition stamp (now mode : string) (out : frame pyval) : frame pyval :=
  set_col_scalar (set_col_scalar out "mode" (VStr mode)) "timestamp" (VStr now).

(** ** Outcomes of the handlers *)

Section Outcomes.
Variable now : string.

(** The frame the single handler logs: the UI fields of the form. *)
Definition ui_frame (ui : gmap string pyval) : frame pyval :=
  one_row_frame (map (fun k => (k, default (VStr "") (ui !! k))) UI_FIELDS).

(** The row the single handler writes for the prediction [p]. *)
Definition single_out (ui : gmap string pyval) (p : spec_float) : frame pyval :=
  stamp now "single" (put_col (ui_frame ui) "prediction" [VFloat p]).

(** The world after the prediction [p] was shown, logged to the history
    and to [app.log]. *)
Definition after_single (ui : gmap string pyval) (df : frame spec_float)
    (p : spec_float) (w : world) : world :=
  let w1 := with_widget (StSuccess p) (with_call df w) in
  with_log (LogSingle ui p) (with_history (appended w1 (single_out ui p)) w1).

(** The table shown and offered for download: the completed table with
    its [prediction] column. *)
Definition shown_table (ub : frame pyval) (preds : list spec_float)
  : frame pyval :=
  put_col ub "prediction" (map VFloat preds).

(** The frame written to the history for the selection [hist]. *)
Definition batch_logged (hist : frame pyval) (preds : list spec_float)
  : frame pyval :=
  stamp now "batch" (put_col hist "prediction" (map VFloat preds)).

Definition batch_failed (e : exn) (w : world) : world :=
  with_log (LogException "Batch error")
    (with_widget (StError "Batch prediction failed" e) w).

Definition after_predict (ub : frame pyval) (mb : frame spec_float)
    (preds : list spec_float) (hist : frame pyval) (w : world) : world :=
  let w1 := with_widget (StDataframe (shown_table ub preds)) (with_call mb w) in
  with_log (LogBatch (nrows (shown_table ub preds)))
    (with_widget
       (StDownloadCsv "batch_predictions.csv"
          (to_csv VNone VStr true (shown_table ub preds)))
       (with_history (appended w1 (batch_logged hist preds)) w1)).

(** One call of [save_history_csv]: its frame, its predictions, its mode. *)
Definition append_t : Type := frame pyval * list pyval * string.

(** What an append is to write, said line by line and cell by cell.

    An append gets as far as writing when its frame has no rows or has as
    many rows as there are predictions. *)
Definition accepted (a : append_t) : bool :=
  Nat.eqb (nrows a.1.1) 0 || Nat.eqb (length a.1.2) (nrows a.1.1).

(** The columns [prediction], [mode] and [timestamp] the frame lacks come
    after its own, in this order. *)
Definition added_names (df : frame pyval) : list string :=
  List.filter (fun n => negb (has_column df n)) ["prediction"; "mode"; "timestamp"].

Definition header_line (a : append_t) : list pyval :=
  map VStr (columns a.1.1 ++ added_names a.1.1).

(** The cell of line [i] under a column of the frame: the clock's
    timestamp, the mode or prediction [i] under those three names, the
    frame's own cell under any other (NaN when the frame had no rows). *)
Definition written_cell (a : append_t) (i : nat) (nc : string * list pyval)
  : pyval :=
  if String.eqb nc.1 "timestamp" then VStr now
  else if String.eqb nc.1 "mode" then VStr a.2
  else if String.eqb nc.1 "prediction" then default VNone (a.1.2 !! i)
  else default (VFloat PyFloat.nan) (nc.2 !! i).

Definition data_line (a : append_t) (i : nat) : list pyval :=
  map (written_cell a i)
    (cols a.1.1 ++ map (fun n => (n, [])) (added_names a.1.1)).

(** One line for each prediction. *)
Definition data_lines (a : append_t) : list (list pyval) :=
  if accepted a then map (data_line a) (seq 0 (length a.1.2)) else [].

(** The header of the first append that writes. *)
Fixpoint first_header (appends : list append_t) : option (list pyval) :=
  match appends with
  | [] => None
  | a :: rest => if accepted a then Some (header_line a) else first_header rest
  end.

(** The appends run one after the other. *)
Fixpoint save_all (appends : list append_t) (w : world) : world :=
  match appends with
  | [] => w
  | a :: rest => save_all rest (save_history_csv now a.1.1 a.1.2 a.2 w).2
  end.

End Outcomes.

(** ** Requests: a form or an uploaded table *)

(** What either handler is given. *)
Inductive request : Type :=
| Single (ui : gmap string pyval)
| Batch (editable : frame pyval).

Definition handle (to_numeric : list pyval -> result (list spec_float))
    (model : model_t) (now : string)
    (canvas : gmap string pyval -> spec_float -> result string)
    (r : request) : M unit :=
  match r with
  | Single ui => predict_button model now canvas ui
  | Batch editable => batch_button to_numeric model now (Some editable)
  end.

(** The frame the handler derives for the model (feature derivation). *)
Definition model_input (to_numeric : list pyval -> result (list spec_float))
    (names : list string) (r : request) : result (frame spec_float) :=
  match r with
  | Single ui => prepare_model_df_from_ui_dict names ui
  | Batch editable =>
      rbind (build_model_batch to_numeric (fill_ui_fields editable))
            (reorder names)
  end.

Definition nonempty (r : request) : Prop :=
  match r with
  | Single _ => True
  | Batch editable => nrows editable <> 0%nat
  end.

Definition wf_request (r : request) : Prop :=
  match r with
  | Single _ => True
  | Batch editable => wf_frame editable
  end.

Definition failure_message (r : request) : string :=
  match r with
  | Single _ => "Prediction failed"
  | Batch _ => "Batch prediction failed"
  end.

(** The rule in the specification's words: a value that is missing, [None],
    the empty string or not convertible by [float] gives [0.0], any other
    value gives its float. *)
Definition coerce_spec (o : option pyval) : spec_float :=
  match o with
  | None => PyFloat.zero
  | Some VNone => PyFloat.zero
  | Some (VStr "") => PyFloat.zero
  | Some v =>
      match py_float v with
      | Ok x => x
      | Raise _ => PyFloat.zero
      end
  end.


(** * Worked inputs *)

(** The example of the specification: a form and a model whose [predict]
    always answers 0.42. *)
Definition x042 : spec_float := PyFloat.of_decimal false 42 (-2).

Definition constant_model : model_t :=
  {| feature_names_in_ := None;
     predict := fun df => Ok (replicate (nrows df) x042) |}.

Definition failing_model : model_t :=
  {| feature_names_in_ := None;
     predict := fun _ => Raise (ModelError "X has 8 features, expected 9") |}.


(** A stand-in for [pd.to_numeric(column, errors="coerce")] in the worked
    examples: a cell becomes the float [float] makes of it, NaN when
    [float] refuses it, and an integer beyond the range of floats raises
    [OverflowError] for the whole column. *)
Definition numeric_cell (v : pyval) : result spec_float :=
  match py_float v with
  | Ok x => Ok x
  | Raise OverflowError => Raise OverflowError
  | Raise _ => Ok PyFloat.nan
  end.

Fixpoint cellwise_numeric (column : list pyval) : result (list spec_float) :=
  match column with
  | [] => Ok []
  | v :: rest =>
      rbind (numeric_cell v) (fun x =>
      rbind (cellwise_numeric rest) (fun xs => Ok (x :: xs)))
  end.

Definition example_ui : gmap string pyval :=
  list_to_map
    [("coin", VStr "bitcoin"); ("symbol", VStr "btc"); ("date", VStr "2022-03-16");
     ("price", VInt 100);
     ("1h", VFloat (PyFloat.of_decimal false 1 (-2)));
     ("24h", VFloat (PyFloat.of_decimal true 2 (-2)));
     ("7d", VFloat (PyFloat.of_decimal false 5 (-2)));
     ("24h_volume", VFloat (PyFloat.of_decimal false 1 6));
     ("mkt_cap", VFloat (PyFloat.of_decimal false 1 9));
     ("liquidity_ratio", VFloat (PyFloat.of_decimal false 3 (-1)));
     ("price_change_24h", VFloat (PyFloat.of_decimal true 2 (-2)))].

Definition example_now : string := "2022-03-17 09:30:00".

Definition saving_canvas : gmap string pyval -> spec_float -> result string :=
  fun _ _ => Ok "liquidity_report_20220317_093000.pdf".

Definition broken_canvas : gmap string pyval -> spec_float -> result string :=
  fun _ _ => Raise (ReportError "No space left on device").

(** No history file, nothing shown, no call made yet. *)
Definition fresh : world := World None [] [] [] [].

(** An upload of two rows with a malformed price and a column the
    dashboard does not know. *)
Definition example_upload : frame pyval :=
  Frame 2 [("price", [VStr "N/A"; VInt 2]);
           ("exchange", [VStr "kraken"; VStr "binance"])].

Definition empty_upload : frame pyval := Frame 0 [("price", [])].

(** An upload whose price is an integer no float can hold, and one that
    names two columns alike. *)
Definition overflow_upload : frame pyval :=
  Frame 1 [("price", [VInt (10 ^ 400)])].

Definition repeated_upload : frame pyval :=
  Frame 1 [("price", [VInt 1]); ("price", [VInt 2])].

(** The frames derived from the example form and the example upload. *)
Definition example_model_df : frame spec_float :=
  Eval vm_compute in
    match model_input cellwise_numeric MODEL_FEATURES (Single example_ui) with
    | Ok df => df
    | Raise _ => empty_frame
    end.

Definition example_model_batch : frame spec_float :=
  Eval vm_compute in
    match model_input cellwise_numeric MODEL_FEATURES (Batch example_upload) with
    | Ok df => df
    | Raise _ => empty_frame
    end.

(** * Further parts of the dashboard *)

(** ** The report document *)

(** The calls [generate_pdf] makes on its canvas. *)
Inductive pdf_op : Type :=
| SetFont (name : string) (size : Z)
| DrawString (x y : Z) (text : string)
| ShowPage
| Save.

(** [line[:120]]. *)
Definition clip (line : string) : string := String.substring 0 120 line.

Section Report.

(** [str(val)] as an f-string formats it, [f"{pred:.6f}"], and the clock
    reading of the "Generated:" line. *)
Variable str : pyval -> string.
Variable fmt6 : spec_float -> string.
Variable generated : string.

(** [f"{col}: {val}"]. *)
Definition report_line (item : string * pyval) : string :=
  String.append item.1 (String.append ": " (str item.2)).

(** One turn of the loop over [input_row.items()]: the canvas calls made so
    far and the pen height [y]. *)
Definition draw_item (st : list pdf_op * Z) (item : string * pyval)
  : list pdf_op * Z :=
  let ops := st.1 ++ [DrawString 50 st.2 (clip (report_line item))] in
  let y := (st.2 - 14)%Z in
  if (y <? 60)%Z then (ops ++ [ShowPage; SetFont "Helvetica" 10], 750%Z)
  else (ops, y).

(** The canvas calls of [generate_pdf] before the loop. *)
Definition report_head (pred : spec_float) : list pdf_op :=
  [SetFont "Helvetica-Bold" 14;
   DrawString 40 760 "Crypto Liquidity Prediction Report";
   SetFont "Helvetica" 10;
   DrawString 40 742 (String.append "Generated: " generated);
   DrawString 40 724 (String.append "Predicted liquidity_score: " (fmt6 pred));
   DrawString 40 702 "Input features:"].

(** All canvas calls of [generate_pdf], for the items of [input_row] in
    their order. *)
Definition report_ops (input_row : list (string * pyval)) (pred : spec_float)
  : list pdf_op :=
  (fold_left draw_item input_row (report_head pred, 684%Z)).1 ++ [Save].

End Report.

(** The texts drawn at abscissa [x], in drawing order. *)
Fixpoint texts_at (x : Z) (ops : list pdf_op) : list string :=
  match ops with
  | [] => []
  | DrawString x' _ t :: ops' =>
      if (x' =? x)%Z then t :: texts_at x ops' else texts_at x ops'
  | _ :: ops' => texts_at x ops'
  end.

(** The number of page breaks. *)
Fixpoint page_breaks (ops : list pdf_op) : nat :=
  match ops with
  | [] => 0
  | ShowPage :: ops' => S (page_breaks ops')
  | _ :: ops' => page_breaks ops'
  end.

(** Every text drawn so far is between the margins. *)
Definition within_margins (ops : list pdf_op) : Prop :=
  forall x y t, DrawString x y t ∈ ops -> (60 <= y <= 760)%Z.

(** The lines that fit on the page from height [y] down. *)
Definition lines_left (y : Z) : Z := ((y - 60) / 14 + 1)%Z.

(** The page breaks caused by [n] more lines when [k] lines fit on the
    current page and 50 on every later one. *)
Definition breaks_after (k n : Z) : Z :=
  if (n <? k)%Z then 0%Z else (1 + (n - k) / 50)%Z.

(** ** The price preview *)

(** What the preview puts on the page: the chart of the simulated prices
    and their predictions, or the note that it is unavailable. *)
Inductive chart : Type :=
| Chart (prices preds : list spec_float)
| Unavailable (e : exn).

(** [{f: float(ui.get(f, 0.0)) for f in fs}], evaluated left to right. *)
Fixpoint float_all (ui : gmap string pyval) (fs : list string)
  : result (list (string * spec_float)) :=
  match fs with
  | [] => Ok []
  | f :: fs' =>
      rbind (py_float (default (VFloat PyFloat.zero) (ui !! f)))
        (fun x => rbind (float_all ui fs') (fun r => Ok ((f, x) :: r)))
  end.

(** [float(ui.get(f, 0.0))], 0.0 standing in where it raises. *)
Definition base_value (ui : gmap string pyval) (f : string) : spec_float :=
  match py_float (default (VFloat PyFloat.zero) (ui !! f)) with
  | Ok x => x
  | Raise _ => PyFloat.zero
  end.

(** [row.get(name, dflt)] and [row[name] = x] on a dict given by its items;
    the key keeps its place. *)
Fixpoint item_get {A} (name : string) (dflt : A) (row : list (string * A)) : A :=
  match row with
  | [] => dflt
  | (k, x) :: row' => if String.eqb k name then x else item_get name dflt row'
  end.

Definition item_set {A} (name : string) (x : A) (row : list (string * A))
  : list (string * A) :=
  if bool_decide (name ∈ row.*1) then
    map (fun kx => if String.eqb kx.1 name then (name, x) else kx) row
  else row ++ [(name, x)].

(** [x or y] on floats: zero is false, every other float, NaN too, is
    true. *)
Definition float_or (x y : spec_float) : spec_float :=
  match x with
  | S754_zero _ => y
  | _ => x
  end.

(** [pd.DataFrame(rows)] for dicts with the same keys: the columns are the
    keys, one row per dict; no dict, no column. *)
Definition frame_of_rows {A} (na : A) (rows : list (list (string * A)))
  : frame A :=
  match rows with
  | [] => empty_frame
  | r :: _ =>
      Frame (length rows)
        (map (fun k => (k, map (item_get k na) rows)) r.*1)
  end.

(** [try: body except Exception as e: handler(e)], with a result. *)
Definition try_with {A} (body : M A) (handler : exn -> M A) : M A :=
  fun w =>
    match body w with
    | (Ok a, w') => (Ok a, w')
    | (Raise e, w') => handler e w'
    end.

Section Preview.

(** The model and numpy's [linspace(start, stop, num)]. *)
Variable model : model_t.
Variable linspace : spec_float -> spec_float -> nat -> list spec_float.

Definition fmul (x y : spec_float) : spec_float :=
  SFmul PyFloat.prec PyFloat.emax x y.

(** The simulated rows: the base values with each price in turn. *)
Definition sim_rows (base_vals : list (string * spec_float))
    (prices : list spec_float) : list (list (string * spec_float)) :=
  map (fun p => item_set "price" p base_vals) prices.

(** The block that draws the real-time preview. *)
Definition preview (ui : gmap string pyval) : M chart :=
  try_with
    (base_vals ← lift (float_all ui MODEL_FEATURES);
     let base_price :=
       float_or (item_get "price" PyFloat.one base_vals) PyFloat.one in
     let prices :=
       linspace (fmul base_price (PyFloat.of_decimal false 9 (-1)))
                (fmul base_price (PyFloat.of_decimal false 11 (-1))) 30 in
     let sim_df := frame_of_rows PyFloat.nan (sim_rows base_vals prices) in
     sim_df ← lift (reorder (model_feature_names model) sim_df);
     sim_preds ← model_predict model sim_df;
     if Nat.eqb (length sim_preds) (length prices)
     then mret (Chart prices sim_preds)
     else lift (Raise ValueError))
    (fun e => mret (Unavailable e)).

End Preview.

(** ** Several requests in a row *)

Section Sessions.
Variable to_numeric : list pyval -> result (list spec_float).
Variable model : model_t.
Variable now : string.
Variable canvas : gmap string pyval -> spec_float -> result string.

(** The handlers run on the requests one after the other. *)
Fixpoint run_all (requests : list request) (w : world) : world :=
  match requests with
  | [] => w
  | r :: rest => run_all rest (handle to_numeric model now canvas r w).2
  end.

End Sessions.

(** The history file is absent, or is the header line followed by lines
    that have one cell for each of the fourteen columns. *)
Definition history_rectangular (w : world) : Prop :=
  match csv_history w with
  | None => True
  | Some lines =>
      exists rows, lines = map VStr HISTORY_COLUMNS :: rows /\
        Forall (fun line => length line = length HISTORY_COLUMNS) rows
  end.

(** ** Further worked inputs *)

(** A stand-in for [numpy.linspace]: [start + i * step], the last point
    being [stop]. *)
Definition linspace_steps (start stop : spec_float) (num : nat)
  : list spec_float :=
  let step :=
    SFdiv PyFloat.prec PyFloat.emax
      (SFsub PyFloat.prec PyFloat.emax stop start)
      (PyFloat.of_Z (Z.of_nat (num - 1))) in
  map (fun i =>
         if Nat.eqb (S i) num then stop
         else SFadd PyFloat.prec PyFloat.emax start
                (SFmul PyFloat.prec PyFloat.emax (PyFloat.of_Z (Z.of_nat i)) step))
      (seq 0 num).

(** The form's entries in the order of the dict. *)
Definition example_items : list (string * pyval) :=
  [("coin", VStr "bitcoin"); ("symbol", VStr "btc");
   ("price", VFloat (PyFloat.of_decimal false 100 0));
   ("1h", VFloat (PyFloat.of_decimal false 1 (-2)));
   ("24h", VFloat (PyFloat.of_decimal true 2 (-2)));
   ("7d", VFloat (PyFloat.of_decimal false 5 (-2)));
   ("24h_volume", VFloat (PyFloat.of_decimal false 1 6));
   ("mkt_cap", VFloat (PyFloat.of_decimal false 1 9));
   ("date", VStr "2022-03-16");
   ("liquidity_ratio", VFloat (PyFloat.of_decimal false 3 (-1)));
   ("price_change_24h", VFloat (PyFloat.of_decimal true 2 (-2)))].

(** Three appends: one row with its prediction; two rows with one
    prediction, which is refused; a frame without rows, to which the
    prediction gives its one row. *)
Definition example_appends : list append_t :=
  [(Frame 1 [("coin", [VStr "bitcoin"]); ("price", [VInt 100])],
    [VFloat x042], "single");
   (Frame 2 [("coin", [VStr "bitcoin"; VStr "ether"])], [VFloat x042], "batch");
   (Frame 0 [("coin", []); ("price", [])], [VFloat x042], "batch")].

(** A form with a feature left empty. *)
Definition blank_ui : gmap string pyval := <["mkt_cap" := VStr ""]> example_ui.

(** A second upload with the same features as the example upload and
    other columns besides. *)
Definition other_upload : frame pyval :=
  Frame 2 [("coin", [VStr "bitcoin"; VStr "ether"]);
           ("price", [VStr "N/A"; VInt 2])].

(** A stand-in for [str] on values and for the [.6f] format. *)
Definition example_str (v : pyval) : string :=
  match v with
  | VStr s => s
  | VNone => "None"
  | VBool true => "True"
  | VBool false => "False"
  | _ => "0.0"
  end.

Definition example_fmt6 (x : spec_float) : string := "0.420000".

(** The base values of the preview for the example form. *)
Definition example_base : list (string * spec_float) :=
  Eval vm_compute in
    match float_all example_ui MODEL_FEATURES with
    | Ok base => base
    | Raise _ => []
    end.

(** * Properties *)

(** ** Columns and selections *)

Section FrameFacts.
Context {A : Type}.
Implicit Types (df : frame A) (cs : list (string * list A)).

Lemma assoc_Some_elem cs name c :
  assoc name cs = Some c -> name ∈ cs.*1.
Proof.
  induction cs as [|[n c'] cs IH]; simpl; [discriminate|].
  destruct (String.eqb_spec n name) as [->|Hne]; intros H.
  - left.
  - right. auto.
Qed.

Lemma assoc_elem_Some cs name :
  name ∈ cs.*1 -> exists c, assoc name cs = Some c.
Proof.
  induction cs as [|[n c'] cs IH]; simpl; intros H.
  - inversion H.
  - destruct (String.eqb_spec n name) as [->|Hne]; [eauto|].
    apply IH. inversion H; subst; [congruence|assumption].
Qed.

Lemma assoc_None cs name : name ∉ cs.*1 -> assoc name cs = None.
Proof.
  intros Hn. destruct (assoc name cs) eqn:E; [|reflexivity].
  exfalso. eauto using assoc_Some_elem.
Qed.

Lemma has_column_true df name :
  has_column df name = true <-> name ∈ columns df.
Proof. unfold has_column. apply bool_decide_eq_true. Qed.

Lemma has_column_assoc df name :
  has_column df name = true <-> is_Some (assoc name (cols df)).
Proof.
  rewrite has_column_true. unfold columns. split.
  - intros H. destruct (assoc_elem_Some _ _ H) as [c Hc]. eauto.
  - intros [c Hc]. eauto using assoc_Some_elem.
Qed.

Lemma all_in_columns_true df names :
  all_in_columns df names = true <-> Forall (fun n => n ∈ columns df) names.
Proof.
  unfold all_in_columns. rewrite forallb_forall, Forall_forall.
  split; intros H n Hn.
  - apply has_column_true, H, list_elem_of_In, Hn.
  - apply has_column_true, H, list_elem_of_In, Hn.
Qed.

(** The column found under a name is the first of the columns of that
    name. *)
Lemma assoc_head_named df name : assoc name (cols df) = head (named name df).
Proof.
  unfold named. induction (cols df) as [|[n c] cs IH]; [reflexivity|].
  cbn [assoc List.filter fst]. destruct (String.eqb n name); [reflexivity|exact IH].
Qed.

Lemma named_single_assoc df name c :
  named name df = [c] -> assoc name (cols df) = Some c.
Proof. intros H. by rewrite assoc_head_named, H. Qed.

Lemma has_column_named df name :
  has_column df name = true <-> named name df <> [].
Proof.
  rewrite has_column_assoc, assoc_head_named.
  destruct (named name df); cbn [head]; split; intros H;
    [by destruct H|congruence|discriminate|eauto].
Qed.

Lemma has_column_false_named df name :
  has_column df name = false -> named name df = [].
Proof.
  intros H. destruct (named name df) as [|c l] eqn:E; [reflexivity|].
  assert (Ht : has_column df name = true).
  { apply has_column_named. rewrite E. discriminate. }
  congruence.
Qed.

Lemma named_app n cs cs' name :
  named name (Frame n (cs ++ cs'))
    = named name (Frame n cs) ++ named name (Frame n cs').
Proof. unfold named. cbn [cols]. by rewrite List.filter_app, fmap_app. Qed.

(** Selecting names that are all columns succeeds, emits exactly those
    names in that order, and copies the cells. *)
Lemma select_cols_ok cs names :
  Forall (fun n => n ∈ cs.*1) names ->
  exists r, select_cols cs names = Ok r /\ r.*1 = names /\
    forall f c, assoc f r = Some c -> assoc f cs = Some c.
Proof.
  induction 1 as [|n names Hn _ IH]; simpl.
  - exists []. split; [reflexivity|]. split; [reflexivity|discriminate].
  - destruct (assoc_elem_Some _ _ Hn) as [c Hc].
    destruct IH as (r & Hr & Hnames & Hcells).
    rewrite Hc, Hr. simpl. exists ((n, c) :: r).
    split; [reflexivity|]. split.
    + rewrite fmap_cons, Hnames. reflexivity.
    + intros f c'. simpl.
      destruct (String.eqb_spec n f) as [->|Hne]; [congruence|auto].
Qed.

Lemma select_ok df names :
  Forall (fun n => n ∈ columns df) names ->
  exists df', select df names = Ok df' /\ nrows df' = nrows df /\
    columns df' = names /\
    forall f c, assoc f (cols df') = Some c -> assoc f (cols df) = Some c.
Proof.
  intros H. destruct (select_cols_ok _ _ H) as (r & Hr & Hnames & Hcells).
  exists (Frame (nrows df) r). unfold select. rewrite Hr. auto.
Qed.

(** On a frame whose columns are the eight features, [reorder] never
    raises; it emits the declared names when the frame has them all and
    the canonical order otherwise. *)
Lemma reorder_features df names :
  columns df = MODEL_FEATURES ->
  exists df', reorder names df = Ok df' /\ nrows df' = nrows df /\
    columns df' = (if declared_usable names then names else MODEL_FEATURES) /\
    forall f c, assoc f (cols df') = Some c -> assoc f (cols df) = Some c.
Proof.
  intros Hcols. unfold reorder.
  assert (Hall : all_in_columns df names = declared_usable names).
  { unfold all_in_columns, declared_usable, has_column. by rewrite Hcols. }
  rewrite Hall. destruct (declared_usable names) eqn:E.
  - apply select_ok. apply all_in_columns_true. congruence.
  - apply select_ok. rewrite Hcols. apply Forall_forall. auto.
Qed.

End FrameFacts.

(** ** The adapter, single mode *)

Section AdapterFacts.

Lemma assoc_map_key {A} (g : string -> list A) (l : list string) f c :
  assoc f (map (fun k => (k, g k)) l) = Some c -> f ∈ l /\ c = g f.
Proof.
  induction l as [|k l IH]; simpl; [discriminate|].
  destruct (String.eqb_spec k f) as [->|Hne].
  - intros [= <-]. split; [left|reflexivity].
  - intros H. destruct (IH H) as [Hin ->]. split; [by right|reflexivity].
Qed.

Lemma columns_map_key {A} (n : nat) (g : string -> list A) (l : list string) :
  columns (Frame n (map (fun k => (k, g k)) l)) = l.
Proof.
  unfold columns; simpl. induction l as [|k l IH]; [reflexivity|].
  rewrite map_cons, fmap_cons, IH. reflexivity.
Qed.

(** What the loop body stores for a feature, by cases on the dict. *)
Lemma coerce_feature_cases (d : gmap string pyval) f :
  coerce_feature d f =
    match d !! f with
    | None => PyFloat.zero
    | Some v =>
        if eq_empty_str v || is_None v then PyFloat.zero
        else match py_float v with Ok x => x | Raise _ => PyFloat.zero end
    end.
Proof.
  unfold coerce_feature. destruct (d !! f) as [v|]; simpl; [|reflexivity].
  destruct (eq_empty_str v || is_None v); reflexivity.
Qed.

(** The adapter never raises; its frame has one row, the columns chosen
    by [reorder], and in each column the coerced value of that name. *)
Lemma prepare_model_df_spec names (d : gmap string pyval) :
  exists df, prepare_model_df_from_ui_dict names d = Ok df /\
    nrows df = 1%nat /\
    columns df = (if declared_usable names then names else MODEL_FEATURES) /\
    forall f c, assoc f (cols df) = Some c ->
      f ∈ MODEL_FEATURES /\ c = [coerce_feature d f].
Proof.
  unfold prepare_model_df_from_ui_dict, one_row_frame.
  rewrite map_map. simpl fst; simpl snd.
  set (g := fun f => [coerce_feature d f]).
  change (map _ MODEL_FEATURES) with (map (fun k => (k, g k)) MODEL_FEATURES).
  destruct (reorder_features (Frame 1 (map (fun k => (k, g k)) MODEL_FEATURES))
              names (columns_map_key _ _ _)) as (df & Hdf & Hn & Hc & Hcells).
  exists df. split; [exact Hdf|]. split; [exact Hn|]. split; [exact Hc|].
  intros f c Hf. apply Hcells in Hf.
  exact (assoc_map_key g MODEL_FEATURES f c Hf).
Qed.

End AdapterFacts.

(** ** Writing columns *)

Section PutColFacts.
Context {A : Type}.
Implicit Types (df : frame A) (cs : list (string * list A)).

Lemma assoc_app cs cs' f :
  assoc f (cs ++ cs') =
    match assoc f cs with Some c => Some c | None => assoc f cs' end.
Proof.
  induction cs as [|[n c] cs IH]; simpl; [reflexivity|].
  destruct (String.eqb n f); [reflexivity|exact IH].
Qed.

Lemma assoc_replace_eq cs name c :
  name ∈ cs.*1 ->
  assoc name (map (fun nc => if String.eqb nc.1 name then (name, c) else nc) cs)
    = Some c.
Proof.
  induction cs as [|[n c'] cs IH]; intros H; [inversion H|].
  simpl. destruct (String.eqb_spec n name) as [->|Hne]; simpl.
  - by rewrite String.eqb_refl.
  - destruct (String.eqb_spec n name); [congruence|].
    apply IH. inversion H; subst; [congruence|assumption].
Qed.

Lemma assoc_replace_ne cs name c f :
  f <> name ->
  assoc f (map (fun nc => if String.eqb nc.1 name then (name, c) else nc) cs)
    = assoc f cs.
Proof.
  intros Hf. induction cs as [|[n c'] cs IH]; [reflexivity|].
  simpl. destruct (String.eqb_spec n name) as [->|Hne]; simpl.
  - destruct (String.eqb_spec name f); [congruence|exact IH].
  - destruct (String.eqb n f); [reflexivity|exact IH].
Qed.

Lemma names_replace cs name c :
  (map (fun nc => if String.eqb nc.1 name then (name, c) else nc) cs).*1 = cs.*1.
Proof.
  induction cs as [|[n c'] cs IH]; [reflexivity|].
  rewrite map_cons, !fmap_cons, IH. simpl.
  destruct (String.eqb_spec n name) as [->|Hne]; reflexivity.
Qed.

Lemma nrows_put_col df name c : nrows (put_col df name c) = nrows df.
Proof. unfold put_col. destruct (has_column df name); reflexivity. Qed.

Lemma columns_put_col df name c :
  columns (put_col df name c) =
    if has_column df name then columns df else columns df ++ [name].
Proof.
  unfold put_col. destruct (has_column df name); unfold columns; simpl.
  - apply names_replace.
  - by rewrite fmap_app.
Qed.

Lemma assoc_put_col_eq df name c :
  assoc name (cols (put_col df name c)) = Some c.
Proof.
  unfold put_col. destruct (has_column df name) eqn:E; simpl.
  - apply assoc_replace_eq. by apply has_column_true.
  - rewrite assoc_app, assoc_None; simpl.
    + by rewrite String.eqb_refl.
    + intros H. apply has_column_true in H. congruence.
Qed.

Lemma assoc_put_col_ne df name c f :
  f <> name -> assoc f (cols (put_col df name c)) = assoc f (cols df).
Proof.
  intros Hf. unfold put_col. destruct (has_column df name); simpl.
  - by apply assoc_replace_ne.
  - rewrite assoc_app. destruct (assoc f (cols df)); [reflexivity|].
    simpl. destruct (String.eqb_spec name f); congruence.
Qed.

Lemma wf_put_col df name c :
  wf_frame df -> length c = nrows df -> wf_frame (put_col df name c).
Proof.
  unfold wf_frame, put_col. intros Hwf Hc.
  destruct (has_column df name); simpl.
  - apply Forall_map. eapply Forall_impl; [exact Hwf|].
    intros [n c'] H; simpl in *. destruct (String.eqb n name); simpl; auto.
  - apply Forall_app. split; [exact Hwf|]. by constructor.
Qed.

Lemma wf_assoc_length df name c :
  wf_frame df -> assoc name (cols df) = Some c -> length c = nrows df.
Proof.
  unfold wf_frame. induction 1 as [|[n c'] cs Hc _ IH]; simpl; [discriminate|].
  destruct (String.eqb n name); [intros [= <-]; exact Hc|exact IH].
Qed.

(** A scalar column on a frame that lacks the name goes last. *)
Lemma set_col_scalar_new df name v :
  has_column df name = false ->
  set_col_scalar df name v =
    Frame (nrows df) (cols df ++ [(name, replicate (nrows df) v)]).
Proof. intros H. unfold set_col_scalar, put_col. by rewrite H. Qed.

(** Assigning as many values as there are rows succeeds. *)
Lemma set_col_list_ok na df name values :
  length values = nrows df ->
  set_col_list na df name values = Ok (put_col df name values).
Proof.
  intros Hlen. unfold set_col_list. rewrite Hlen, Nat.eqb_refl.
  by destruct (Nat.eqb (nrows df) 0).
Qed.

Lemma set_col_list_mismatch na df name values :
  nrows df <> 0%nat -> length values <> nrows df ->
  set_col_list na df name values = Raise ValueError.
Proof.
  intros Hn Hlen. unfold set_col_list.
  apply Nat.eqb_neq in Hn, Hlen. by rewrite Hn, Hlen.
Qed.

(** On a frame without rows the values define the index. *)
Lemma set_col_list_index na df name values :
  nrows df = 0%nat -> length values <> 0%nat ->
  set_col_list na df name values
    = Ok (put_col (reindexed na (length values) df) name values).
Proof.
  intros Hn Hlen. unfold set_col_list.
  apply Nat.eqb_neq in Hlen. by rewrite Hn, Hlen.
Qed.

Lemma columns_reindexed na n df : columns (reindexed na n df) = columns df.
Proof.
  unfold columns, reindexed. cbn [cols].
  induction (cols df) as [|[k c] cs IH]; [reflexivity|].
  by rewrite map_cons, !fmap_cons, IH.
Qed.

Lemma has_column_reindexed na n df name :
  has_column (reindexed na n df) name = has_column df name.
Proof. unfold has_column. by rewrite columns_reindexed. Qed.

(** A series as long as the frame is stored as it is. *)
Lemma set_col_series_same na df name series :
  length series = nrows df ->
  set_col_series na df name series = put_col df name series.
Proof.
  intros Hlen. unfold set_col_series. rewrite <- Hlen.
  rewrite take_app_length.
  by destruct (Nat.eqb (length series) 0).
Qed.

Lemma columns_set_col_series na df name series :
  columns (set_col_series na df name series)
    = if has_column df name then columns df else columns df ++ [name].
Proof.
  unfold set_col_series.
  destruct (Nat.eqb (nrows df) 0 && negb (Nat.eqb (length series) 0)).
  - by rewrite columns_put_col, has_column_reindexed, columns_reindexed.
  - apply columns_put_col.
Qed.

End PutColFacts.

(** ** The adapter, batch mode *)

Section BatchFacts.
Implicit Types (df ed : frame pyval).

Lemma fill_step_nrows df col : nrows (fill_step df col) = nrows df.
Proof.
  unfold fill_step. destruct (has_column df col); [reflexivity|].
  apply nrows_put_col.
Qed.

(** A step keeps every column the frame had and adds at most the
    default column of its field. *)
Lemma fill_step_assoc df col f :
  assoc f (cols (fill_step df col)) =
    match assoc f (cols df) with
    | Some c => Some c
    | None =>
        if String.eqb col f then Some (replicate (nrows df) (ui_default col))
        else None
    end.
Proof.
  unfold fill_step. destruct (has_column df col) eqn:E.
  - destruct (assoc f (cols df)) eqn:Ef; [reflexivity|].
    destruct (String.eqb_spec col f) as [->|]; [|reflexivity].
    apply has_column_assoc in E. rewrite Ef in E. by destruct E.
  - rewrite set_col_scalar_new by exact E. simpl. rewrite assoc_app.
    reflexivity.
Qed.

Lemma fill_fold_nrows fs df : nrows (fold_left fill_step fs df) = nrows df.
Proof.
  revert df. induction fs as [|f fs IH]; intros df; simpl; [reflexivity|].
  by rewrite IH, fill_step_nrows.
Qed.

Lemma fill_fold_keeps fs df f c :
  assoc f (cols df) = Some c ->
  assoc f (cols (fold_left fill_step fs df)) = Some c.
Proof.
  revert df. induction fs as [|g fs IH]; intros df H; simpl; [exact H|].
  apply IH. by rewrite fill_step_assoc, H.
Qed.

(** After the loop a field that the upload lacked holds its default in
    every row. *)
Lemma fill_fold_new fs df f :
  f ∈ fs -> assoc f (cols df) = None ->
  assoc f (cols (fold_left fill_step fs df))
    = Some (replicate (nrows df) (ui_default f)).
Proof.
  revert df. induction fs as [|g fs IH]; intros df Hin Hf; [inversion Hin|].
  simpl. destruct (String.eqb_spec g f) as [->|Hne].
  - apply fill_fold_keeps. rewrite fill_step_assoc, Hf.
    by rewrite String.eqb_refl.
  - rewrite IH.
    + by rewrite fill_step_nrows.
    + inversion Hin; subst; [congruence|assumption].
    + rewrite fill_step_assoc, Hf.
      destruct (String.eqb_spec g f); [congruence|reflexivity].
Qed.

Lemma fill_ui_fields_column ed f :
  f ∈ UI_FIELDS ->
  assoc f (cols (fill_ui_fields ed)) = Some (ui_column ed f).
Proof.
  intros Hf. unfold fill_ui_fields, ui_column.
  destruct (assoc f (cols ed)) eqn:E.
  - by apply fill_fold_keeps.
  - by apply fill_fold_new.
Qed.

Lemma ui_column_length ed f :
  wf_frame ed -> length (ui_column ed f) = nrows ed.
Proof.
  intros Hwf. unfold ui_column. destruct (assoc f (cols ed)) eqn:E.
  - eauto using wf_assoc_length.
  - apply length_replicate.
Qed.

Lemma filter_all_false {A} (P : A -> bool) l :
  (forall x, x ∈ l -> P x = false) -> List.filter P l = [].
Proof.
  induction l as [|x l IH]; intros H; [reflexivity|]. cbn [List.filter].
  rewrite (H x) by left. apply IH. intros y Hy. apply H. by right.
Qed.

Lemma has_column_snoc df f (c : list pyval) g :
  g <> f ->
  has_column (Frame (nrows df) (cols df ++ [(f, c)])) g = has_column df g.
Proof.
  intros Hg. unfold has_column, columns. cbn [cols]. rewrite fmap_app.
  apply bool_decide_ext. rewrite elem_of_app. cbn [fmap list_fmap fst].
  rewrite list_elem_of_singleton. tauto.
Qed.

(** The loop over the fields [fs], none repeated: the frame's columns stay
    in front and the fields it lacked follow in the order of [fs], each
    with its default in every row. *)
Lemma fill_fold_cols fs : forall df,
  NoDup fs ->
  fold_left fill_step fs df =
    Frame (nrows df)
      (cols df ++
       map (fun f => (f, replicate (nrows df) (ui_default f)))
         (List.filter (fun f => negb (has_column df f)) fs)).
Proof.
  induction fs as [|f fs IH]; intros df Hnd.
  - cbn [fold_left List.filter map]. rewrite app_nil_r. by destruct df.
  - apply NoDup_cons in Hnd as [Hf Hnd]. cbn [fold_left List.filter].
    unfold fill_step at 2. destruct (has_column df f) eqn:E; cbn [negb].
    + by apply IH.
    + rewrite set_col_scalar_new by exact E. rewrite IH by exact Hnd.
      cbn [nrows cols map]. rewrite <- app_assoc. cbn [app].
      assert (Hfilter :
        List.filter (fun g => negb (has_column
                       (Frame (nrows df)
                          (cols df ++ [(f, replicate (nrows df) (ui_default f))])) g)) fs
        = List.filter (fun g => negb (has_column df g)) fs).
      { apply filter_ext_in. intros g Hg. f_equal.
        apply has_column_snoc. intros ->. by apply Hf, list_elem_of_In. }
      by rewrite Hfilter.
Qed.

Lemma NoDup_UI_FIELDS : NoDup UI_FIELDS.
Proof. apply (bool_decide_unpack (NoDup UI_FIELDS)). vm_compute. exact I. Qed.

(** The columns of one name among columns with distinct names. *)
Lemma named_added n (R : string -> list pyval) (L : list string) f :
  NoDup L ->
  named f (Frame n (map (fun g => (g, R g)) L))
    = if bool_decide (f ∈ L) then [R f] else [].
Proof.
  unfold named. cbn [cols]. induction L as [|g L IH]; intros Hnd.
  - reflexivity.
  - apply NoDup_cons in Hnd as [Hg Hnd]. cbn [map List.filter fst].
    destruct (String.eqb_spec g f) as [->|Hne].
    + rewrite fmap_cons, IH by exact Hnd. cbn [snd].
      rewrite (bool_decide_eq_false_2 (f ∈ L)) by exact Hg.
      rewrite bool_decide_eq_true_2 by left. reflexivity.
    + rewrite IH by exact Hnd.
      apply (f_equal (fun b : bool => if b then [R f] else [])).
      apply bool_decide_ext. rewrite elem_of_cons.
      split; [by right|intros [->|H]; [by destruct Hne|exact H]].
Qed.

(** After the loop the columns named by a UI field are those the upload
    had, or the one default column when it had none. *)
Lemma named_fill_ui_fields ed f :
  f ∈ UI_FIELDS ->
  named f (fill_ui_fields ed)
    = if has_column ed f then named f ed
      else [replicate (nrows ed) (ui_default f)].
Proof.
  intros Hf. unfold fill_ui_fields. rewrite fill_fold_cols by exact NoDup_UI_FIELDS.
  rewrite named_app.
  rewrite (named_added _ (fun g => replicate (nrows ed) (ui_default g)))
    by (apply NoDup_ListNoDup, List.NoDup_filter, NoDup_ListNoDup,
          NoDup_UI_FIELDS).
  assert (Hsame : named f (Frame (nrows ed) (cols ed)) = named f ed) by reflexivity.
  rewrite Hsame. destruct (has_column ed f) eqn:E.
  - rewrite bool_decide_eq_false_2; [by rewrite app_nil_r|].
    intros Hin. apply list_elem_of_In, filter_In in Hin as [_ Hn].
    by rewrite E in Hn.
  - rewrite bool_decide_eq_true_2.
    + by rewrite (has_column_false_named ed f E).
    + apply list_elem_of_In, filter_In.
      split; [by apply list_elem_of_In|by rewrite E].
Qed.

Lemma has_column_fill_ui_fields ed f :
  f ∈ UI_FIELDS -> has_column (fill_ui_fields ed) f = true.
Proof.
  intros Hf. apply has_column_assoc. rewrite fill_ui_fields_column by exact Hf.
  eauto.
Qed.

End BatchFacts.

Section ModelBatchFacts.
Variable to_numeric : list pyval -> result (list spec_float).
Implicit Types (ed ub : frame pyval) (mb : frame spec_float).

Lemma rbind_Ok {A B} (r : result A) (k : A -> result B) b :
  rbind r k = Ok b -> exists a, r = Ok a /\ k a = Ok b.
Proof. destruct r as [a|e]; cbn [rbind]; [eauto|discriminate]. Qed.

Lemma rbind_ok {A B} (a : A) (k : A -> result B) : rbind (Ok a) k = k a.
Proof. reflexivity. Qed.

Lemma rbind_raise {A B} e (k : A -> result B) : rbind (Raise e) k = Raise e.
Proof. reflexivity. Qed.

(** Derivation for a table: building the frame, then reordering it. *)
Lemma model_input_batch names ed :
  model_input to_numeric names (Batch ed)
    = rbind (build_model_batch to_numeric (fill_ui_fields ed)) (reorder names).
Proof. reflexivity. Qed.

Lemma MODEL_FEATURES_in_UI_FIELDS f : f ∈ MODEL_FEATURES -> f ∈ UI_FIELDS.
Proof.
  revert f. apply Forall_forall.
  apply (bool_decide_unpack (Forall (fun f => f ∈ UI_FIELDS) MODEL_FEATURES)).
  vm_compute. exact I.
Qed.

Lemma NoDup_MODEL_FEATURES : NoDup MODEL_FEATURES.
Proof. apply (bool_decide_unpack (NoDup MODEL_FEATURES)). vm_compute. exact I. Qed.

Lemma model_step_has ub mb f :
  has_column ub f = true ->
  model_step to_numeric ub mb f
    = rbind (feature_series to_numeric ub f)
            (fun series => Ok (set_col_series PyFloat.nan mb f series)).
Proof. intros H. unfold model_step. by rewrite H. Qed.

(** Once a step has raised, the loop is left. *)
Lemma build_fold_raise ub fs e :
  fold_left (fun acc f => rbind acc (fun mb => model_step to_numeric ub mb f))
    fs (Raise e) = Raise e.
Proof. induction fs as [|f fs IH]; [reflexivity|exact IH]. Qed.

(** When the loop returns, every feature's column was converted, and the
    frame is the one the converted columns make, stored one after the
    other. *)
Lemma build_fold_inv ub fs : forall mb mb',
  (forall f, f ∈ fs -> has_column ub f = true) ->
  fold_left (fun acc f => rbind acc (fun mb => model_step to_numeric ub mb f))
    fs (Ok mb) = Ok mb' ->
  let G := fun f => match feature_series to_numeric ub f with
                    | Ok series => series
                    | Raise _ => []
                    end in
  (forall f, f ∈ fs -> feature_series to_numeric ub f = Ok (G f)) /\
  mb' = fold_left (fun mb f => set_col_series PyFloat.nan mb f (G f)) fs mb.
Proof.
  induction fs as [|f fs IH]; intros mb mb' Hhas H G.
  - cbn [fold_left] in *. split; [intros f Hf; inversion Hf|congruence].
  - cbn [fold_left] in H. rewrite rbind_ok in H.
    rewrite model_step_has in H by (apply Hhas; left).
    destruct (feature_series to_numeric ub f) as [series|e] eqn:Es;
      [rewrite rbind_ok in H|rewrite rbind_raise in H].
    + apply IH in H as [Hall ->]; [|intros g Hg; apply Hhas; by right].
      split.
      * intros g Hg. apply elem_of_cons in Hg as [->|Hg]; [|by apply Hall].
        unfold G. by rewrite Es.
      * cbn [fold_left]. unfold G at 2. by rewrite Es.
    + by rewrite build_fold_raise in H.
Qed.

(** The first series stored defines the index. *)
Lemma set_col_series_first f (series : list spec_float) :
  set_col_series PyFloat.nan empty_frame f series
    = Frame (length series) [(f, series)].
Proof. destruct series; reflexivity. Qed.

Lemma model_fold n (G : string -> list spec_float) fs : forall pre,
  NoDup (pre ++ fs) ->
  (forall f, f ∈ fs -> length (G f) = n) ->
  fold_left (fun mb f => set_col_series PyFloat.nan mb f (G f)) fs
    (Frame n (map (fun f => (f, G f)) pre))
    = Frame n (map (fun f => (f, G f)) (pre ++ fs)).
Proof.
  induction fs as [|f fs IH]; intros pre Hnd Hfs; cbn [fold_left].
  - by rewrite app_nil_r.
  - rewrite set_col_series_same by (apply Hfs; left).
    assert (Hno : has_column (Frame n (map (fun f => (f, G f)) pre)) f = false).
    { apply bool_decide_eq_false. rewrite columns_map_key.
      apply NoDup_app in Hnd as (_ & Hd & _). intros Hin.
      apply (Hd f Hin). left. }
    unfold put_col. rewrite Hno. cbn [nrows cols].
    replace (map (fun f => (f, G f)) pre ++ [(f, G f)])
      with (map (fun f => (f, G f)) (pre ++ [f])) by (by rewrite map_app).
    rewrite IH.
    + by rewrite <- app_assoc.
    + by rewrite <- app_assoc.
    + intros g Hg. apply Hfs. by right.
Qed.

(** Series of one length [n] make the frame of [n] rows with the eight
    features in canonical order. *)
Lemma series_frame n (G : string -> list spec_float) :
  (forall f, f ∈ MODEL_FEATURES -> length (G f) = n) ->
  fold_left (fun mb f => set_col_series PyFloat.nan mb f (G f))
    MODEL_FEATURES empty_frame
    = Frame n (map (fun f => (f, G f)) MODEL_FEATURES).
Proof.
  intros Hlen.
  change MODEL_FEATURES with ("price" :: tail MODEL_FEATURES) at 1.
  cbn [fold_left]. rewrite set_col_series_first, (Hlen "price") by left.
  apply (model_fold n G (tail MODEL_FEATURES) ["price"]).
  - exact NoDup_MODEL_FEATURES.
  - intros f Hf. apply Hlen. by right.
Qed.

Lemma columns_fold_series (G : string -> list spec_float) fs : forall mb,
  NoDup (columns mb ++ fs) ->
  columns (fold_left (fun mb f => set_col_series PyFloat.nan mb f (G f)) fs mb)
    = columns mb ++ fs.
Proof.
  induction fs as [|f fs IH]; intros mb Hnd; cbn [fold_left].
  - by rewrite app_nil_r.
  - assert (Hno : has_column mb f = false).
    { apply bool_decide_eq_false. apply NoDup_app in Hnd as (_ & Hd & _).
      intros Hin. apply (Hd f Hin). left. }
    rewrite IH; rewrite columns_set_col_series, Hno.
    + by rewrite <- app_assoc.
    + by rewrite <- app_assoc.
Qed.

(** Whatever pandas answers, a frame that was built has the eight
    features as its columns, in canonical order. *)
Lemma build_model_batch_columns ub mb :
  (forall f, f ∈ MODEL_FEATURES -> has_column ub f = true) ->
  build_model_batch to_numeric ub = Ok mb -> columns mb = MODEL_FEATURES.
Proof.
  intros Hhas H. unfold build_model_batch in H.
  apply build_fold_inv in H as [_ ->]; [|exact Hhas].
  rewrite columns_fold_series; [reflexivity|exact NoDup_MODEL_FEATURES].
Qed.

(** The frame built from a completed table: one row per row of the table
    and, for each feature, the numbers pandas made of its one column, the
    NaN among them replaced by 0.0. *)
Lemma build_model_batch_cells ub n mb :
  keeps_length to_numeric ->
  (forall f, f ∈ MODEL_FEATURES -> has_column ub f = true) ->
  (forall f c, f ∈ MODEL_FEATURES -> named f ub = [c] -> length c = n) ->
  build_model_batch to_numeric ub = Ok mb ->
  exists N : string -> list spec_float,
    (forall f, f ∈ MODEL_FEATURES ->
       exists c, named f ub = [c] /\ to_numeric c = Ok (N f)) /\
    mb = Frame n (map (fun f => (f, map (fillna PyFloat.zero) (N f))) MODEL_FEATURES).
Proof.
  intros Hkeep Hhas Hlen H. unfold build_model_batch in H.
  apply build_fold_inv in H as [Hall ->]; [|exact Hhas].
  assert (Hconv : forall f, f ∈ MODEL_FEATURES ->
            exists c nums, named f ub = [c] /\ to_numeric c = Ok nums /\
              feature_series to_numeric ub f = Ok (map (fillna PyFloat.zero) nums)).
  { intros f Hf. specialize (Hall f Hf). revert Hall. unfold feature_series.
    destruct (named f ub) as [|c [|c' l]]; try discriminate.
    destruct (to_numeric c) as [nums|e] eqn:Ec; cbn [rbind]; [|discriminate].
    intros _. eauto. }
  exists (fun f => match named f ub with
                   | [c] => match to_numeric c with Ok nums => nums | Raise _ => [] end
                   | _ => []
                   end).
  split.
  - intros f Hf. destruct (Hconv f Hf) as (c & nums & Hc & Hn & _).
    exists c. rewrite Hc, Hn. auto.
  - rewrite (series_frame n).
    + f_equal. apply map_ext_in. intros f Hf. apply list_elem_of_In in Hf.
      destruct (Hconv f Hf) as (c & nums & Hc & Hn & Hs).
      by rewrite Hs, Hc, Hn.
    + intros f Hf. destruct (Hconv f Hf) as (c & nums & Hc & Hn & Hs).
      rewrite Hs, length_map, (Hkeep c nums Hn). by apply (Hlen f).
Qed.

(** The frame depends on the table through the columns named by the
    features only. *)
Lemma build_model_batch_ext ub1 ub2 :
  (forall f, f ∈ MODEL_FEATURES -> named f ub1 = named f ub2) ->
  build_model_batch to_numeric ub1 = build_model_batch to_numeric ub2.
Proof.
  intros Hsame. unfold build_model_batch.
  generalize (Ok (A:=frame spec_float) empty_frame).
  revert Hsame. generalize MODEL_FEATURES.
  induction l as [|f fs IH]; intros Hsame acc; [reflexivity|].
  cbn [fold_left].
  assert (Hstep : forall mb, model_step to_numeric ub1 mb f
                             = model_step to_numeric ub2 mb f).
  { intros mb. unfold model_step, feature_series.
    assert (Hhas : has_column ub1 f = has_column ub2 f).
    { apply eq_true_iff_eq. rewrite !has_column_named, Hsame by left. tauto. }
    by rewrite Hhas, Hsame by left. }
  destruct acc as [mb|e]; [rewrite !rbind_ok|rewrite !rbind_raise].
  - rewrite Hstep. apply IH. intros g Hg. apply Hsame. by right.
  - apply IH. intros g Hg. apply Hsame. by right.
Qed.

End ModelBatchFacts.

(** ** Running the handlers *)

Section HandlerFacts.
Variable model : model_t.
Variable now : string.
Variable canvas : gmap string pyval -> spec_float -> result string.

Ltac run :=
  unfold try_except, model_predict, generate_pdf, save_history_csv,
    st_success, st_error, st_warning, st_dataframe, logging,
    modify, lift, gets, mbind, M_bind, mret, M_ret;
  cbv beta iota zeta.

Lemma save_history_csv_ok ui_df preds mode out w :
  set_col_list (VFloat PyFloat.nan) ui_df "prediction" preds = Ok out ->
  save_history_csv now ui_df preds mode w
    = (Ok tt, with_history (appended w (stamp now mode out)) w).
Proof.
  intros H. run. rewrite H. cbv beta iota. unfold appended, stamp.
  destruct (csv_history w); reflexivity.
Qed.

Lemma save_history_csv_raise ui_df preds mode e w :
  set_col_list (VFloat PyFloat.nan) ui_df "prediction" preds = Raise e ->
  save_history_csv now ui_df preds mode w = (Raise e, w).
Proof. intros H. run. rewrite H. reflexivity. Qed.

(** The single handler, step by step, when the model returns. *)
Lemma predict_button_returns ui w df p rest :
  prepare_model_df_from_ui_dict (model_feature_names model) ui = Ok df ->
  predict model df = Ok (p :: rest) ->
  predict_button model now canvas ui w =
    match canvas ui p with
    | Ok path =>
        (Ok tt, with_widget (StDownloadPdf path)
                  (with_report path (after_single now ui df p w)))
    | Raise e =>
        (Ok tt, with_log (LogException "Prediction failed")
                  (with_widget (StError "Prediction failed" e)
                     (after_single now ui df p w)))
    end.
Proof.
  intros Hprep Hpred. unfold predict_button.
  unfold try_except, model_predict, generate_pdf, st_success, st_error,
    logging, modify, lift, gets, mbind, M_bind, mret, M_ret.
  cbv beta iota zeta. rewrite Hprep. cbv beta iota. rewrite Hpred.
  unfold first_pred. cbv beta iota.
  rewrite (save_history_csv_ok _ _ _ (put_col (ui_frame ui) "prediction" [VFloat p])).
  - cbv beta iota. unfold after_single, single_out, ui_frame.
    destruct (canvas ui p); reflexivity.
  - reflexivity.
Qed.

(** The single handler when derivation or the model raises. *)
Lemma predict_button_raises ui w e :
  rbind (prepare_model_df_from_ui_dict (model_feature_names model) ui)
        (predict model) = Raise e ->
  exists w1,
    predict_button model now canvas ui w =
      (Ok tt, with_log (LogException "Prediction failed")
                (with_widget (StError "Prediction failed" e) w1)) /\
    csv_history w1 = csv_history w /\ report_files w1 = report_files w /\
    screen w1 = screen w.
Proof.
  intros H. unfold predict_button.
  unfold try_except, model_predict, generate_pdf, st_success, st_error,
    logging, modify, lift, gets, mbind, M_bind, mret, M_ret.
  cbv beta iota zeta.
  destruct (prepare_model_df_from_ui_dict (model_feature_names model) ui)
    as [df|e'] eqn:Hprep; simpl in H.
  - cbv beta iota. rewrite H. cbv beta iota.
    exists (with_call df w). auto.
  - injection H as ->. exists w. auto.
Qed.

End HandlerFacts.

(** ** Reading the history back *)

Section HistoryFacts.

Lemma header_names :
  map header_name (map VStr HISTORY_COLUMNS) = HISTORY_COLUMNS.
Proof. vm_compute. reflexivity. Qed.

(** Reading after an append of a frame with the history's columns gives
    the rows that were there, then the frame's rows. *)
Lemma read_history_appended w w2 out :
  history_ok w -> columns out = HISTORY_COLUMNS ->
  csv_history w2 = appended w out ->
  exists old, read_history w = Ok old /\
    read_history w2 = Ok (old ++ map (zip HISTORY_COLUMNS) (rows_of VNone out)) /\
    history_ok w2.
Proof.
  unfold history_ok, appended, read_history, to_csv.
  intros Hok Hcols ->. destruct (csv_history w) as [lines|].
  - destruct Hok as [rows ->]. exists (map (zip HISTORY_COLUMNS) rows).
    rewrite <- app_comm_cons, header_names, app_nil_l, map_app. eauto.
  - exists []. rewrite Hcols. cbn [app]. rewrite header_names. eauto.
Qed.

Lemma single_out_columns now ui p :
  columns (single_out now ui p) = HISTORY_COLUMNS.
Proof.
  unfold single_out, ui_frame.
  set (g := fun k : string => default (VStr "") (ui !! k)).
  change (map _ UI_FIELDS) with (map (fun k => (k, g k)) UI_FIELDS).
  clearbody g. vm_compute. reflexivity.
Qed.

Lemma single_out_rows now ui p :
  rows_of VNone (single_out now ui p) =
    [map (fun k => default (VStr "") (ui !! k)) UI_FIELDS
       ++ [VFloat p; VStr "single"; VStr now]].
Proof.
  unfold single_out, ui_frame.
  set (g := fun k : string => default (VStr "") (ui !! k)).
  change (map (fun k => default (VStr "") (ui !! k)) UI_FIELDS)
    with (map g UI_FIELDS).
  change (map (fun k => (k, default (VStr "") (ui !! k))) UI_FIELDS)
    with (map (fun k => (k, g k)) UI_FIELDS).
  clearbody g. vm_compute. reflexivity.
Qed.

(** The three columns the history adds, in a row read back. *)
Lemma history_row_fields (cells : string -> pyval) p mode now :
  let row := zip HISTORY_COLUMNS
               (map cells UI_FIELDS ++ [VFloat p; VStr mode; VStr now]) in
  field "prediction" row = Some (VFloat p) /\
  field "mode" row = Some (VStr mode) /\
  field "timestamp" row = Some (VStr now).
Proof. vm_compute. auto. Qed.

Lemma nrows_stamp now mode df : nrows (stamp now mode df) = nrows df.
Proof. unfold stamp, set_col_scalar. by rewrite !nrows_put_col. Qed.

(** The columns of a stamped frame. *)
Lemma assoc_stamp now mode df name :
  assoc name (cols (stamp now mode df)) =
    if String.eqb name "timestamp" then Some (replicate (nrows df) (VStr now))
    else if String.eqb name "mode" then Some (replicate (nrows df) (VStr mode))
    else assoc name (cols df).
Proof.
  unfold stamp, set_col_scalar.
  destruct (String.eqb_spec name "timestamp") as [->|Ht].
  - by rewrite assoc_put_col_eq, nrows_put_col.
  - rewrite assoc_put_col_ne by exact Ht.
    destruct (String.eqb_spec name "mode") as [->|Hm].
    + by rewrite assoc_put_col_eq.
    + by rewrite assoc_put_col_ne by exact Hm.
Qed.

End HistoryFacts.

(** ** Running the batch handler *)

Section BatchHandlerFacts.
Variable to_numeric : list pyval -> result (list spec_float).
Variable model : model_t.
Variable now : string.
Implicit Types (ed : frame pyval).

(** The frame derived from an upload has the columns [reorder] chooses
    among the eight features. *)
Lemma batch_columns ed names mb :
  model_input to_numeric names (Batch ed) = Ok mb ->
  columns mb = (if declared_usable names then names else MODEL_FEATURES) /\
  forall f c, assoc f (cols mb) = Some c -> f ∈ MODEL_FEATURES.
Proof.
  rewrite model_input_batch. intros H.
  apply rbind_Ok in H as (mb0 & Hbuild & Hre).
  assert (Hc0 : columns mb0 = MODEL_FEATURES).
  { apply (build_model_batch_columns to_numeric (fill_ui_fields ed)); [|exact Hbuild].
    intros f Hf. by apply has_column_fill_ui_fields, MODEL_FEATURES_in_UI_FIELDS. }
  destruct (reorder_features mb0 names Hc0) as (mb' & Hmb' & _ & Hc & Hcells).
  assert (mb' = mb) by congruence. subst mb'.
  split; [exact Hc|]. intros f c Hf. apply Hcells in Hf.
  rewrite <- Hc0. unfold columns. eauto using assoc_Some_elem.
Qed.

(** When pandas answers with one number per cell, the frame derived from
    a well-formed upload has one row per uploaded row, and each of its
    columns holds the numbers pandas made of the upload's column of that
    name (or of the default column), NaN replaced by 0.0. *)
Lemma batch_cells ed names mb :
  wf_frame ed -> keeps_length to_numeric ->
  model_input to_numeric names (Batch ed) = Ok mb ->
  nrows mb = nrows ed /\
  forall f c, assoc f (cols mb) = Some c ->
    exists nums, to_numeric (ui_column ed f) = Ok nums /\
      c = map (fillna PyFloat.zero) nums /\ length c = nrows ed.
Proof.
  intros Hwf Hkeep. rewrite model_input_batch. intros H.
  apply rbind_Ok in H as (mb0 & Hbuild & Hre).
  assert (Hhas : forall f, f ∈ MODEL_FEATURES ->
            has_column (fill_ui_fields ed) f = true).
  { intros f Hf. by apply has_column_fill_ui_fields, MODEL_FEATURES_in_UI_FIELDS. }
  assert (Hone : forall f c, f ∈ MODEL_FEATURES ->
            named f (fill_ui_fields ed) = [c] -> c = ui_column ed f).
  { intros f c Hf Hc. apply named_single_assoc in Hc.
    rewrite fill_ui_fields_column in Hc
      by (by apply MODEL_FEATURES_in_UI_FIELDS).
    congruence. }
  destruct (build_model_batch_cells to_numeric (fill_ui_fields ed) (nrows ed) mb0
              Hkeep Hhas) as (N & HN & ->); [|exact Hbuild|].
  { intros f c Hf Hc. rewrite (Hone f c Hf Hc). by apply ui_column_length. }
  destruct (reorder_features
              (Frame (nrows ed)
                 (map (fun f => (f, map (fillna PyFloat.zero) (N f))) MODEL_FEATURES))
              names (columns_map_key _ _ _)) as (mb' & Hmb' & Hn & _ & Hcells).
  assert (mb' = mb) by congruence. subst mb'.
  split; [exact Hn|]. intros f c Hf. apply Hcells in Hf.
  apply assoc_map_key in Hf as [Hin ->].
  destruct (HN f Hin) as (c0 & Hc0 & Hnum). exists (N f).
  rewrite <- (Hone f c0 Hin Hc0). split; [exact Hnum|]. split; [reflexivity|].
  rewrite length_map, (Hkeep c0 (N f) Hnum), (Hone f c0 Hin Hc0).
  by apply ui_column_length.
Qed.

Lemma nrows_fill_ui_fields ed : nrows (fill_ui_fields ed) = nrows ed.
Proof. apply fill_fold_nrows. Qed.

Lemma nrows_batch_out ed preds :
  nrows (shown_table (fill_ui_fields ed) preds) = nrows ed.
Proof.
  unfold shown_table. by rewrite nrows_put_col, nrows_fill_ui_fields.
Qed.

Ltac run_batch :=
  unfold batch_predict, model_predict, st_dataframe, logging, modify, lift,
    mbind, M_bind;
  cbv beta iota zeta.

Lemma batch_predict_derivation_raises ub w e :
  rbind (build_model_batch to_numeric ub) (reorder (model_feature_names model))
    = Raise e ->
  batch_predict to_numeric model now ub w = (Raise e, w).
Proof.
  intros Hmb. run_batch.
  destruct (build_model_batch to_numeric ub) as [mb0|e0]; cbn [rbind] in Hmb.
  - cbv beta iota. rewrite Hmb. reflexivity.
  - congruence.
Qed.

Lemma batch_predict_raises ub w mb e :
  rbind (build_model_batch to_numeric ub) (reorder (model_feature_names model)) = Ok mb ->
  predict model mb = Raise e ->
  batch_predict to_numeric model now ub w = (Raise e, with_call mb w).
Proof.
  intros Hmb Hpred. apply rbind_Ok in Hmb as (mb0 & Hbuild & Hmb).
  run_batch. rewrite Hbuild. cbv beta iota. rewrite Hmb. cbv beta iota.
  rewrite Hpred. reflexivity.
Qed.

Lemma batch_predict_mismatch ub w mb preds :
  rbind (build_model_batch to_numeric ub) (reorder (model_feature_names model)) = Ok mb ->
  predict model mb = Ok preds ->
  nrows ub <> 0%nat -> length preds <> nrows ub ->
  batch_predict to_numeric model now ub w = (Raise ValueError, with_call mb w).
Proof.
  intros Hmb Hpred Hne Hlen. apply rbind_Ok in Hmb as (mb0 & Hbuild & Hmb).
  run_batch. rewrite Hbuild. cbv beta iota. rewrite Hmb. cbv beta iota.
  rewrite Hpred. cbv beta iota.
  rewrite set_col_list_mismatch; [reflexivity|exact Hne|by rewrite length_map].
Qed.

Lemma batch_predict_returns ub w mb preds hist :
  rbind (build_model_batch to_numeric ub) (reorder (model_feature_names model)) = Ok mb ->
  predict model mb = Ok preds ->
  length preds = nrows ub ->
  select (shown_table ub preds) (UI_FIELDS ++ ["prediction"]) = Ok hist ->
  nrows hist = nrows ub ->
  batch_predict to_numeric model now ub w = (Ok tt, after_predict now ub mb preds hist w).
Proof.
  intros Hmb Hpred Hlen Hsel Hnh. apply rbind_Ok in Hmb as (mb0 & Hbuild & Hmb).
  run_batch. rewrite Hbuild. cbv beta iota. rewrite Hmb.
  cbv beta iota. rewrite Hpred. cbv beta iota.
  rewrite set_col_list_ok by (by rewrite length_map).
  cbv beta iota. unfold shown_table in Hsel. rewrite Hsel. cbv beta iota.
  rewrite (save_history_csv_ok now _ _ _ (put_col hist "prediction" (map VFloat preds))).
  - unfold after_predict, batch_logged, shown_table. cbv zeta. reflexivity.
  - apply set_col_list_ok. by rewrite length_map, Hlen, Hnh.
Qed.

Ltac run_button Hn :=
  unfold batch_button; apply Nat.eqb_neq in Hn; rewrite Hn;
  unfold try_except; cbv zeta.

Lemma batch_button_derivation_raises ed w e :
  nrows ed <> 0%nat ->
  rbind (build_model_batch to_numeric (fill_ui_fields ed))
        (reorder (model_feature_names model)) = Raise e ->
  batch_button to_numeric model now (Some ed) w = (Ok tt, batch_failed e w).
Proof.
  intros Hn Hmb. run_button Hn.
  rewrite (batch_predict_derivation_raises _ w e Hmb). reflexivity.
Qed.

Lemma batch_button_raises ed w mb e :
  nrows ed <> 0%nat ->
  rbind (build_model_batch to_numeric (fill_ui_fields ed))
        (reorder (model_feature_names model)) = Ok mb ->
  predict model mb = Raise e ->
  batch_button to_numeric model now (Some ed) w = (Ok tt, batch_failed e (with_call mb w)).
Proof.
  intros Hn Hmb Hpred. run_button Hn.
  rewrite (batch_predict_raises _ w mb e Hmb Hpred). reflexivity.
Qed.

Lemma batch_button_mismatch ed w mb preds :
  nrows ed <> 0%nat ->
  rbind (build_model_batch to_numeric (fill_ui_fields ed))
        (reorder (model_feature_names model)) = Ok mb ->
  predict model mb = Ok preds ->
  length preds <> nrows ed ->
  batch_button to_numeric model now (Some ed) w
    = (Ok tt, batch_failed ValueError (with_call mb w)).
Proof.
  intros Hn Hmb Hpred Hlen. pose proof Hn as Hn'. run_button Hn.
  rewrite (batch_predict_mismatch _ w mb preds Hmb Hpred).
  - reflexivity.
  - by rewrite nrows_fill_ui_fields.
  - by rewrite nrows_fill_ui_fields.
Qed.

(** Selecting the logged columns from the shown table. *)
Lemma batch_hist_ok ed preds :
  exists hist,
    select (shown_table (fill_ui_fields ed) preds) (UI_FIELDS ++ ["prediction"]) = Ok hist /\
    nrows hist = nrows ed /\
    columns hist = UI_FIELDS ++ ["prediction"] /\
    forall f c, assoc f (cols hist) = Some c ->
      assoc f (cols (shown_table (fill_ui_fields ed) preds)) = Some c.
Proof.
  destruct (select_ok (shown_table (fill_ui_fields ed) preds) (UI_FIELDS ++ ["prediction"]))
    as (hist & Hsel & Hn & Hc & Hcells).
  - apply Forall_app. split.
    + apply Forall_forall. intros f Hf. unfold columns.
      apply (assoc_Some_elem _ _ (ui_column ed f)).
      unfold shown_table.
      rewrite assoc_put_col_ne.
      * by apply fill_ui_fields_column.
      * intros ->. revert Hf.
        apply (bool_decide_unpack ("prediction" ∉ UI_FIELDS)).
        vm_compute. exact I.
    + constructor; [|constructor]. unfold columns.
      apply (assoc_Some_elem _ _ (map VFloat preds)).
      unfold shown_table. apply assoc_put_col_eq.
  - exists hist. rewrite Hn, nrows_batch_out. auto.
Qed.

Lemma batch_button_returns ed w mb preds hist :
  nrows ed <> 0%nat ->
  rbind (build_model_batch to_numeric (fill_ui_fields ed))
        (reorder (model_feature_names model)) = Ok mb ->
  predict model mb = Ok preds ->
  length preds = nrows ed ->
  select (shown_table (fill_ui_fields ed) preds) (UI_FIELDS ++ ["prediction"]) = Ok hist ->
  nrows hist = nrows ed ->
  batch_button to_numeric model now (Some ed) w = (Ok tt, after_predict now (fill_ui_fields ed) mb preds hist w).
Proof.
  intros Hn Hmb Hpred Hlen Hsel Hnh. run_button Hn.
  rewrite (batch_predict_returns _ w mb preds hist Hmb Hpred).
  - reflexivity.
  - by rewrite nrows_fill_ui_fields.
  - exact Hsel.
  - by rewrite nrows_fill_ui_fields.
Qed.

(** An empty table, or none, only shows the warning. *)
Lemma batch_button_empty (editable : option (frame pyval)) w :
  match editable with None => True | Some ed => nrows ed = 0%nat end ->
  batch_button to_numeric model now editable w = (Ok tt, with_widget (StWarning "No rows.") w).
Proof.
  destruct editable as [ed|]; intros H; unfold batch_button.
  - rewrite H. reflexivity.
  - reflexivity.
Qed.

End BatchHandlerFacts.

(** * The specification's claims *)

(** ** The single prediction and the history *)

Section SingleClaims.
Variable model : model_t.
Variable now : string.
Variable canvas : gmap string pyval -> spec_float -> result string.

(** The history after a single prediction [p], read back. *)
Lemma single_history ui p w w' :
  history_ok w ->
  csv_history w' = appended w (single_out now ui p) ->
  exists old row,
    read_history w = Ok old /\
    read_history w' = Ok (old ++ [row]) /\
    field "prediction" row = Some (VFloat p) /\
    field "mode" row = Some (VStr "single") /\
    field "timestamp" row = Some (VStr now) /\
    history_ok w'.
Proof.
  intros Hok Hw'.
  destruct (read_history_appended w w' (single_out now ui p) Hok
              (single_out_columns now ui p) Hw') as (old & Hold & Hnew & Hok').
  rewrite single_out_rows in Hnew. cbn [map] in Hnew.
  destruct (history_row_fields (fun k => default (VStr "") (ui !! k)) p "single" now)
    as (Hp & Hm & Ht).
  eexists old, _. split; [exact Hold|]. split; [exact Hnew|].
  split; [exact Hp|]. split; [exact Hm|]. split; [exact Ht|exact Hok'].
Qed.

(** Whatever the canvas does afterwards, the history file after a returned
    prediction is the old file with the new row. *)
Lemma predict_button_history ui w df p rest :
  prepare_model_df_from_ui_dict (model_feature_names model) ui = Ok df ->
  predict model df = Ok (p :: rest) ->
  csv_history (predict_button model now canvas ui w).2
    = appended w (single_out now ui p).
Proof.
  intros Hprep Hpred. rewrite (predict_button_returns _ _ _ _ _ _ _ _ Hprep Hpred).
  destruct (canvas ui p); reflexivity.
Qed.

(** C1. When the model call of the single handler returns, the prediction
    [p = float(preds[0])] is shown as the result and the history read back
    afterwards is the history before followed by exactly one row; that row
    carries the prediction [p], the mode "single" and the clock's
    timestamp. *)
Theorem predict_one_appends_history ui w df p rest :
  history_ok w ->
  prepare_model_df_from_ui_dict (model_feature_names model) ui = Ok df ->
  predict model df = Ok (p :: rest) ->
  exists old row shown,
    read_history w = Ok old /\
    read_history (predict_button model now canvas ui w).2 = Ok (old ++ [row]) /\
    length (old ++ [row]) = S (length old) /\
    field "prediction" row = Some (VFloat p) /\
    field "mode" row = Some (VStr "single") /\
    field "timestamp" row = Some (VStr now) /\
    screen (predict_button model now canvas ui w).2
      = screen w ++ StSuccess p :: shown.
Proof.
  intros Hok Hprep Hpred.
  destruct (single_history ui p w _ Hok (predict_button_history ui w df p rest Hprep Hpred))
    as (old & row & Hold & Hnew & Hp & Hm & Ht & _).
  exists old, row.
  rewrite (predict_button_returns _ _ _ _ _ _ _ _ Hprep Hpred) in *.
  destruct (canvas ui p) as [path|e].
  - exists [StDownloadPdf path]. repeat (split; [eassumption|]).
    split; [by rewrite length_app, Nat.add_1_r|].
    repeat (split; [eassumption|]).
    cbn [snd screen with_widget with_report with_log with_history with_call after_single].
    by rewrite <- app_assoc.
  - exists [StError "Prediction failed" e]. repeat (split; [eassumption|]).
    split; [by rewrite length_app, Nat.add_1_r|].
    repeat (split; [eassumption|]).
    cbn [snd screen with_widget with_report with_log with_history with_call after_single].
    by rewrite <- app_assoc.
Qed.

(** C10. When the model call returns but the PDF canvas raises, the page
    shows the prediction and then the error, and the history row is there
    all the same: the history read back has grown by exactly one row. *)
Theorem report_failure_keeps_history_row ui w df p rest e :
  history_ok w ->
  prepare_model_df_from_ui_dict (model_feature_names model) ui = Ok df ->
  predict model df = Ok (p :: rest) ->
  canvas ui p = Raise e ->
  exists old row,
    read_history w = Ok old /\
    read_history (predict_button model now canvas ui w).2 = Ok (old ++ [row]) /\
    length (old ++ [row]) = S (length old) /\
    field "prediction" row = Some (VFloat p) /\
    screen (predict_button model now canvas ui w).2
      = screen w ++ [StSuccess p; StError "Prediction failed" e] /\
    report_files (predict_button model now canvas ui w).2 = report_files w.
Proof.
  intros Hok Hprep Hpred Hpdf.
  destruct (single_history ui p w _ Hok (predict_button_history ui w df p rest Hprep Hpred))
    as (old & row & Hold & Hnew & Hp & _).
  exists old, row. split; [exact Hold|]. split; [exact Hnew|].
  split; [by rewrite length_app, Nat.add_1_r|]. split; [exact Hp|].
  rewrite (predict_button_returns _ _ _ _ _ _ _ _ Hprep Hpred), Hpdf.
  cbn [snd screen report_files with_widget with_report with_log with_history
         with_call after_single].
  split; [by rewrite <- app_assoc|reflexivity].
Qed.

End SingleClaims.

(** ** Failures *)

Section FailureClaims.
Variable to_numeric : list pyval -> result (list spec_float).
Variable model : model_t.
Variable now : string.
Variable canvas : gmap string pyval -> spec_float -> result string.

(** C4. When feature derivation or the model's [predict] raises, for a form
    or for a non-empty table, the handler shows the error and the history
    file is what it was. Derivation raises when pandas refuses a feature
    column or when the table names two columns by one feature. *)
Theorem failure_leaves_history_unchanged (r : request) w e :
  nonempty r ->
  rbind (model_input to_numeric (model_feature_names model) r) (predict model) = Raise e ->
  csv_history (handle to_numeric model now canvas r w).2 = csv_history w /\
  screen (handle to_numeric model now canvas r w).2
    = screen w ++ [StError (failure_message r) e].
Proof.
  intros Hne Hfail. destruct r as [ui|ed]; cbn [handle failure_message].
  - destruct (predict_button_raises model now canvas ui w e Hfail)
      as (w1 & -> & Hh & _ & Hs).
    cbn [snd csv_history screen with_log with_widget]. by rewrite Hh, Hs.
  - cbn [nonempty] in Hne. rewrite model_input_batch in Hfail.
    destruct (rbind (build_model_batch to_numeric (fill_ui_fields ed))
        (reorder (model_feature_names model))) as [mb|e'] eqn:Hmb.
    + cbn [rbind] in Hfail.
      rewrite (batch_button_raises to_numeric model now ed w mb e Hne Hmb Hfail).
      split; reflexivity.
    + cbn [rbind] in Hfail. injection Hfail as ->.
      rewrite (batch_button_derivation_raises to_numeric model now ed w e Hne Hmb).
      split; reflexivity.
Qed.

End FailureClaims.

(** ** Batch predictions *)

Section BatchClaims.
Variable to_numeric : list pyval -> result (list spec_float).
Variable model : model_t.
Variable now : string.
Implicit Types (ed : frame pyval).

(** The batch handler when the model returns one prediction per row. *)
Lemma batch_success ed w mb preds :
  nrows ed <> 0%nat ->
  rbind (build_model_batch to_numeric (fill_ui_fields ed))
        (reorder (model_feature_names model)) = Ok mb ->
  predict model mb = Ok preds ->
  length preds = nrows ed ->
  exists hist,
    columns hist = UI_FIELDS ++ ["prediction"] /\
    nrows hist = nrows ed /\
    (forall f c, assoc f (cols hist) = Some c ->
       assoc f (cols (shown_table (fill_ui_fields ed) preds)) = Some c) /\
    batch_button to_numeric model now (Some ed) w
      = (Ok tt, after_predict now (fill_ui_fields ed) mb preds hist w).
Proof.
  intros Hn Hmb Hpred Hlen.
  destruct (batch_hist_ok ed preds) as (hist & Hsel & Hnh & Hc & Hcells).
  exists hist. split; [exact Hc|]. split; [exact Hnh|]. split; [exact Hcells|].
  by apply batch_button_returns.
Qed.

(** The shown table keeps every uploaded column but one named
    [prediction], which holds the predictions. *)
Lemma shown_table_columns ed preds :
  assoc "prediction" (cols (shown_table (fill_ui_fields ed) preds))
    = Some (map VFloat preds) /\
  forall c col, c <> "prediction" -> assoc c (cols ed) = Some col ->
    assoc c (cols (shown_table (fill_ui_fields ed) preds)) = Some col.
Proof.
  unfold shown_table. split.
  - apply assoc_put_col_eq.
  - intros c col Hc Hcol. rewrite assoc_put_col_ne by exact Hc.
    by apply fill_fold_keeps.
Qed.


(** C6. On an empty table, or without one, the batch handler only shows
    the warning "No rows.": the model is not called, and the history, the
    reports and the log are what they were. *)
Theorem empty_batch_changes_nothing (editable : option (frame pyval)) w :
  match editable with None => True | Some ed => nrows ed = 0%nat end ->
  (batch_button to_numeric model now editable w).1 = Ok tt /\
  screen (batch_button to_numeric model now editable w).2 = screen w ++ [StWarning "No rows."] /\
  predict_calls (batch_button to_numeric model now editable w).2 = predict_calls w /\
  csv_history (batch_button to_numeric model now editable w).2 = csv_history w /\
  report_files (batch_button to_numeric model now editable w).2 = report_files w /\
  app_log (batch_button to_numeric model now editable w).2 = app_log w.
Proof.
  intros H. rewrite (batch_button_empty to_numeric model now editable w H).
  repeat split.
Qed.

End BatchClaims.

(** ** The history file under sequences of appends *)

Section HistoryClaims.
Variable now : string.
Implicit Types (df d : frame pyval).

Lemma replace_absent {A} (cs : list (string * list A)) name c :
  name ∉ cs.*1 ->
  map (fun nc => if String.eqb nc.1 name then (name, c) else nc) cs = cs.
Proof.
  induction cs as [|[n c'] cs IH]; intros H; [reflexivity|].
  rewrite fmap_cons in H. apply not_elem_of_cons in H as [Hn H]. cbn [map fst].
  destruct (String.eqb_spec n name) as [->|_]; [by destruct Hn|]. by rewrite IH.
Qed.

(** The columns after writing one: a column of that name is replaced
    where it stands, a new one goes last. *)
Lemma cols_put_col {A} (df : frame A) name c :
  cols (put_col df name c)
    = map (fun nc => if String.eqb nc.1 name then (name, c) else nc) (cols df)
      ++ (if has_column df name then [] else [(name, c)]).
Proof.
  unfold put_col. destruct (has_column df name) eqn:E; cbn [cols].
  - by rewrite app_nil_r.
  - rewrite replace_absent; [reflexivity|].
    intros H. apply has_column_true in H. congruence.
Qed.

Lemma has_column_put_col_ne {A} (df : frame A) name c f :
  f <> name -> has_column (put_col df name c) f = has_column df f.
Proof.
  intros Hf. unfold has_column. rewrite columns_put_col.
  destruct (has_column df name); [reflexivity|].
  apply bool_decide_ext. rewrite elem_of_app, list_elem_of_singleton. tauto.
Qed.

Lemma columns_stamp_prediction d preds mode :
  columns (stamp now mode (put_col d "prediction" preds))
    = columns d ++ added_names d.
Proof.
  unfold stamp, set_col_scalar, added_names. rewrite !columns_put_col.
  rewrite !has_column_put_col_ne by discriminate.
  cbn [List.filter].
  destruct (has_column d "prediction"), (has_column d "mode"),
    (has_column d "timestamp"); cbn [negb];
    rewrite ?app_nil_r, <- ?app_assoc; reflexivity.
Qed.

(** One column of the stamped frame, at row [i]. *)
Lemma stamped_cell d preds mode i (nc : string * list pyval) :
  (i < nrows d)%nat -> length nc.2 = nrows d ->
  let r name c (nc : string * list pyval) :=
    if String.eqb nc.1 name then (name, c) else nc in
  default VNone
    ((r "timestamp" (replicate (nrows d) (VStr now))
        (r "mode" (replicate (nrows d) (VStr mode))
           (r "prediction" preds nc))).2 !! i)
    = written_cell now (d, preds, mode) i nc.
Proof.
  intros Hi Hlen r. destruct nc as [n c]. unfold r, written_cell.
  cbn [fst snd] in *.
  destruct (String.eqb_spec n "prediction") as [->|Hp].
  { reflexivity. }
  cbn [fst snd]. destruct (String.eqb_spec n "mode") as [->|Hm].
  { cbn [fst snd]. replace (String.eqb "mode" "timestamp") with false by reflexivity.
    cbn [snd]. by rewrite lookup_replicate_2. }
  cbn [fst snd]. destruct (String.eqb_spec n "timestamp") as [->|Ht].
  { cbn [snd]. by rewrite lookup_replicate_2. }
  cbn [snd]. destruct (lookup_lt_is_Some_2 c i) as [v Hv]; [by rewrite Hlen|].
  by rewrite Hv.
Qed.

(** Row [i] of the frame an append writes, cell by cell. *)
Lemma stamped_row d preds mode i :
  wf_frame d -> length preds = nrows d -> (i < nrows d)%nat ->
  row_at VNone (stamp now mode (put_col d "prediction" preds)) i
    = map (written_cell now (d, preds, mode) i)
        (cols d ++ map (fun n => (n, [])) (added_names d)).
Proof.
  intros Hwf Hlen Hi. unfold row_at, stamp, set_col_scalar, added_names.
  rewrite !cols_put_col, !nrows_put_col.
  rewrite !has_column_put_col_ne by discriminate.
  rewrite !map_app, !map_map. rewrite <- !app_assoc. f_equal.
  - apply map_ext_in. intros nc Hin.
    apply (stamped_cell d preds mode i nc Hi).
    unfold wf_frame in Hwf. rewrite Forall_forall in Hwf.
    by apply Hwf, list_elem_of_In.
  - cbn [List.filter].
    destruct (has_column d "prediction"), (has_column d "mode"),
      (has_column d "timestamp"); cbn [negb map app fst snd];
      unfold written_cell;
      cbn [fst snd String.eqb Ascii.eqb Bool.eqb andb];
      rewrite ?lookup_replicate_2 by exact Hi; reflexivity.
Qed.

Lemma wf_reindexed df n : wf_frame (reindexed (VFloat PyFloat.nan) n df).
Proof.
  unfold wf_frame, reindexed. cbn [cols nrows].
  apply Forall_map, Forall_forall. intros nc _. cbn [snd].
  apply length_replicate.
Qed.

(** On a frame without rows the cells under its own columns are NaN,
    before and after it is given an index. *)
Lemma reindexed_cells df preds mode n i :
  wf_frame df -> nrows df = 0%nat -> (i < n)%nat ->
  map (written_cell now (reindexed (VFloat PyFloat.nan) n df, preds, mode) i)
    (cols (reindexed (VFloat PyFloat.nan) n df))
    = map (written_cell now (df, preds, mode) i) (cols df).
Proof.
  intros Hwf Hz Hi. unfold reindexed. cbn [cols]. rewrite map_map.
  apply map_ext_in. intros [k c] Hin. unfold written_cell. cbn [fst snd].
  assert (Hc : c = []).
  { unfold wf_frame in Hwf. rewrite Forall_forall in Hwf.
    apply list_elem_of_In, Hwf in Hin. cbn [snd] in Hin.
    rewrite Hz in Hin. by apply nil_length_inv. }
  subst c. by rewrite lookup_replicate_2.
Qed.

(** What one append does to the file. *)
Lemma save_history_csv_file (a : append_t) w :
  wf_frame a.1.1 ->
  csv_history (save_history_csv now a.1.1 a.1.2 a.2 w).2 =
    if accepted a then
      match csv_history w with
      | Some lines => Some (lines ++ data_lines now a)
      | None => Some (header_line a :: data_lines now a)
      end
    else csv_history w.
Proof.
  destruct a as [[df preds] mode]. cbn [fst snd]. intros Hwf.
  assert (Hwritten : forall d,
            wf_frame d -> nrows d = length preds ->
            columns d = columns df -> added_names d = added_names df ->
            (forall i, (i < length preds)%nat ->
               map (written_cell now (d, preds, mode) i) (cols d)
               = map (written_cell now (df, preds, mode) i) (cols df)) ->
            accepted (df, preds, mode) = true ->
            set_col_list (VFloat PyFloat.nan) df "prediction" preds
              = Ok (put_col d "prediction" preds) ->
            csv_history (save_history_csv now df preds mode w).2 =
              match csv_history w with
              | Some lines => Some (lines ++ data_lines now (df, preds, mode))
              | None => Some (header_line (df, preds, mode)
                                :: data_lines now (df, preds, mode))
              end).
  { intros d Hwfd Hnd Hcd Had Hcells Hacc Hset.
    rewrite (save_history_csv_ok now _ _ _ _ w Hset). cbn [snd].
    unfold appended, to_csv, data_lines, header_line. rewrite Hacc.
    cbn [csv_history with_history fst snd].
    assert (Hrows : rows_of VNone (stamp now mode (put_col d "prediction" preds))
                    = map (data_line now (df, preds, mode)) (seq 0 (length preds))).
    { unfold rows_of. rewrite nrows_stamp, nrows_put_col, Hnd.
      apply map_ext_in. intros i Hi. apply in_seq in Hi as [_ Hi]. cbn in Hi.
      rewrite stamped_row; [|exact Hwfd|by rewrite Hnd|by rewrite Hnd].
      unfold data_line. cbn [fst snd]. rewrite !map_app, Had.
      f_equal. by apply Hcells. }
    rewrite Hrows, columns_stamp_prediction, Hcd, Had.
    destruct (csv_history w); reflexivity. }
  unfold accepted. cbn [fst snd].
  destruct (Nat.eqb_spec (length preds) (nrows df)) as [Hlen|Hlen].
  - rewrite orb_true_r. apply (Hwritten df); auto.
    + unfold accepted. cbn [fst snd]. apply orb_true_iff. right.
      by apply Nat.eqb_eq.
    + by apply set_col_list_ok.
  - rewrite orb_false_r. destruct (Nat.eqb_spec (nrows df) 0) as [Hz|Hz].
    + apply (Hwritten (reindexed (VFloat PyFloat.nan) (length preds) df)).
      * apply wf_reindexed.
      * reflexivity.
      * apply columns_reindexed.
      * unfold added_names. apply filter_ext. intros k.
        by rewrite has_column_reindexed.
      * intros i Hi. by apply reindexed_cells.
      * unfold accepted. cbn [fst snd]. apply orb_true_iff. left.
        by apply Nat.eqb_eq.
      * apply set_col_list_index; [exact Hz|congruence].
    + rewrite (save_history_csv_raise now _ _ _ ValueError w); [reflexivity|].
      by apply set_col_list_mismatch.
Qed.

(** C7. Through every sequence of appends the history file only grows at
    its end: lines that were there stay in place in front; an append that
    gets as far as writing adds one line for each of its predictions,
    holding the frame's cells of that row, the prediction, the mode and
    the clock's timestamp, and adds nothing else to an existing file; a
    file that did not exist gets exactly one header line, that of the
    first append that writes, followed by the data lines of all appends
    in order. *)
Theorem history_append_only (appends : list append_t) w :
  Forall (fun a => wf_frame a.1.1) appends ->
  csv_history (save_all now appends w) =
    match csv_history w with
    | Some lines => Some (lines ++ concat (map (data_lines now) appends))
    | None =>
        match first_header appends with
        | Some h => Some (h :: concat (map (data_lines now) appends))
        | None => None
        end
    end.
Proof.
  intros Hwf. revert w. induction Hwf as [|a rest Ha _ IH]; intros w.
  - cbn [save_all map concat first_header]. destruct (csv_history w).
    + by rewrite app_nil_r.
    + reflexivity.
  - cbn [save_all map concat first_header].
    rewrite IH, (save_history_csv_file a w Ha).
    destruct (accepted a) eqn:Hacc.
    + destruct (csv_history w) as [lines|].
      * by rewrite <- app_assoc.
      * reflexivity.
    + assert (Hrows : data_lines now a = []).
      { unfold data_lines. by rewrite Hacc. }
      rewrite Hrows. reflexivity.
Qed.

End HistoryClaims.

(** ** The adapter's coercion *)

Section CoercionFacts.
Variable to_numeric : list pyval -> result (list spec_float).

Lemma coerce_feature_spec (d : gmap string pyval) f :
  coerce_feature d f = coerce_spec (d !! f).
Proof.
  rewrite coerce_feature_cases. unfold coerce_spec.
  destruct (d !! f) as [v|]; [|reflexivity].
  destruct v as [| | | |s]; try reflexivity. destruct s; reflexivity.
Qed.

Lemma py_float_empty : py_float (VStr "") = Raise ValueError.
Proof. vm_compute. reflexivity. Qed.

Lemma declared_usable_true names :
  declared_usable names = true <-> forall n, n ∈ names -> n ∈ MODEL_FEATURES.
Proof.
  unfold declared_usable. rewrite forallb_forall. split; intros H n Hn.
  - apply list_elem_of_In in Hn. apply H in Hn. by apply bool_decide_eq_true in Hn.
  - apply bool_decide_eq_true, H, list_elem_of_In, Hn.
Qed.

(** The guard of [reorder], for a form and for a table: a frame that was
    derived has the declared names as its columns when every declared name
    is one of the eight features, and the eight features in canonical
    order otherwise. *)
Lemma declared_order_rule names (r : request) df :
  model_input to_numeric names r = Ok df ->
  ((forall n, n ∈ names -> n ∈ MODEL_FEATURES) -> columns df = names) /\
  (~ (forall n, n ∈ names -> n ∈ MODEL_FEATURES) -> columns df = MODEL_FEATURES).
Proof.
  intros H.
  assert (Hc : columns df
               = (if declared_usable names then names else MODEL_FEATURES)).
  { destruct r as [ui|ed].
    - cbn [model_input] in H.
      destruct (prepare_model_df_spec names ui) as (df' & Hdf & _ & Hc & _).
      congruence.
    - by destruct (batch_columns to_numeric ed names df H). }
  rewrite Hc. destruct (declared_usable names) eqn:E.
  - split; [reflexivity|]. intros Hno. destruct Hno.
    by apply declared_usable_true.
  - split; [|reflexivity]. intros Hall.
    apply declared_usable_true in Hall. congruence.
Qed.

Lemma blank_raises v :
  eq_empty_str v || is_None v = true -> exists e, py_float v = Raise e.
Proof.
  destruct v as [| | | |s]; cbn [eq_empty_str is_None orb]; try discriminate.
  - eauto.
  - destruct s; [|discriminate]. rewrite py_float_empty. eauto.
Qed.

Lemma zero_not_inf : PyFloat.is_inf PyFloat.zero = false.
Proof. reflexivity. Qed.

(** The value stored for a feature of a form is an infinity exactly when
    the form's entry converts, by [float], to that infinity. *)
Lemma coerce_feature_inf (d : gmap string pyval) f y :
  PyFloat.is_inf y = true ->
  coerce_feature d f = y <-> exists v, d !! f = Some v /\ py_float v = Ok y.
Proof.
  intros Hy. rewrite coerce_feature_cases.
  assert (Hz : PyFloat.zero <> y).
  { intros <-. by rewrite zero_not_inf in Hy. }
  destruct (d !! f) as [v|].
  - destruct (eq_empty_str v || is_None v) eqn:E.
    + destruct (blank_raises v E) as [e He]. split; [by intros ?|].
      intros (v' & [= <-] & Hv). congruence.
    + destruct (py_float v) as [x|e] eqn:Ev.
      * split; [intros ->; eauto|]. intros (v' & [= <-] & Hv). congruence.
      * split; [by intros ?|]. intros (v' & [= <-] & Hv). congruence.
  - split; [by intros ?|]. by intros (v' & [=] & _).
Qed.

Lemma fillna_not_nan x : PyFloat.is_nan (fillna PyFloat.zero x) = false.
Proof. unfold fillna. destruct x; reflexivity. Qed.

(** Filling NaN leaves an infinity where it is and makes none. *)
Lemma fillna_inf x y :
  PyFloat.is_inf y = true -> fillna PyFloat.zero x = y <-> x = y.
Proof.
  intros Hy. unfold fillna. destruct (PyFloat.is_nan x) eqn:E.
  - split.
    + intros <-. by rewrite zero_not_inf in Hy.
    + intros ->. destruct y; discriminate.
  - reflexivity.
Qed.

End CoercionFacts.

(** ** Claims about the adapter *)

Section AdapterClaims.
Variable to_numeric : list pyval -> result (list spec_float).

(** C9, as the code has it. The derived frame holds what was derived,
    with no check that it is finite. For a form, the cell of a feature is
    an infinity exactly when the form's entry converts, by [float], to
    that infinity (as "inf" does). For a table, when pandas answers with
    one number per cell, cell [i] of a feature is the number pandas made
    of the uploaded cell [i] with NaN replaced by 0.0: it is never NaN,
    and it is an infinity exactly when pandas answered with that
    infinity. *)
Theorem cells_infinite_as_supplied names (r : request) df :
  wf_request r -> keeps_length to_numeric ->
  model_input to_numeric names r = Ok df ->
  forall f c, assoc f (cols df) = Some c ->
    match r with
    | Single ui =>
        exists x, c = [x] /\
          forall y, PyFloat.is_inf y = true ->
            (x = y <-> exists v, ui !! f = Some v /\ py_float v = Ok y)
    | Batch ed =>
        exists nums, to_numeric (ui_column ed f) = Ok nums /\
          length c = nrows ed /\
          (forall i x, c !! i = Some x -> PyFloat.is_nan x = false) /\
          forall i y, PyFloat.is_inf y = true ->
            (c !! i = Some y <-> nums !! i = Some y)
    end.
Proof.
  intros Hwf Hkeep Hdf f c Hf. destruct r as [ui|ed].
  - cbn [model_input] in Hdf.
    destruct (prepare_model_df_spec names ui) as (df' & Hdf' & _ & _ & Hcells).
    assert (df' = df) by congruence. subst df'.
    destruct (Hcells f c Hf) as [_ ->].
    exists (coerce_feature ui f). split; [reflexivity|].
    intros y Hy. by apply coerce_feature_inf.
  - destruct (batch_cells to_numeric ed names df Hwf Hkeep Hdf) as [_ Hcells].
    destruct (Hcells f c Hf) as (nums & Hnums & -> & Hlen).
    exists nums. split; [exact Hnums|]. split; [exact Hlen|].
    change (map (fillna PyFloat.zero) nums) with (fillna PyFloat.zero <$> nums).
    split.
    + intros i x. rewrite list_lookup_fmap.
      destruct (nums !! i) as [x'|]; [|discriminate].
      intros [= <-]. apply fillna_not_nan.
    + intros i y Hy. rewrite list_lookup_fmap.
      destruct (nums !! i) as [x'|]; cbn [fmap option_fmap option_map].
      * split; intros [= H]; f_equal; by apply (fillna_inf x' y Hy).
      * reflexivity.
Qed.

End AdapterClaims.

(** ** Extra columns of an upload *)

Section ExtraColumnClaims.
Variable to_numeric : list pyval -> result (list spec_float).
Variable model : model_t.
Variable now : string.
Implicit Types (ed : frame pyval).

Lemma columns_put_col_in {A} (df : frame A) name c :
  name ∈ columns df -> columns (put_col df name c) = columns df.
Proof.
  intros H. rewrite columns_put_col.
  by rewrite (proj2 (has_column_true df name) H).
Qed.

Lemma columns_put_col_new {A} (df : frame A) name c :
  name ∉ columns df -> columns (put_col df name c) = columns df ++ [name].
Proof.
  intros H. rewrite columns_put_col.
  destruct (has_column df name) eqn:E; [|reflexivity].
  apply has_column_true in E. by destruct H.
Qed.

(** The frame written to the history has the history's fourteen columns
    and nothing else. *)
Lemma columns_batch_logged hist preds :
  columns hist = UI_FIELDS ++ ["prediction"] ->
  columns (batch_logged now hist preds) = HISTORY_COLUMNS.
Proof.
  intros Hc. unfold batch_logged, stamp, set_col_scalar.
  assert (H1 : columns (put_col hist "prediction" (map VFloat preds))
               = UI_FIELDS ++ ["prediction"]).
  { rewrite columns_put_col_in; [exact Hc|]. rewrite Hc.
    apply (bool_decide_unpack (_ ∈ _)). vm_compute. exact I. }
  set (df1 := put_col hist "prediction" (map VFloat preds)) in *.
  assert (H2 : columns (put_col df1 "mode" (replicate (nrows df1) (VStr "batch")))
               = UI_FIELDS ++ ["prediction"; "mode"]).
  { rewrite columns_put_col_new; [by rewrite H1, <- app_assoc|]. rewrite H1.
    apply (bool_decide_unpack (_ ∉ _)). vm_compute. exact I. }
  set (df2 := put_col df1 "mode" (replicate (nrows df1) (VStr "batch"))) in *.
  rewrite columns_put_col_new; [by rewrite H2, <- app_assoc|]. rewrite H2.
  apply (bool_decide_unpack (_ ∉ _)). vm_compute. exact I.
Qed.

(** C8, as the code has it. A column of the upload that is none of the
    eight features nor coin, symbol or date is not in the frame handed to
    the model and is in the table shown and offered for download, cell
    for cell, next to the predictions (which take the place of an
    uploaded column named prediction). Its cells are not written to the
    history: the frame appended to the history has no column of its name,
    unless the name is prediction, mode or timestamp, and under those the
    history holds the predictions, "batch" and the clock's timestamp,
    whatever the upload held there. *)
Theorem extra_columns_reach_output_only ed w mb preds extra col :
  nrows ed <> 0%nat -> wf_frame ed ->
  extra ∉ UI_FIELDS ->
  assoc extra (cols ed) = Some col ->
  model_input to_numeric (model_feature_names model) (Batch ed) = Ok mb ->
  predict model mb = Ok preds ->
  length preds = nrows ed ->
  exists out logged,
    (extra ∉ columns mb) /\
    screen (batch_button to_numeric model now (Some ed) w).2
      = screen w ++ [StDataframe out;
                     StDownloadCsv "batch_predictions.csv" (to_csv VNone VStr true out)] /\
    assoc extra (cols out)
      = Some (if String.eqb extra "prediction" then map VFloat preds else col) /\
    assoc "prediction" (cols out) = Some (map VFloat preds) /\
    csv_history (batch_button to_numeric model now (Some ed) w).2 = appended w logged /\
    assoc extra (cols logged) =
      if String.eqb extra "timestamp" then Some (replicate (nrows ed) (VStr now))
      else if String.eqb extra "mode" then Some (replicate (nrows ed) (VStr "batch"))
      else if String.eqb extra "prediction" then Some (map VFloat preds)
      else None.
Proof.
  intros Hn Hwf Hextra Hcol Hmb Hpred Hlen.
  destruct (batch_columns to_numeric ed _ mb Hmb) as [_ Hfeat].
  rewrite model_input_batch in Hmb.
  destruct (batch_success to_numeric model now ed w mb preds Hn Hmb Hpred Hlen)
    as (hist & Hc & Hnh & _ & ->).
  exists (shown_table (fill_ui_fields ed) preds), (batch_logged now hist preds).
  destruct (shown_table_columns ed preds) as [Hp Hkeep].
  split.
  { intros Hin.
    destruct (assoc_elem_Some (A:=spec_float) (cols mb) extra Hin) as [c Hc'].
    apply Hextra, MODEL_FEATURES_in_UI_FIELDS. by apply (Hfeat extra c). }
  cbn [snd screen csv_history after_predict with_log with_widget with_history
         with_call].
  split; [by rewrite <- !app_assoc|].
  split.
  { destruct (String.eqb_spec extra "prediction") as [->|Hne]; [exact Hp|].
    by apply Hkeep. }
  split; [exact Hp|]. split; [reflexivity|].
  unfold batch_logged. rewrite assoc_stamp, nrows_put_col, Hnh.
  destruct (String.eqb extra "timestamp"); [reflexivity|].
  destruct (String.eqb extra "mode"); [reflexivity|].
  destruct (String.eqb_spec extra "prediction") as [->|Hne].
  - by rewrite assoc_put_col_eq.
  - rewrite assoc_put_col_ne by exact Hne. apply assoc_None.
    fold (columns hist). rewrite Hc. intros Hin.
    apply elem_of_app in Hin as [Hin|Hin]; [by apply Hextra|].
    apply list_elem_of_singleton in Hin. by apply Hne.
Qed.

End ExtraColumnClaims.

(** ** The header invariant of the history file *)

Section HistoryInvariant.
Variable to_numeric : list pyval -> result (list spec_float).
Variable model : model_t.
Variable now : string.
Variable canvas : gmap string pyval -> spec_float -> result string.

Lemma history_ok_same w w' :
  csv_history w' = csv_history w -> history_ok w -> history_ok w'.
Proof. unfold history_ok. by intros ->. Qed.

Lemma predict_button_no_prediction ui w df :
  prepare_model_df_from_ui_dict (model_feature_names model) ui = Ok df ->
  predict model df = Ok [] ->
  csv_history (predict_button model now canvas ui w).2 = csv_history w.
Proof.
  intros Hprep Hpred. unfold predict_button.
  unfold try_except, model_predict, generate_pdf, st_success, st_error,
    logging, modify, lift, gets, mbind, M_bind, mret, M_ret.
  cbv beta iota zeta. rewrite Hprep. cbv beta iota. rewrite Hpred.
  reflexivity.
Qed.

(** Whatever a handler is given and whatever the model and the canvas do,
    a history file that is absent or starts with the header stays so: the
    files this program finds are the files it wrote. *)
Lemma handle_keeps_history_ok (r : request) w :
  history_ok w -> history_ok (handle to_numeric model now canvas r w).2.
Proof.
  intros Hok. destruct r as [ui|ed]; cbn [handle].
  - destruct (prepare_model_df_from_ui_dict (model_feature_names model) ui)
      as [df|e] eqn:Hprep.
    + destruct (predict model df) as [[|p rest]|e] eqn:Hpred.
      * eapply history_ok_same; [|exact Hok].
        by apply (predict_button_no_prediction ui w df).
      * destruct (single_history now ui p w _ Hok
                    (predict_button_history model now canvas ui w df p rest Hprep Hpred))
          as (_ & _ & _ & _ & _ & _ & _ & H). exact H.
      * destruct (predict_button_raises model now canvas ui w e) as (w1 & -> & Hh & _).
        { by rewrite Hprep. }
        eapply history_ok_same; [|exact Hok]. exact Hh.
    + destruct (predict_button_raises model now canvas ui w e) as (w1 & -> & Hh & _).
      { by rewrite Hprep. }
      eapply history_ok_same; [|exact Hok]. exact Hh.
  - destruct (Nat.eq_dec (nrows ed) 0) as [Hz|Hn].
    { rewrite (batch_button_empty to_numeric model now (Some ed) w Hz). exact Hok. }
    destruct (rbind (build_model_batch to_numeric (fill_ui_fields ed))
        (reorder (model_feature_names model))) as [mb|e] eqn:Hmb.
    + destruct (predict model mb) as [preds|e] eqn:Hpred.
      * destruct (Nat.eq_dec (length preds) (nrows ed)) as [Hlen|Hlen].
        -- destruct (batch_success to_numeric model now ed w mb preds Hn Hmb Hpred Hlen)
             as (hist & Hc & _ & _ & ->).
           destruct (read_history_appended w
                       (after_predict now (fill_ui_fields ed) mb preds hist w)
                       (batch_logged now hist preds) Hok
                       (columns_batch_logged now hist preds Hc) eq_refl)
             as (_ & _ & _ & H).
           exact H.
        -- rewrite (batch_button_mismatch to_numeric model now ed w mb preds Hn Hmb Hpred Hlen).
           exact Hok.
      * rewrite (batch_button_raises to_numeric model now ed w mb e Hn Hmb Hpred). exact Hok.
    + rewrite (batch_button_derivation_raises to_numeric model now ed w e Hn Hmb). exact Hok.
Qed.

End HistoryInvariant.

(** * Worked examples *)

Lemma wf_example_upload : wf_frame example_upload.
Proof. repeat constructor. Qed.

Lemma cellwise_numeric_keeps_length : keeps_length cellwise_numeric.
Proof.
  intros column. induction column as [|v rest IH]; intros nums H.
  - cbn [cellwise_numeric] in H. by injection H as <-.
  - cbn [cellwise_numeric] in H.
    destruct (numeric_cell v) as [x|e]; cbn [rbind] in H; [|discriminate].
    destruct (cellwise_numeric rest) as [xs|e]; cbn [rbind] in H; [|discriminate].
    injection H as <-. cbn [length]. by rewrite (IH xs).
Qed.

(** ** Where the code misses what it sets out to do *)

(** C2, the defect. [float("nan")] does not raise, so the form handler
    stores NaN for the feature and hands it to the model, where the
    specification's rule gives 0.0 for a value that is no real number.
    The table handler has the step the form handler lacks: its
    [fillna(0.0)] turns the same NaN into 0.0. *)
Theorem nan_string_reaches_model :
  py_float (VStr "nan") = Ok PyFloat.nan /\
  rbind (prepare_model_df_from_ui_dict MODEL_FEATURES {["price" := VStr "nan"]})
        (fun df => get_col df "price") = Ok [PyFloat.nan] /\
  PyFloat.is_nan PyFloat.nan = true /\
  PyFloat.nan <> PyFloat.zero /\
  fillna PyFloat.zero PyFloat.nan = PyFloat.zero.
Proof.
  split; [vm_compute; reflexivity|]. split; [vm_compute; reflexivity|].
  split; [reflexivity|]. split; [discriminate|reflexivity].
Qed.


(** ** Where the code departs from the specification *)


(** C9, counterexample. The string "inf" is converted by [float] to an
    infinity, and that is the price the model is given. *)
Lemma inf_string_not_finite :
  py_float (VStr "inf") = Ok PyFloat.inf /\
  rbind (prepare_model_df_from_ui_dict MODEL_FEATURES {["price" := VStr "inf"]})
        (fun df => get_col df "price") = Ok [PyFloat.inf] /\
  PyFloat.is_finite PyFloat.inf = false.
Proof. repeat split; vm_compute; reflexivity. Qed.

(** C8, counterexample. After the batch handler ran on the example upload,
    the table offered for download has the column [exchange], and the
    history file has the fourteen history columns only: neither the name
    [exchange] nor its cells are in it. *)
Lemma extra_column_not_in_history :
  let w' := (batch_button cellwise_numeric constant_model example_now (Some example_upload) fresh).2 in
  csv_history w' =
    Some [map VStr HISTORY_COLUMNS;
          [VStr ""; VStr ""; VStr "N/A"; VFloat PyFloat.zero; VFloat PyFloat.zero;
           VFloat PyFloat.zero; VFloat PyFloat.zero; VFloat PyFloat.zero; VStr "";
           VFloat PyFloat.zero; VFloat PyFloat.zero;
           VFloat x042; VStr "batch"; VStr example_now];
          [VStr ""; VStr ""; VInt 2; VFloat PyFloat.zero; VFloat PyFloat.zero;
           VFloat PyFloat.zero; VFloat PyFloat.zero; VFloat PyFloat.zero; VStr "";
           VFloat PyFloat.zero; VFloat PyFloat.zero;
           VFloat x042; VStr "batch"; VStr example_now]] /\
  ("exchange" ∉ HISTORY_COLUMNS) /\
  exists (out : frame pyval) rows,
    last (screen w') = Some (StDownloadCsv "batch_predictions.csv"
                               (map VStr (columns out) :: rows)) /\
    assoc "exchange" (cols out) = Some [VStr "kraken"; VStr "binance"].
Proof.
  split; [vm_compute; reflexivity|].
  split; [apply (bool_decide_unpack (_ ∉ _)); vm_compute; exact I|].
  exists (shown_table (fill_ui_fields example_upload) [x042; x042]).
  exists (rows_of VNone (shown_table (fill_ui_fields example_upload) [x042; x042])).
  split; vm_compute; reflexivity.
Qed.

(** ** The claims on the examples *)

(** C1 on the specification's example: the prediction 0.42 is shown and
    the history, which did not exist, has one row with it. *)
Lemma predict_one_appends_history_example :
  history_ok fresh /\
  prepare_model_df_from_ui_dict (model_feature_names constant_model) example_ui
    = Ok example_model_df /\
  predict constant_model example_model_df = Ok [x042] /\
  exists old row shown,
    read_history fresh = Ok old /\
    read_history
      (predict_button constant_model example_now saving_canvas example_ui fresh).2
      = Ok (old ++ [row]) /\
    length (old ++ [row]) = S (length old) /\
    field "prediction" row = Some (VFloat x042) /\
    field "mode" row = Some (VStr "single") /\
    field "timestamp" row = Some (VStr example_now) /\
    screen (predict_button constant_model example_now saving_canvas example_ui fresh).2
      = screen fresh ++ StSuccess x042 :: shown.
Proof.
  split; [exact I|]. split; [vm_compute; reflexivity|].
  split; [vm_compute; reflexivity|].
  apply (predict_one_appends_history constant_model example_now saving_canvas
           example_ui fresh example_model_df x042 []).
  - exact I.
  - vm_compute; reflexivity.
  - vm_compute; reflexivity.
Defined.

(** C10 on the example with a canvas that cannot save. *)
Lemma report_failure_keeps_history_row_example :
  broken_canvas example_ui x042 = Raise (ReportError "No space left on device") /\
  exists old row,
    read_history fresh = Ok old /\
    read_history
      (predict_button constant_model example_now broken_canvas example_ui fresh).2
      = Ok (old ++ [row]) /\
    length (old ++ [row]) = S (length old) /\
    field "prediction" row = Some (VFloat x042) /\
    screen (predict_button constant_model example_now broken_canvas example_ui fresh).2
      = screen fresh ++ [StSuccess x042;
                         StError "Prediction failed"
                           (ReportError "No space left on device")] /\
    report_files
      (predict_button constant_model example_now broken_canvas example_ui fresh).2
      = report_files fresh.
Proof.
  split; [reflexivity|].
  apply (report_failure_keeps_history_row constant_model example_now broken_canvas
           example_ui fresh example_model_df x042 []).
  - exact I.
  - vm_compute; reflexivity.
  - vm_compute; reflexivity.
  - reflexivity.
Defined.

(** C4 on a table whose derivation raises (pandas refuses the price, or
    two columns are named alike) and on the example upload and the example
    form with a model that raises. *)
Lemma failure_leaves_history_unchanged_example :
  (nonempty (Batch overflow_upload) /\
   rbind (model_input cellwise_numeric (model_feature_names constant_model)
            (Batch overflow_upload))
         (predict constant_model) = Raise OverflowError /\
   nonempty (Batch repeated_upload) /\
   rbind (model_input cellwise_numeric (model_feature_names constant_model)
            (Batch repeated_upload))
         (predict constant_model) = Raise TypeError /\
   rbind (model_input cellwise_numeric (model_feature_names failing_model)
            (Batch example_upload))
         (predict failing_model)
     = Raise (ModelError "X has 8 features, expected 9")) /\
  (csv_history
     (handle cellwise_numeric constant_model example_now saving_canvas
        (Batch overflow_upload) fresh).2
     = csv_history fresh /\
   screen
     (handle cellwise_numeric constant_model example_now saving_canvas
        (Batch overflow_upload) fresh).2
     = screen fresh ++ [StError "Batch prediction failed" OverflowError]) /\
  (csv_history
     (handle cellwise_numeric constant_model example_now saving_canvas
        (Batch repeated_upload) fresh).2
     = csv_history fresh /\
   screen
     (handle cellwise_numeric constant_model example_now saving_canvas
        (Batch repeated_upload) fresh).2
     = screen fresh ++ [StError "Batch prediction failed" TypeError]) /\
  (csv_history
     (handle cellwise_numeric failing_model example_now saving_canvas
        (Batch example_upload) fresh).2
     = csv_history fresh /\
   screen
     (handle cellwise_numeric failing_model example_now saving_canvas
        (Batch example_upload) fresh).2
     = screen fresh
       ++ [StError "Batch prediction failed"
             (ModelError "X has 8 features, expected 9")]) /\
  (csv_history
     (handle cellwise_numeric failing_model example_now saving_canvas
        (Single example_ui) fresh).2
     = csv_history fresh /\
   screen
     (handle cellwise_numeric failing_model example_now saving_canvas
        (Single example_ui) fresh).2
     = screen fresh
       ++ [StError "Prediction failed" (ModelError "X has 8 features, expected 9")]).
Proof.
  split.
  { split; [discriminate|]. split; [vm_compute; reflexivity|].
    split; [discriminate|]. split; vm_compute; reflexivity. }
  split.
  { apply (failure_leaves_history_unchanged cellwise_numeric constant_model
             example_now saving_canvas (Batch overflow_upload) fresh OverflowError).
    - discriminate.
    - vm_compute; reflexivity. }
  split.
  { apply (failure_leaves_history_unchanged cellwise_numeric constant_model
             example_now saving_canvas (Batch repeated_upload) fresh TypeError).
    - discriminate.
    - vm_compute; reflexivity. }
  split.
  - apply (failure_leaves_history_unchanged cellwise_numeric failing_model
             example_now saving_canvas (Batch example_upload) fresh
             (ModelError "X has 8 features, expected 9")).
    + discriminate.
    + vm_compute; reflexivity.
  - apply (failure_leaves_history_unchanged cellwise_numeric failing_model
             example_now saving_canvas (Single example_ui) fresh
             (ModelError "X has 8 features, expected 9")).
    + exact I.
    + vm_compute; reflexivity.
Defined.

(** C6 on a table without rows. *)
Lemma empty_batch_changes_nothing_example :
  nrows empty_upload = 0%nat /\
  (batch_button cellwise_numeric constant_model example_now (Some empty_upload) fresh).1 = Ok tt /\
  screen (batch_button cellwise_numeric constant_model example_now (Some empty_upload) fresh).2
    = screen fresh ++ [StWarning "No rows."] /\
  predict_calls (batch_button cellwise_numeric constant_model example_now (Some empty_upload) fresh).2
    = predict_calls fresh /\
  csv_history (batch_button cellwise_numeric constant_model example_now (Some empty_upload) fresh).2
    = csv_history fresh /\
  report_files (batch_button cellwise_numeric constant_model example_now (Some empty_upload) fresh).2
    = report_files fresh /\
  app_log (batch_button cellwise_numeric constant_model example_now (Some empty_upload) fresh).2
    = app_log fresh.
Proof.
  split; [reflexivity|].
  apply (empty_batch_changes_nothing cellwise_numeric constant_model example_now (Some empty_upload) fresh).
  reflexivity.
Defined.


(** C7 on the three example appends to a file that does not exist: the
    header of the first, its line, nothing from the refused append, and
    the line of the third with NaN under the columns that had no rows. *)
Lemma history_append_only_example :
  Forall (fun a : append_t => wf_frame a.1.1) example_appends /\
  csv_history (save_all example_now example_appends fresh) =
    Some [[VStr "coin"; VStr "price"; VStr "prediction"; VStr "mode";
           VStr "timestamp"];
          [VStr "bitcoin"; VInt 100; VFloat x042; VStr "single";
           VStr example_now];
          [VFloat PyFloat.nan; VFloat PyFloat.nan; VFloat x042; VStr "batch";
           VStr example_now]].
Proof.
  assert (Hwf : Forall (fun a : append_t => wf_frame a.1.1) example_appends).
  { repeat constructor. }
  split; [exact Hwf|].
  etransitivity;
    [exact (history_append_only example_now example_appends fresh Hwf)|].
  vm_compute. reflexivity.
Defined.

(** C9 on a form whose price is "inf" and on the example upload. *)
Lemma cells_infinite_as_supplied_example :
  (wf_request (Single {["price" := VStr "inf"]}) /\
   keeps_length cellwise_numeric /\
   exists df,
     model_input cellwise_numeric MODEL_FEATURES (Single {["price" := VStr "inf"]})
       = Ok df /\
     assoc "price" (cols df) = Some [PyFloat.inf] /\
     exists x, [PyFloat.inf] = [x] /\
       forall y, PyFloat.is_inf y = true ->
         (x = y <-> exists v, ({["price" := VStr "inf"]} : gmap string pyval) !! "price"
                                = Some v /\ py_float v = Ok y)) /\
  (wf_request (Batch example_upload) /\
   model_input cellwise_numeric MODEL_FEATURES (Batch example_upload)
     = Ok example_model_batch /\
   forall f c, assoc f (cols example_model_batch) = Some c ->
     exists nums, cellwise_numeric (ui_column example_upload f) = Ok nums /\
       length c = nrows example_upload /\
       (forall i x, c !! i = Some x -> PyFloat.is_nan x = false) /\
       forall i y, PyFloat.is_inf y = true ->
         (c !! i = Some y <-> nums !! i = Some y)).
Proof.
  split.
  - split; [exact I|]. split; [exact cellwise_numeric_keeps_length|].
    eexists. split; [vm_compute; reflexivity|]. split; [vm_compute; reflexivity|].
    apply (cells_infinite_as_supplied cellwise_numeric MODEL_FEATURES
             (Single {["price" := VStr "inf"]}) _ I
             cellwise_numeric_keeps_length eq_refl "price" [PyFloat.inf]).
    vm_compute. reflexivity.
  - split; [exact wf_example_upload|]. split; [vm_compute; reflexivity|].
    apply (cells_infinite_as_supplied cellwise_numeric MODEL_FEATURES
             (Batch example_upload) example_model_batch wf_example_upload
             cellwise_numeric_keeps_length).
    vm_compute. reflexivity.
Defined.

(** C8 on the example upload and its column [exchange]. *)
Lemma extra_columns_reach_output_only_example :
  let w' := (batch_button cellwise_numeric constant_model example_now (Some example_upload) fresh).2 in
  (nrows example_upload <> 0%nat /\ wf_frame example_upload /\
   ("exchange" ∉ UI_FIELDS) /\
   assoc "exchange" (cols example_upload) = Some [VStr "kraken"; VStr "binance"] /\
   model_input cellwise_numeric (model_feature_names constant_model) (Batch example_upload)
     = Ok example_model_batch /\
   predict constant_model example_model_batch = Ok [x042; x042]) /\
  exists out logged,
    ("exchange" ∉ columns example_model_batch) /\
    screen w' = screen fresh ++
      [StDataframe out;
       StDownloadCsv "batch_predictions.csv" (to_csv VNone VStr true out)] /\
    assoc "exchange" (cols out)
      = Some (if String.eqb "exchange" "prediction" then map VFloat [x042; x042]
              else [VStr "kraken"; VStr "binance"]) /\
    assoc "prediction" (cols out) = Some (map VFloat [x042; x042]) /\
    csv_history w' = appended fresh logged /\
    assoc "exchange" (cols logged) =
      if String.eqb "exchange" "timestamp"
      then Some (replicate (nrows example_upload) (VStr example_now))
      else if String.eqb "exchange" "mode"
      then Some (replicate (nrows example_upload) (VStr "batch"))
      else if String.eqb "exchange" "prediction" then Some (map VFloat [x042; x042])
      else None.
Proof.
  intros w'.
  assert (Hextra : "exchange" ∉ UI_FIELDS).
  { apply (bool_decide_unpack (_ ∉ _)). vm_compute. exact I. }
  split.
  { split; [discriminate|]. split; [exact wf_example_upload|].
    split; [exact Hextra|]. split; [reflexivity|].
    split; vm_compute; reflexivity. }
  apply (extra_columns_reach_output_only cellwise_numeric constant_model example_now example_upload
           fresh example_model_batch [x042; x042] "exchange"
           [VStr "kraken"; VStr "binance"]).
  - discriminate.
  - exact wf_example_upload.
  - exact Hextra.
  - reflexivity.
  - vm_compute; reflexivity.
  - vm_compute; reflexivity.
  - reflexivity.
Defined.

(** * Further properties *)

(** ** What the adapter depends on *)

Section AdapterDependence.
Variable to_numeric : list pyval -> result (list spec_float).

Lemma prepare_ext names (d d' : gmap string pyval) :
  (forall f, f ∈ MODEL_FEATURES -> coerce_feature d' f = coerce_feature d f) ->
  prepare_model_df_from_ui_dict names d' = prepare_model_df_from_ui_dict names d.
Proof.
  intros H. unfold prepare_model_df_from_ui_dict. cbv zeta. f_equal. f_equal.
  apply map_ext_in. intros f Hf. by rewrite H by (by apply list_elem_of_In).
Qed.

(** X1. A key that is not one of the eight features (coin, symbol, date or
    any other) has no part in the frame derived from a form: setting it to
    any value leaves the derived frame as it is. *)
Theorem display_fields_ignored names (d : gmap string pyval) k v :
  k ∉ MODEL_FEATURES ->
  prepare_model_df_from_ui_dict names (<[k:=v]> d)
    = prepare_model_df_from_ui_dict names d.
Proof.
  intros Hk. apply prepare_ext. intros f Hf. unfold coerce_feature.
  rewrite lookup_insert_ne; [reflexivity|]. intros ->. by destruct Hk.
Qed.

(** X2. The frame derived from a table depends on the table's number of
    rows and on its columns named by the eight features only: two tables
    that agree on those give the same frame, or fail alike, whatever else
    they hold. *)
Theorem batch_depends_on_features names (ed1 ed2 : frame pyval) :
  nrows ed1 = nrows ed2 ->
  (forall f, f ∈ MODEL_FEATURES -> named f ed1 = named f ed2) ->
  model_input to_numeric names (Batch ed1) = model_input to_numeric names (Batch ed2).
Proof.
  intros Hn Hcols. rewrite !model_input_batch. f_equal.
  apply build_model_batch_ext. intros f Hf.
  rewrite !named_fill_ui_fields by (by apply MODEL_FEATURES_in_UI_FIELDS).
  assert (Hhas : has_column ed1 f = has_column ed2 f).
  { apply eq_true_iff_eq. rewrite !has_column_named, (Hcols f Hf). tauto. }
  by rewrite Hhas, (Hcols f Hf), Hn.
Qed.

(** X3. Removing a key from the form sets that field to 0.0 in the derived
    frame and changes no other field and no column name. *)
Theorem missing_key_zeroes_its_field names (d : gmap string pyval) k :
  exists df df',
    prepare_model_df_from_ui_dict names d = Ok df /\
    prepare_model_df_from_ui_dict names (delete k d) = Ok df' /\
    columns df' = columns df /\
    forall f c, assoc f (cols df) = Some c ->
      assoc f (cols df') = Some (if String.eqb f k then [PyFloat.zero] else c).
Proof.
  destruct (prepare_model_df_spec names d) as (df & Hdf & _ & Hc & Hcells).
  destruct (prepare_model_df_spec names (delete k d)) as (df' & Hdf' & _ & Hc' & Hcells').
  exists df, df'. split; [exact Hdf|]. split; [exact Hdf'|].
  split; [by rewrite Hc, Hc'|]. intros f c Hf.
  assert (Hin : f ∈ columns df') by (rewrite Hc', <- Hc; eauto using assoc_Some_elem).
  destruct (assoc_elem_Some _ _ Hin) as [c' Hf']. rewrite Hf'. f_equal.
  destruct (Hcells f c Hf) as [_ ->]. destruct (Hcells' f c' Hf') as [_ ->].
  rewrite !coerce_feature_spec.
  destruct (String.eqb_spec f k) as [->|Hne].
  - by rewrite lookup_delete_eq.
  - by rewrite lookup_delete_ne.
Qed.

(** X4. A float in the form is handed to the model unchanged: the column
    of a feature whose entry is a float holds exactly that float, NaN and
    the infinities included. *)
Theorem float_features_pass_through names (d : gmap string pyval) df f c x :
  prepare_model_df_from_ui_dict names d = Ok df ->
  assoc f (cols df) = Some c ->
  d !! f = Some (VFloat x) ->
  c = [x].
Proof.
  intros Hdf Hf Hx.
  destruct (prepare_model_df_spec names d) as (df0 & Hdf0 & _ & _ & Hcells).
  rewrite Hdf in Hdf0. injection Hdf0 as <-.
  destruct (Hcells f c Hf) as [_ ->]. by rewrite coerce_feature_spec, Hx.
Qed.

End AdapterDependence.

(** ** What the handlers do to the world *)

Section HandlerEffects.
Variable to_numeric : list pyval -> result (list spec_float).
Variable model : model_t.
Variable now : string.
Variable canvas : gmap string pyval -> spec_float -> result string.

(** X6. The single handler calls [predict] exactly once, on a frame of one
    row, whatever the model answers and whatever the canvas does. *)
Theorem predict_button_calls_once ui w :
  exists df,
    prepare_model_df_from_ui_dict (model_feature_names model) ui = Ok df /\
    nrows df = 1%nat /\
    predict_calls (predict_button model now canvas ui w).2 = predict_calls w ++ [df].
Proof.
  destruct (prepare_model_df_spec (model_feature_names model) ui)
    as (df & Hprep & Hn & _).
  exists df. split; [exact Hprep|]. split; [exact Hn|].
  destruct (predict model df) as [[|p rest]|e] eqn:Hpred.
  - unfold predict_button.
    unfold try_except, model_predict, generate_pdf, st_success, st_error,
      logging, modify, lift, gets, mbind, M_bind, mret, M_ret.
    cbv beta iota zeta. rewrite Hprep. cbv beta iota. rewrite Hpred.
    reflexivity.
  - rewrite (predict_button_returns model now canvas ui w df p rest Hprep Hpred).
    destruct (canvas ui p); reflexivity.
  - unfold predict_button.
    unfold try_except, model_predict, generate_pdf, st_success, st_error,
      logging, modify, lift, gets, mbind, M_bind, mret, M_ret.
    cbv beta iota zeta. rewrite Hprep. cbv beta iota. rewrite Hpred.
    reflexivity.
Qed.

(** What a handler does to the history file: nothing, or one append of a
    frame with the history's columns. *)
Lemma handle_file (r : request) w :
  csv_history (handle to_numeric model now canvas r w).2 = csv_history w \/
  exists out, columns out = HISTORY_COLUMNS /\
    csv_history (handle to_numeric model now canvas r w).2 = appended w out.
Proof.
  destruct r as [ui|ed]; cbn [handle].
  - destruct (prepare_model_df_from_ui_dict (model_feature_names model) ui)
      as [df|e] eqn:Hprep.
    + destruct (predict model df) as [[|p rest]|e] eqn:Hpred.
      * left. by apply (predict_button_no_prediction model now canvas ui w df).
      * right. exists (single_out now ui p). split; [apply single_out_columns|].
        by apply (predict_button_history model now canvas ui w df p rest).
      * left. destruct (predict_button_raises model now canvas ui w e) as (w1 & -> & Hh & _).
        { by rewrite Hprep. }
        exact Hh.
    + left. destruct (predict_button_raises model now canvas ui w e) as (w1 & -> & Hh & _).
      { by rewrite Hprep. }
      exact Hh.
  - destruct (Nat.eq_dec (nrows ed) 0) as [Hz|Hn].
    { left. by rewrite (batch_button_empty to_numeric model now (Some ed) w Hz). }
    destruct (rbind (build_model_batch to_numeric (fill_ui_fields ed))
        (reorder (model_feature_names model))) as [mb|e] eqn:Hmb.
    + destruct (predict model mb) as [preds|e] eqn:Hpred.
      * destruct (Nat.eq_dec (length preds) (nrows ed)) as [Hlen|Hlen].
        -- right. destruct (batch_success to_numeric model now ed w mb preds Hn Hmb Hpred Hlen)
             as (hist & Hc & _ & _ & ->).
           exists (batch_logged now hist preds).
           split; [by apply columns_batch_logged|reflexivity].
        -- left. by rewrite (batch_button_mismatch to_numeric model now ed w mb preds Hn Hmb Hpred Hlen).
      * left. by rewrite (batch_button_raises to_numeric model now ed w mb e Hn Hmb Hpred).
    + left. by rewrite (batch_button_derivation_raises to_numeric model now ed w e Hn Hmb).
Qed.

Lemma read_history_same w w' :
  csv_history w' = csv_history w -> read_history w' = read_history w.
Proof. unfold read_history. by intros ->. Qed.

Lemma history_ok_readable w :
  history_ok w -> exists old, read_history w = Ok old.
Proof.
  unfold history_ok, read_history. destruct (csv_history w) as [lines|].
  - intros [rows ->]. eauto.
  - eauto.
Qed.

(** One request: the rows read back before are a prefix of the rows read
    back after. *)
Lemma handle_appends (r : request) w :
  history_ok w ->
  exists old new,
    read_history w = Ok old /\
    read_history (handle to_numeric model now canvas r w).2 = Ok (old ++ new) /\
    history_ok (handle to_numeric model now canvas r w).2.
Proof.
  intros Hok. destruct (handle_file r w) as [Hsame|(out & Hc & Happ)].
  - destruct (history_ok_readable w Hok) as [old Hold].
    exists old, []. rewrite app_nil_r, (read_history_same _ _ Hsame).
    split; [exact Hold|]. split; [exact Hold|].
    by apply (history_ok_same w).
  - destruct (read_history_appended w _ out Hok Hc Happ) as (old & Hold & Hnew & Hok').
    eauto.
Qed.

(** X7. Through any sequence of requests, forms and tables, failing or
    not, the history read back only grows at its end: the rows that were
    there are still there, in place, followed by the rows added since. *)
Theorem requests_only_append (requests : list request) w :
  history_ok w ->
  exists old new,
    read_history w = Ok old /\
    read_history (run_all to_numeric model now canvas requests w) = Ok (old ++ new) /\
    history_ok (run_all to_numeric model now canvas requests w).
Proof.
  revert w. induction requests as [|r rest IH]; intros w Hok.
  - destruct (history_ok_readable w Hok) as [old Hold].
    exists old, []. rewrite app_nil_r. auto.
  - cbn [run_all].
    destruct (handle_appends r w Hok) as (old & new1 & Hold & Hmid & Hok1).
    destruct (IH _ Hok1) as (mid & new2 & Hmid' & Hnew & Hok2).
    rewrite Hmid in Hmid'. injection Hmid' as <-.
    exists old, (new1 ++ new2). rewrite app_assoc. auto.
Qed.

End HandlerEffects.

(** ** Rows written, read back *)

Section RowsReadBack.
Variable to_numeric : list pyval -> result (list spec_float).
Variable model : model_t.
Variable now : string.
Implicit Types (df ed : frame pyval).

(** A field of row [i], read back by the column names, is cell [i] of the
    column of that name. *)
Lemma field_row_at df name i :
  field name (zip (columns df) (row_at VNone df i))
    = (fun c => default VNone (c !! i)) <$> assoc name (cols df).
Proof.
  unfold columns, row_at. induction (cols df) as [|[n c] cs IH]; [reflexivity|].
  rewrite fmap_cons. cbn [map zip zip_with field assoc fst snd].
  destruct (String.eqb n name); [reflexivity|exact IH].
Qed.

Lemma rows_of_lookup df i :
  (i < nrows df)%nat -> rows_of VNone df !! i = Some (row_at VNone df i).
Proof.
  intros Hi. unfold rows_of.
  change (map (row_at VNone df) (seq 0 (nrows df)))
    with (row_at VNone df <$> seq 0 (nrows df)).
  rewrite list_lookup_fmap, lookup_seq_lt by exact Hi. reflexivity.
Qed.

Lemma length_rows_of df : length (rows_of VNone df) = nrows df.
Proof. unfold rows_of. by rewrite length_map, length_seq. Qed.

Lemma UI_FIELDS_not_added k :
  k ∈ UI_FIELDS -> k <> "prediction" /\ k <> "mode" /\ k <> "timestamp".
Proof.
  revert k. apply Forall_forall.
  apply (bool_decide_unpack
           (Forall (fun k => k <> "prediction" /\ k <> "mode" /\ k <> "timestamp")
              UI_FIELDS)).
  vm_compute. exact I.
Qed.

(** The fields of row [i] of a stamped frame, read back by the history's
    column names. *)
Lemma stamped_row_fields mode df i :
  (i < nrows df)%nat ->
  columns (stamp now mode df) = HISTORY_COLUMNS ->
  field "mode" (zip HISTORY_COLUMNS (row_at VNone (stamp now mode df) i))
    = Some (VStr mode) /\
  field "timestamp" (zip HISTORY_COLUMNS (row_at VNone (stamp now mode df) i))
    = Some (VStr now) /\
  forall k, k <> "mode" -> k <> "timestamp" ->
    field k (zip HISTORY_COLUMNS (row_at VNone (stamp now mode df) i))
      = (fun c => default VNone (c !! i)) <$> assoc k (cols df).
Proof.
  intros Hi Hc. rewrite <- Hc. split; [|split].
  - rewrite field_row_at, assoc_stamp.
    replace (String.eqb "mode" "timestamp") with false by reflexivity.
    rewrite String.eqb_refl. cbn [fmap option_fmap option_map].
    by rewrite lookup_replicate_2.
  - rewrite field_row_at, assoc_stamp, String.eqb_refl.
    cbn [fmap option_fmap option_map]. by rewrite lookup_replicate_2.
  - intros k Hm Ht. rewrite field_row_at, assoc_stamp.
    destruct (String.eqb_spec k "timestamp"); [congruence|].
    destruct (String.eqb_spec k "mode"); [congruence|reflexivity].
Qed.

(** The rows read back from the lines of a frame. *)
Lemma read_rows_lookup (cs : list string) df i row :
  map (zip cs) (rows_of VNone df) !! i = Some row ->
  (i < nrows df)%nat /\ row = zip cs (row_at VNone df i).
Proof.
  change (map (zip cs) (rows_of VNone df)) with (zip cs <$> rows_of VNone df).
  rewrite list_lookup_fmap. intros H.
  destruct (rows_of VNone df !! i) as [r|] eqn:E; [|discriminate].
  assert (Hi : (i < nrows df)%nat).
  { apply lookup_lt_Some in E. by rewrite length_rows_of in E. }
  rewrite rows_of_lookup in E by exact Hi. split; [exact Hi|].
  cbn [fmap option_fmap option_map] in H. congruence.
Qed.

Lemma lookup_default_some (c : list pyval) i :
  (i < length c)%nat -> Some (default VNone (c !! i)) = c !! i.
Proof.
  intros Hi. destruct (lookup_lt_is_Some_2 c i Hi) as [v Hv]. by rewrite Hv.
Qed.

(** The columns of the frame the batch handler writes to the history, for
    a completed table [ub] whose UI fields are the columns [U]. *)
Lemma logged_ui_column (ub hist : frame pyval) preds (U : list pyval) k :
  columns hist = UI_FIELDS ++ ["prediction"] ->
  (forall f c, assoc f (cols hist) = Some c ->
     assoc f (cols (shown_table ub preds)) = Some c) ->
  k ∈ UI_FIELDS ->
  assoc k (cols ub) = Some U ->
  assoc k (cols (put_col hist "prediction" (map VFloat preds))) = Some U.
Proof.
  intros Hc Hcells Hk Hub. destruct (UI_FIELDS_not_added k Hk) as (Hp & _ & _).
  rewrite assoc_put_col_ne by exact Hp.
  assert (Hin : k ∈ columns hist) by (rewrite Hc; apply elem_of_app; by left).
  destruct (assoc_elem_Some _ _ Hin) as [c Hkc]. rewrite Hkc.
  pose proof (Hcells k c Hkc) as Hshown. unfold shown_table in Hshown.
  rewrite assoc_put_col_ne in Hshown by exact Hp. congruence.
Qed.

(** X8. After a batch in which the model returned one prediction per row,
    the history read back is the history before followed by one row per
    uploaded row, in the upload's order: row [i] carries prediction [i],
    the mode "batch", the one timestamp of the batch, and under each UI
    field the cell of upload row [i] (the default where the upload lacks
    the column). *)
Theorem batch_history_rows ed w mb preds :
  history_ok w -> nrows ed <> 0%nat -> wf_frame ed ->
  model_input to_numeric (model_feature_names model) (Batch ed) = Ok mb ->
  predict model mb = Ok preds ->
  length preds = nrows ed ->
  exists old new,
    read_history w = Ok old /\
    read_history (batch_button to_numeric model now (Some ed) w).2 = Ok (old ++ new) /\
    length new = nrows ed /\
    forall i row, new !! i = Some row ->
      field "prediction" row = VFloat <$> preds !! i /\
      field "mode" row = Some (VStr "batch") /\
      field "timestamp" row = Some (VStr now) /\
      forall k, k ∈ UI_FIELDS -> field k row = ui_column ed k !! i.
Proof.
  intros Hok Hn Hwf Hmb Hpred Hlen. rewrite model_input_batch in Hmb.
  destruct (batch_success to_numeric model now ed w mb preds Hn Hmb Hpred Hlen)
    as (hist & Hc & Hnh & Hcells & Hrun).
  pose proof (columns_batch_logged now hist preds Hc) as Hlc.
  assert (Hfile : csv_history (batch_button to_numeric model now (Some ed) w).2
                  = appended w (batch_logged now hist preds)).
  { rewrite Hrun. reflexivity. }
  destruct (read_history_appended w _ (batch_logged now hist preds) Hok Hlc Hfile)
    as (old & Hold & Hnew & _).
  exists old, (map (zip HISTORY_COLUMNS) (rows_of VNone (batch_logged now hist preds))).
  split; [exact Hold|]. split; [exact Hnew|].
  assert (Hrows : nrows (put_col hist "prediction" (map VFloat preds)) = nrows ed).
  { by rewrite nrows_put_col. }
  split.
  { unfold batch_logged. by rewrite length_map, length_rows_of, nrows_stamp. }
  intros i row Hrow. apply read_rows_lookup in Hrow as [Hi ->].
  unfold batch_logged in *. rewrite nrows_stamp, Hrows in Hi.
  destruct (stamped_row_fields "batch" (put_col hist "prediction" (map VFloat preds)) i)
    as (Hm & Ht & Hother); [by rewrite Hrows|exact Hlc|].
  split.
  { rewrite Hother by discriminate. rewrite assoc_put_col_eq.
    cbn [fmap option_fmap option_map].
    rewrite lookup_default_some by (by rewrite length_map, Hlen).
    change (map VFloat preds) with (VFloat <$> preds).
    apply list_lookup_fmap. }
  split; [exact Hm|]. split; [exact Ht|].
  intros k Hk. destruct (UI_FIELDS_not_added k Hk) as (_ & Hkm & Hkt).
  rewrite (Hother k Hkm Hkt).
  rewrite (logged_ui_column (fill_ui_fields ed) hist preds (ui_column ed k) k
             Hc Hcells Hk (fill_ui_fields_column ed k Hk)).
  cbn [fmap option_fmap option_map].
  apply lookup_default_some. by rewrite ui_column_length.
Qed.

End RowsReadBack.

(** ** The completed table and the downloaded file *)

Section CompletedTable.
Variable to_numeric : list pyval -> result (list spec_float).
Variable model : model_t.
Variable now : string.
Implicit Types (df ed : frame pyval).

(** X9. Completing an uploaded table keeps its columns as they are, in
    their places, and adds after them the UI fields it lacks, in the order
    of [UI_FIELDS]: an empty string in every row for coin, symbol and
    date, 0.0 in every row for a feature. *)
Theorem fill_ui_fields_appends_missing ed :
  fill_ui_fields ed =
    Frame (nrows ed)
      (cols ed ++
       map (fun f => (f, replicate (nrows ed)
                          (if bool_decide (f ∈ ["coin"; "symbol"; "date"])
                           then VStr "" else VFloat PyFloat.zero)))
         (List.filter (fun f => negb (has_column ed f)) UI_FIELDS)).
Proof. unfold fill_ui_fields. apply fill_fold_cols, NoDup_UI_FIELDS. Qed.

Lemma header_names_of (names : list string) :
  map header_name (map VStr names) = names.
Proof. rewrite map_map. cbn [header_name]. apply map_id. Qed.

Lemma length_row_at df i : length (row_at VNone df i) = length (columns df).
Proof. unfold row_at, columns. by rewrite length_map, length_fmap. Qed.

(** Row [i] of the shown table, read by its column names. *)
Lemma shown_table_row (ub : frame pyval) preds i :
  (i < nrows ub)%nat -> length preds = nrows ub ->
  field "prediction"
    (zip (columns (shown_table ub preds)) (row_at VNone (shown_table ub preds) i))
    = VFloat <$> preds !! i /\
  forall c col, c <> "prediction" -> assoc c (cols ub) = Some col ->
    length col = nrows ub ->
    field c
      (zip (columns (shown_table ub preds)) (row_at VNone (shown_table ub preds) i))
      = col !! i.
Proof.
  intros Hi Hlen. split.
  - rewrite field_row_at. unfold shown_table. rewrite assoc_put_col_eq.
    cbn [fmap option_fmap option_map].
    rewrite lookup_default_some by (by rewrite length_map, Hlen).
    change (map VFloat preds) with (VFloat <$> preds).
    apply list_lookup_fmap.
  - intros c col Hc Hcol Hcl. rewrite field_row_at. unfold shown_table.
    rewrite assoc_put_col_ne by exact Hc. rewrite Hcol.
    cbn [fmap option_fmap option_map].
    apply lookup_default_some. by rewrite Hcl.
Qed.

(** X10. After a batch in which the model returned one prediction per
    row, the file offered for download has a header line and one line per
    uploaded row, each as long as the header; read by the header's names,
    line [i] holds prediction [i] and, under every uploaded column not
    named prediction, the cell of upload row [i]. *)
Theorem batch_download_rows ed w mb preds :
  nrows ed <> 0%nat -> wf_frame ed ->
  model_input to_numeric (model_feature_names model) (Batch ed) = Ok mb ->
  predict model mb = Ok preds ->
  length preds = nrows ed ->
  exists header lines,
    last (screen (batch_button to_numeric model now (Some ed) w).2)
      = Some (StDownloadCsv "batch_predictions.csv" (header :: lines)) /\
    length lines = nrows ed /\
    forall i line, lines !! i = Some line ->
      length line = length header /\
      field "prediction" (zip (map header_name header) line) = VFloat <$> preds !! i /\
      forall c col, c <> "prediction" -> assoc c (cols ed) = Some col ->
        field c (zip (map header_name header) line) = col !! i.
Proof.
  intros Hn Hwf Hmb Hpred Hlen. rewrite model_input_batch in Hmb.
  destruct (batch_success to_numeric model now ed w mb preds Hn Hmb Hpred Hlen)
    as (hist & _ & _ & _ & ->).
  pose proof (nrows_fill_ui_fields ed) as Hnub.
  assert (Hkeep : forall c col, assoc c (cols ed) = Some col ->
            assoc c (cols (fill_ui_fields ed)) = Some col).
  { intros c col Hcol. unfold fill_ui_fields. by apply fill_fold_keeps. }
  revert Hnub Hkeep. generalize (fill_ui_fields ed). intros ub Hnub Hkeep.
  exists (map VStr (columns (shown_table ub preds))),
         (rows_of VNone (shown_table ub preds)).
  assert (Hrows : nrows (shown_table ub preds) = nrows ed).
  { unfold shown_table. by rewrite nrows_put_col. }
  split.
  { cbn [snd screen after_predict with_log with_widget with_history with_call].
    rewrite last_snoc. reflexivity. }
  split; [by rewrite length_rows_of|].
  intros i line Hline.
  assert (Hi : (i < nrows ed)%nat).
  { apply lookup_lt_Some in Hline. by rewrite length_rows_of, Hrows in Hline. }
  rewrite rows_of_lookup in Hline by (by rewrite Hrows).
  assert (Hl : row_at VNone (shown_table ub preds) i = line) by congruence.
  clear Hline. subst line. rewrite header_names_of.
  split; [by rewrite length_row_at, length_map|].
  destruct (shown_table_row ub preds i) as [Hp Hother];
    [by rewrite Hnub|by rewrite Hnub|].
  split; [exact Hp|].
  intros c col Hc Hcol. apply Hother; [exact Hc|by apply Hkeep|].
  by rewrite Hnub, (wf_assoc_length ed c col Hwf Hcol).
Qed.

End CompletedTable.

(** ** The report document *)

Section ReportFacts.
Variable str : pyval -> string.
Variable fmt6 : spec_float -> string.
Variable generated : string.

Lemma texts_at_app x a b : texts_at x (a ++ b) = texts_at x a ++ texts_at x b.
Proof.
  induction a as [|op a IH]; [reflexivity|].
  destruct op; cbn [app texts_at]; try exact IH.
  destruct (x0 =? x)%Z; cbn [app]; by rewrite IH.
Qed.

Lemma page_breaks_app a b : page_breaks (a ++ b) = (page_breaks a + page_breaks b)%nat.
Proof.
  induction a as [|op a IH]; [reflexivity|].
  destruct op; cbn [app page_breaks]; by rewrite IH.
Qed.

Lemma draw_item_texts st item :
  texts_at 50 (draw_item str st item).1 = texts_at 50 st.1 ++ [clip (report_line str item)].
Proof.
  unfold draw_item. cbv zeta. destruct (st.2 - 14 <? 60)%Z; cbn [fst].
  - rewrite !texts_at_app. cbn [texts_at Z.eqb Pos.eqb]. by rewrite app_nil_r.
  - rewrite texts_at_app. reflexivity.
Qed.

Lemma fold_draw_texts items : forall st,
  texts_at 50 (fold_left (draw_item str) items st).1
    = texts_at 50 st.1 ++ map (fun item => clip (report_line str item)) items.
Proof.
  induction items as [|item items IH]; intros st; cbn [fold_left map].
  - by rewrite app_nil_r.
  - rewrite IH, draw_item_texts, <- app_assoc. reflexivity.
Qed.

Lemma length_clip line :
  String.length (clip line) = Nat.min 120 (String.length line).
Proof.
  unfold clip. generalize 120%nat. intros n. revert line.
  induction n as [|n IH]; intros [|c s]; cbn [substring String.length Nat.min];
    try reflexivity.
  by rewrite IH.
Qed.

Lemma clip_short line : (String.length line <= 120)%nat -> clip line = line.
Proof.
  unfold clip. generalize 120%nat. intros n. revert line.
  induction n as [|n IH]; intros [|c s] H; cbn [substring String.length] in *;
    try reflexivity; try lia.
  rewrite IH by lia. reflexivity.
Qed.

(** X11. The listing of the report is complete: for every item of the
    input row, in the row's order, exactly one line [col: val] is drawn in
    the listing column, whatever the number of items and of pages; a line
    of more than 120 characters is drawn as its first 120, a shorter one
    whole. *)
Theorem report_lists_every_item (input_row : list (string * pyval)) pred :
  texts_at 50 (report_ops str fmt6 generated input_row pred)
    = map (fun item => clip (report_line str item)) input_row /\
  forall line,
    String.length (clip line) = Nat.min 120 (String.length line) /\
    ((String.length line <= 120)%nat -> clip line = line).
Proof.
  split.
  - unfold report_ops. rewrite texts_at_app, fold_draw_texts.
    cbn [fst report_head texts_at Z.eqb Pos.eqb app]. by rewrite app_nil_r.
  - intros line. split; [apply length_clip|apply clip_short].
Qed.

Lemma draw_item_margins st item :
  within_margins st.1 -> (60 <= st.2 <= 750)%Z ->
  within_margins (draw_item str st item).1 /\ (60 <= (draw_item str st item).2 <= 750)%Z.
Proof.
  intros Hops Hy. unfold draw_item. cbv zeta.
  destruct (Z.ltb_spec (st.2 - 14) 60); cbn [fst snd].
  - split; [|lia]. intros x y t Hin.
    rewrite !elem_of_app in Hin. destruct Hin as [[Hin|Hin]|Hin].
    + by apply (Hops x y t).
    + apply list_elem_of_singleton in Hin. injection Hin as -> -> ->. lia.
    + apply elem_of_cons in Hin as [Hin|Hin]; [discriminate|].
      apply list_elem_of_singleton in Hin. discriminate.
  - split; [|lia]. intros x y t Hin.
    rewrite elem_of_app in Hin. destruct Hin as [Hin|Hin].
    + by apply (Hops x y t).
    + apply list_elem_of_singleton in Hin. injection Hin as -> -> ->. lia.
Qed.

Lemma fold_draw_margins items : forall st,
  within_margins st.1 -> (60 <= st.2 <= 750)%Z ->
  within_margins (fold_left (draw_item str) items st).1.
Proof.
  induction items as [|item items IH]; intros st Hops Hy; cbn [fold_left].
  - exact Hops.
  - destruct (draw_item_margins st item Hops Hy) as [Hops' Hy']. by apply IH.
Qed.

(** X12. Nothing is drawn in the bottom margin: every text of the report,
    on every page, is drawn at a height between 60 and 760, however many
    items the input row has. *)
Theorem report_keeps_margins (input_row : list (string * pyval)) pred x y t :
  DrawString x y t ∈ report_ops str fmt6 generated input_row pred ->
  (60 <= y <= 760)%Z.
Proof.
  unfold report_ops. intros Hin. rewrite elem_of_app in Hin.
  destruct Hin as [Hin|Hin].
  - revert x y t Hin. apply fold_draw_margins; cbn [fst snd]; [|lia].
    intros x y t Hin. unfold report_head in Hin.
    repeat (apply elem_of_cons in Hin as [Hin|Hin];
            [try discriminate; injection Hin as -> -> ->; lia|]).
    inversion Hin.
  - apply list_elem_of_singleton in Hin. discriminate.
Qed.

Lemma draw_item_breaks st item :
  (60 <= st.2 <= 750)%Z ->
  (60 <= (draw_item str st item).2 <= 750)%Z /\
  (if (lines_left st.2 =? 1)%Z
   then page_breaks (draw_item str st item).1 = S (page_breaks st.1) /\
        (draw_item str st item).2 = 750%Z
   else page_breaks (draw_item str st item).1 = page_breaks st.1 /\
        lines_left (draw_item str st item).2 = (lines_left st.2 - 1)%Z).
Proof.
  intros Hy. unfold draw_item, lines_left. cbv zeta.
  destruct (Z.ltb_spec (st.2 - 14) 60) as [Hlt|Hge]; cbn [fst snd].
  - split; [lia|].
    assert (Hq : ((st.2 - 60) / 14 = 0)%Z) by (apply Z.div_small; lia).
    rewrite Hq. cbn [Z.add Z.eqb Pos.eqb Pos.add].
    rewrite !page_breaks_app. cbn [page_breaks]. split; [lia|reflexivity].
  - split; [lia|].
    assert (Hq : ((st.2 - 60) / 14 = (st.2 - 14 - 60) / 14 + 1)%Z).
    { replace (st.2 - 60)%Z with ((st.2 - 14 - 60) + 1 * 14)%Z by lia.
      by rewrite Z.div_add by lia. }
    assert (Hpos : (0 <= (st.2 - 14 - 60) / 14)%Z) by (apply Z.div_pos; lia).
    destruct (Z.eqb_spec ((st.2 - 60) / 14 + 1) 1) as [He|Hne]; [lia|].
    rewrite page_breaks_app. cbn [page_breaks]. split; lia.
Qed.

Lemma fold_draw_breaks items : forall st,
  (60 <= st.2 <= 750)%Z ->
  Z.of_nat (page_breaks (fold_left (draw_item str) items st).1)
    = (Z.of_nat (page_breaks st.1)
       + breaks_after (lines_left st.2) (Z.of_nat (length items)))%Z.
Proof.
  induction items as [|item items IH]; intros st Hy.
  - cbn [fold_left length]. unfold breaks_after, lines_left.
    assert (0 <= (st.2 - 60) / 14)%Z by (apply Z.div_pos; lia).
    destruct (Z.ltb_spec (Z.of_nat 0) ((st.2 - 60) / 14 + 1)); lia.
  - cbn [fold_left]. destruct (draw_item_breaks st item Hy) as [Hy' Hstep].
    rewrite (IH _ Hy'). rewrite length_cons, Nat2Z.inj_succ.
    assert (Hk : (1 <= lines_left st.2)%Z).
    { unfold lines_left. assert (0 <= (st.2 - 60) / 14)%Z by (apply Z.div_pos; lia). lia. }
    set (n := Z.of_nat (length items)) in *.
    assert (Hn : (0 <= n)%Z) by lia.
    destruct (Z.eqb_spec (lines_left st.2) 1) as [He|Hne].
    + destruct Hstep as [-> ->]. rewrite He.
      change (lines_left 750) with 50%Z. unfold breaks_after.
      destruct (Z.ltb_spec n 50); destruct (Z.ltb_spec (Z.succ n) 1); try lia.
      * replace (Z.succ n - 1)%Z with n by lia. rewrite Z.div_small by lia. lia.
      * replace (Z.succ n - 1)%Z with ((n - 50) + 1 * 50)%Z by lia.
        rewrite Z.div_add by lia. lia.
    + destruct Hstep as [-> ->]. unfold breaks_after.
      destruct (Z.ltb_spec n (lines_left st.2 - 1));
        destruct (Z.ltb_spec (Z.succ n) (lines_left st.2)); try lia.
      replace (Z.succ n - lines_left st.2)%Z with (n - (lines_left st.2 - 1))%Z by lia.
      lia.
Qed.

(** X13. The number of page breaks depends on the number [n] of items
    only: none for fewer than 45 items, and from there on one more for
    every further 50 (the first page takes 45 listing lines, every later
    page 50). The break follows the last line that fits, so a row of
    exactly 45 items ends with a break after its last line. *)
Theorem report_page_breaks (input_row : list (string * pyval)) pred :
  let n := Z.of_nat (length input_row) in
  Z.of_nat (page_breaks (report_ops str fmt6 generated input_row pred))
    = (if (n <? 45)%Z then 0 else 1 + (n - 45) / 50)%Z.
Proof.
  cbv zeta. unfold report_ops. rewrite page_breaks_app, Nat2Z.inj_add.
  rewrite fold_draw_breaks by (cbn [snd]; lia).
  cbn [fst snd report_head page_breaks Z.of_nat].
  change (lines_left 684) with 45%Z. unfold breaks_after. lia.
Qed.

End ReportFacts.

(** ** The price preview *)

Section PreviewFacts.
Variable model : model_t.
Variable linspace : spec_float -> spec_float -> nat -> list spec_float.

Lemma float_all_ok ui fs base :
  float_all ui fs = Ok base ->
  base = map (fun f => (f, base_value ui f)) fs /\
  forall f, f ∈ fs ->
    py_float (default (VFloat PyFloat.zero) (ui !! f)) = Ok (base_value ui f).
Proof.
  revert base. induction fs as [|f fs IH]; intros base; cbn [float_all].
  - intros [= <-]. split; [reflexivity|]. intros f Hf. inversion Hf.
  - destruct (py_float (default (VFloat PyFloat.zero) (ui !! f))) as [x|e] eqn:E;
      cbn [rbind]; [|discriminate].
    destruct (float_all ui fs) as [r|e] eqn:Er; cbn [rbind]; [|discriminate].
    intros [= <-]. destruct (IH r eq_refl) as [-> Hall].
    assert (Hx : base_value ui f = x) by (unfold base_value; by rewrite E).
    split; [cbn [map]; by rewrite Hx|].
    intros g Hg. apply elem_of_cons in Hg as [->|Hg]; [by rewrite Hx|by apply Hall].
Qed.

Lemma float_all_raises ui fs f e :
  f ∈ fs -> py_float (default (VFloat PyFloat.zero) (ui !! f)) = Raise e ->
  exists e', float_all ui fs = Raise e'.
Proof.
  intros Hf He. induction fs as [|g fs IH]; [inversion Hf|]. cbn [float_all].
  destruct (py_float (default (VFloat PyFloat.zero) (ui !! g))) as [x|e0] eqn:E;
    cbn [rbind]; [|eauto].
  apply elem_of_cons in Hf as [->|Hf]; [congruence|].
  destruct (IH Hf) as [e' ->]. cbn [rbind]. eauto.
Qed.

Lemma item_keys_map {A} (g : string -> A) (l : list string) :
  (map (fun f => (f, g f)) l).*1 = l.
Proof.
  induction l as [|k l IH]; [reflexivity|]. by rewrite map_cons, fmap_cons, IH.
Qed.

Lemma item_get_map {A} (g : string -> A) (l : list string) f dflt :
  f ∈ l -> item_get f dflt (map (fun f => (f, g f)) l) = g f.
Proof.
  induction l as [|k l IH]; intros Hf; [inversion Hf|]. cbn [map item_get].
  destruct (String.eqb_spec k f) as [->|Hne]; [reflexivity|].
  apply IH. apply elem_of_cons in Hf as [->|Hf]; [congruence|exact Hf].
Qed.

Lemma item_set_keys {A} name (x : A) (row : list (string * A)) :
  name ∈ row.*1 -> (item_set name x row).*1 = row.*1.
Proof.
  intros H. unfold item_set. rewrite bool_decide_eq_true_2 by exact H. clear H.
  induction row as [|[k y] row IH]; [reflexivity|].
  rewrite map_cons, !fmap_cons, IH. cbn [fst].
  destruct (String.eqb_spec k name) as [->|Hne]; reflexivity.
Qed.

Lemma item_get_set_eq {A} name (x : A) (row : list (string * A)) dflt :
  name ∈ row.*1 -> item_get name dflt (item_set name x row) = x.
Proof.
  intros H. unfold item_set. rewrite bool_decide_eq_true_2 by exact H.
  induction row as [|[k y] row IH]; [inversion H|].
  cbn [map item_get fst]. destruct (String.eqb_spec k name) as [->|Hk].
  - cbn [item_get]. by rewrite String.eqb_refl.
  - cbn [item_get]. destruct (String.eqb_spec k name); [congruence|].
    apply IH. rewrite fmap_cons in H.
    apply elem_of_cons in H as [H|H]; [cbn [fst] in H; congruence|exact H].
Qed.

Lemma item_get_set_ne {A} name (x : A) (row : list (string * A)) f dflt :
  name ∈ row.*1 -> f <> name ->
  item_get f dflt (item_set name x row) = item_get f dflt row.
Proof.
  intros H Hf. unfold item_set. rewrite bool_decide_eq_true_2 by exact H. clear H.
  induction row as [|[k y] row IH]; [reflexivity|].
  cbn [map item_get fst]. destruct (String.eqb_spec k name) as [->|Hk].
  - cbn [item_get]. destruct (String.eqb_spec name f); [congruence|exact IH].
  - cbn [item_get]. destruct (String.eqb k f); [reflexivity|exact IH].
Qed.

End PreviewFacts.

Section PreviewClaims.
Variable model : model_t.
Variable linspace : spec_float -> spec_float -> nat -> list spec_float.

(** X14. The preview is stricter than the adapter: if a feature of the
    form is [None], an empty string or anything else [float] raises on,
    the preview is unavailable and leaves the world as it is, without a
    call of the model, although the adapter derives a frame from the same
    form. *)
Theorem preview_needs_floats ui w f e :
  f ∈ MODEL_FEATURES ->
  py_float (default (VFloat PyFloat.zero) (ui !! f)) = Raise e ->
  (exists e', preview model linspace ui w = (Ok (Unavailable e'), w)) /\
  exists df, prepare_model_df_from_ui_dict (model_feature_names model) ui = Ok df.
Proof.
  intros Hf He. split.
  - destruct (float_all_raises ui MODEL_FEATURES f e Hf He) as [e' He'].
    exists e'. unfold preview, try_with, lift, mbind, M_bind, mret, M_ret.
    cbv beta iota zeta. rewrite He'. reflexivity.
  - destruct (prepare_model_df_spec (model_feature_names model) ui) as (df & Hdf & _).
    eauto.
Qed.

Lemma map_const {A B} (c : B) (l : list A) :
  map (fun _ => c) l = replicate (length l) c.
Proof. induction l as [|x l IH]; [reflexivity|]. cbn [map length replicate]. by rewrite IH. Qed.

(** The frame of the simulated rows. *)
Lemma sim_frame (g : string -> spec_float) (prices : list spec_float) :
  prices <> [] ->
  frame_of_rows PyFloat.nan
    (sim_rows (map (fun f => (f, g f)) MODEL_FEATURES) prices)
  = Frame (length prices)
      (map (fun f => (f, if String.eqb f "price" then prices
                         else replicate (length prices) (g f)))
         MODEL_FEATURES).
Proof.
  intros Hne. set (base := map (fun f => (f, g f)) MODEL_FEATURES).
  assert (Hprice : "price" ∈ base.*1).
  { unfold base. rewrite item_keys_map. left. }
  assert (Hcell : forall f, f ∈ MODEL_FEATURES ->
    map (item_get f PyFloat.nan) (map (fun p => item_set "price" p base) prices)
    = if String.eqb f "price" then prices else replicate (length prices) (g f)).
  { intros f Hf. rewrite map_map. destruct (String.eqb_spec f "price") as [->|Hfp].
    - rewrite <- (map_id prices) at 2. apply map_ext. intros p.
      by apply item_get_set_eq.
    - rewrite <- map_const. apply map_ext. intros p.
      rewrite item_get_set_ne by assumption. unfold base. by apply item_get_map. }
  unfold frame_of_rows, sim_rows. destruct prices as [|p0 ps]; [congruence|].
  cbn [map]. rewrite item_set_keys by exact Hprice.
  replace (base.*1) with MODEL_FEATURES
    by (unfold base; by rewrite item_keys_map).
  cbn [length]. rewrite length_map. f_equal.
  apply map_ext_in. intros f Hf. apply list_elem_of_In in Hf. f_equal.
  exact (Hcell f Hf).
Qed.

(** X15. When every feature of the form converts, and [linspace] gives
    as many points as asked, the preview calls the model exactly once, on
    a frame of 30 rows whose price column holds the simulated prices and
    whose other columns repeat the form's value in every row; it shows the
    chart of the predictions if there are 30 of them and is unavailable
    otherwise; the history file is what it was. *)
Theorem preview_simulates_prices ui w base :
  (forall a b n, length (linspace a b n) = n) ->
  float_all ui MODEL_FEATURES = Ok base ->
  exists prices sim_df,
    length prices = 30%nat /\ nrows sim_df = 30%nat /\
    (forall f c, assoc f (cols sim_df) = Some c ->
       c = if String.eqb f "price" then prices
           else replicate 30 (base_value ui f)) /\
    predict_calls (preview model linspace ui w).2 = predict_calls w ++ [sim_df] /\
    csv_history (preview model linspace ui w).2 = csv_history w /\
    (preview model linspace ui w).1 =
      Ok match predict model sim_df with
         | Ok preds =>
             if Nat.eqb (length preds) 30 then Chart prices preds
             else Unavailable ValueError
         | Raise e => Unavailable e
         end.
Proof.
  intros Hlin Hbase. destruct (float_all_ok ui MODEL_FEATURES base Hbase) as [-> _].
  set (b := map (fun f => (f, base_value ui f)) MODEL_FEATURES) in *.
  set (prices := linspace
         (fmul (float_or (item_get "price" PyFloat.one b) PyFloat.one)
               (PyFloat.of_decimal false 9 (-1)))
         (fmul (float_or (item_get "price" PyFloat.one b) PyFloat.one)
               (PyFloat.of_decimal false 11 (-1))) 30).
  assert (Hlen : length prices = 30%nat) by apply Hlin.
  assert (Hne : prices <> []) by (intros E; rewrite E in Hlen; discriminate).
  pose proof (sim_frame (base_value ui) prices Hne) as Hsim. fold b in Hsim.
  rewrite Hlen in Hsim.
  destruct (reorder_features
              (Frame 30 (map (fun f => (f, if String.eqb f "price" then prices
                                           else replicate 30 (base_value ui f)))
                           MODEL_FEATURES))
              (model_feature_names model) (columns_map_key _ _ _))
    as (sim_df & Hre & Hn & _ & Hcells).
  exists prices, sim_df. split; [exact Hlen|]. split; [exact Hn|].
  split.
  { intros f c Hf. apply Hcells in Hf.
    exact (proj2 (assoc_map_key
      (fun f => if String.eqb f "price" then prices else replicate 30 (base_value ui f))
      MODEL_FEATURES f c Hf)). }
  unfold preview, try_with, model_predict, modify, lift, mbind, M_bind, mret, M_ret.
  cbv beta iota zeta. rewrite Hbase. cbv beta iota.
  fold b. fold prices. rewrite Hsim, Hre. cbv beta iota.
  destruct (predict model sim_df) as [preds|e]; cbv beta iota.
  - rewrite Hlen. destruct (Nat.eqb (length preds) 30); repeat split.
  - repeat split.
Qed.

End PreviewClaims.

(** ** Reports and the shape of the history file *)

Section ReportsAndShape.
Variable to_numeric : list pyval -> result (list spec_float).
Variable model : model_t.
Variable now : string.
Variable canvas : gmap string pyval -> spec_float -> result string.

Lemma batch_button_reports (editable : option (frame pyval)) w :
  report_files (batch_button to_numeric model now editable w).2 = report_files w.
Proof.
  destruct editable as [ed|]; [|reflexivity].
  destruct (Nat.eq_dec (nrows ed) 0) as [Hz|Hn].
  { by rewrite (batch_button_empty to_numeric model now (Some ed) w Hz). }
  destruct (rbind (build_model_batch to_numeric (fill_ui_fields ed))
        (reorder (model_feature_names model))) as [mb|e] eqn:Hmb.
  - destruct (predict model mb) as [preds|e] eqn:Hpred.
    + destruct (Nat.eq_dec (length preds) (nrows ed)) as [Hlen|Hlen].
      * destruct (batch_success to_numeric model now ed w mb preds Hn Hmb Hpred Hlen)
          as (hist & _ & _ & _ & ->).
        reflexivity.
      * by rewrite (batch_button_mismatch to_numeric model now ed w mb preds Hn Hmb Hpred Hlen).
    + by rewrite (batch_button_raises to_numeric model now ed w mb e Hn Hmb Hpred).
  - by rewrite (batch_button_derivation_raises to_numeric model now ed w e Hn Hmb).
Qed.

(** X16. A report is written only for a single prediction that has been
    logged: a request either leaves the report files as they are, or it is
    a form whose prediction [p] was appended to the history, and then the
    one report the canvas saved for it is added and offered for download
    last. A table never produces a report. *)
Theorem report_only_after_history_row (r : request) w :
  report_files (handle to_numeric model now canvas r w).2 = report_files w \/
  exists ui p path,
    r = Single ui /\ canvas ui p = Ok path /\
    report_files (handle to_numeric model now canvas r w).2 = report_files w ++ [path] /\
    csv_history (handle to_numeric model now canvas r w).2 = appended w (single_out now ui p) /\
    last (screen (handle to_numeric model now canvas r w).2) = Some (StDownloadPdf path).
Proof.
  destruct r as [ui|ed]; cbn [handle].
  - destruct (prepare_model_df_from_ui_dict (model_feature_names model) ui)
      as [df|e] eqn:Hprep.
    + destruct (predict model df) as [[|p rest]|e] eqn:Hpred.
      * left. unfold predict_button.
        unfold try_except, model_predict, generate_pdf, st_success, st_error,
          logging, modify, lift, gets, mbind, M_bind, mret, M_ret.
        cbv beta iota zeta. rewrite Hprep. cbv beta iota. rewrite Hpred.
        reflexivity.
      * rewrite (predict_button_returns model now canvas ui w df p rest Hprep Hpred).
        destruct (canvas ui p) as [path|e] eqn:Hpdf.
        -- right. exists ui, p, path. split; [reflexivity|]. split; [exact Hpdf|].
           cbn [snd report_files csv_history screen with_widget with_report
                  with_log with_history with_call after_single].
           split; [reflexivity|]. split; [reflexivity|]. apply last_snoc.
        -- left. reflexivity.
      * left. destruct (predict_button_raises model now canvas ui w e) as (w1 & -> & _ & Hr & _).
        { by rewrite Hprep. }
        exact Hr.
    + left. destruct (predict_button_raises model now canvas ui w e) as (w1 & -> & _ & Hr & _).
      { by rewrite Hprep. }
      exact Hr.
  - left. apply batch_button_reports.
Qed.

Lemma rows_of_width (df : frame pyval) :
  Forall (fun line => length line = length (columns df)) (rows_of VNone df).
Proof.
  unfold rows_of. apply Forall_map, Forall_forall. intros i _. cbn beta.
  apply length_row_at.
Qed.

Lemma appended_rectangular w w' out :
  history_rectangular w -> columns out = HISTORY_COLUMNS ->
  csv_history w' = appended w out -> history_rectangular w'.
Proof.
  unfold history_rectangular, appended, to_csv. intros Hw Hc ->.
  pose proof (rows_of_width out) as Hrows. rewrite Hc in Hrows.
  destruct (csv_history w) as [lines|].
  - destruct Hw as (rows & -> & Hall). exists (rows ++ rows_of VNone out).
    split; [reflexivity|]. apply Forall_app. split; assumption.
  - exists (rows_of VNone out). rewrite Hc. split; [reflexivity|exact Hrows].
Qed.

(** X17. The history file stays a table: through any sequence of requests,
    forms and tables, well-formed or not, failing or not, a file that is
    absent or is the header followed by lines of fourteen cells is still
    so afterwards. *)
Theorem history_stays_rectangular (requests : list request) w :
  history_rectangular w ->
  history_rectangular (run_all to_numeric model now canvas requests w).
Proof.
  revert w. induction requests as [|r rest IH]; intros w Hw; [exact Hw|].
  cbn [run_all]. apply IH.
  destruct (handle_file to_numeric model now canvas r w) as [Hsame|(out & Hc & Happ)].
  - unfold history_rectangular. by rewrite Hsame.
  - by apply (appended_rectangular w _ out).
Qed.

End ReportsAndShape.

(** ** The further properties on the examples *)

Lemma display_fields_ignored_example :
  ("coin" ∉ MODEL_FEATURES) /\
  prepare_model_df_from_ui_dict MODEL_FEATURES (<["coin" := VStr "ether"]> example_ui)
    = prepare_model_df_from_ui_dict MODEL_FEATURES example_ui.
Proof.
  assert (H : "coin" ∉ MODEL_FEATURES).
  { apply (bool_decide_unpack (_ ∉ _)). vm_compute. exact I. }
  split; [exact H|].
  apply (display_fields_ignored MODEL_FEATURES example_ui "coin" (VStr "ether") H).
Defined.

Lemma uploads_agree_on_features f :
  f ∈ MODEL_FEATURES ->
  named f example_upload = named f other_upload.
Proof.
  intros Hf. unfold MODEL_FEATURES in Hf.
  repeat (apply elem_of_cons in Hf as [->|Hf]; [reflexivity|]).
  inversion Hf.
Qed.

Lemma batch_depends_on_features_example :
  nrows example_upload = nrows other_upload /\
  (forall f, f ∈ MODEL_FEATURES -> named f example_upload = named f other_upload) /\
  model_input cellwise_numeric MODEL_FEATURES (Batch example_upload)
    = model_input cellwise_numeric MODEL_FEATURES (Batch other_upload).
Proof.
  split; [reflexivity|]. split; [exact uploads_agree_on_features|].
  apply (batch_depends_on_features cellwise_numeric MODEL_FEATURES
           example_upload other_upload).
  - reflexivity.
  - exact uploads_agree_on_features.
Defined.

Lemma float_features_pass_through_example :
  prepare_model_df_from_ui_dict MODEL_FEATURES example_ui = Ok example_model_df /\
  assoc "1h" (cols example_model_df) = Some [PyFloat.of_decimal false 1 (-2)] /\
  example_ui !! "1h" = Some (VFloat (PyFloat.of_decimal false 1 (-2))) /\
  [PyFloat.of_decimal false 1 (-2)] = [PyFloat.of_decimal false 1 (-2)].
Proof.
  split; [vm_compute; reflexivity|]. split; [vm_compute; reflexivity|].
  split; [vm_compute; reflexivity|].
  apply (float_features_pass_through MODEL_FEATURES example_ui example_model_df
           "1h" [PyFloat.of_decimal false 1 (-2)] (PyFloat.of_decimal false 1 (-2))).
  - vm_compute; reflexivity.
  - vm_compute; reflexivity.
  - vm_compute; reflexivity.
Defined.

Lemma requests_only_append_example :
  history_ok fresh /\
  exists old new,
    read_history fresh = Ok old /\
    read_history
      (run_all cellwise_numeric constant_model example_now saving_canvas
         [Single example_ui; Batch example_upload] fresh) = Ok (old ++ new) /\
    history_ok
      (run_all cellwise_numeric constant_model example_now saving_canvas
         [Single example_ui; Batch example_upload] fresh).
Proof.
  split; [exact I|].
  apply (requests_only_append cellwise_numeric constant_model example_now saving_canvas
           [Single example_ui; Batch example_upload] fresh).
  exact I.
Defined.

Lemma batch_history_rows_example :
  (history_ok fresh /\ nrows example_upload <> 0%nat /\ wf_frame example_upload /\
   model_input cellwise_numeric (model_feature_names constant_model) (Batch example_upload)
     = Ok example_model_batch /\
   predict constant_model example_model_batch = Ok [x042; x042]) /\
  exists old new,
    read_history fresh = Ok old /\
    read_history (batch_button cellwise_numeric constant_model example_now (Some example_upload) fresh).2
      = Ok (old ++ new) /\
    length new = nrows example_upload /\
    forall i row, new !! i = Some row ->
      field "prediction" row = VFloat <$> [x042; x042] !! i /\
      field "mode" row = Some (VStr "batch") /\
      field "timestamp" row = Some (VStr example_now) /\
      forall k, k ∈ UI_FIELDS -> field k row = ui_column example_upload k !! i.
Proof.
  split.
  { split; [exact I|]. split; [discriminate|]. split; [exact wf_example_upload|].
    split; vm_compute; reflexivity. }
  apply (batch_history_rows cellwise_numeric constant_model example_now example_upload fresh
           example_model_batch [x042; x042]).
  - exact I.
  - discriminate.
  - exact wf_example_upload.
  - vm_compute; reflexivity.
  - vm_compute; reflexivity.
  - reflexivity.
Defined.

Lemma batch_download_rows_example :
  exists header lines,
    last (screen (batch_button cellwise_numeric constant_model example_now (Some example_upload) fresh).2)
      = Some (StDownloadCsv "batch_predictions.csv" (header :: lines)) /\
    length lines = nrows example_upload /\
    forall i line, lines !! i = Some line ->
      length line = length header /\
      field "prediction" (zip (map header_name header) line)
        = VFloat <$> [x042; x042] !! i /\
      forall c col, c <> "prediction" -> assoc c (cols example_upload) = Some col ->
        field c (zip (map header_name header) line) = col !! i.
Proof.
  apply (batch_download_rows cellwise_numeric constant_model example_now example_upload fresh
           example_model_batch [x042; x042]).
  - discriminate.
  - exact wf_example_upload.
  - vm_compute; reflexivity.
  - vm_compute; reflexivity.
  - reflexivity.
Defined.

Lemma report_keeps_margins_example :
  DrawString 50 684 "coin: bitcoin"
    ∈ report_ops example_str example_fmt6 example_now example_items x042 /\
  (60 <= 684 <= 760)%Z.
Proof.
  assert (H : DrawString 50 684 "coin: bitcoin"
                ∈ report_ops example_str example_fmt6 example_now example_items x042).
  { apply (list_elem_of_lookup_2 _ 6). vm_compute. reflexivity. }
  split; [exact H|].
  apply (report_keeps_margins example_str example_fmt6 example_now example_items
           x042 50 684 "coin: bitcoin" H).
Defined.

Lemma preview_needs_floats_example :
  ("mkt_cap" ∈ MODEL_FEATURES) /\
  py_float (default (VFloat PyFloat.zero) (blank_ui !! "mkt_cap")) = Raise ValueError /\
  (exists e', preview constant_model linspace_steps blank_ui fresh
              = (Ok (Unavailable e'), fresh)) /\
  exists df,
    prepare_model_df_from_ui_dict (model_feature_names constant_model) blank_ui = Ok df.
Proof.
  assert (H : "mkt_cap" ∈ MODEL_FEATURES).
  { apply (bool_decide_unpack (_ ∈ _)). vm_compute. exact I. }
  assert (He : py_float (default (VFloat PyFloat.zero) (blank_ui !! "mkt_cap"))
               = Raise ValueError) by (vm_compute; reflexivity).
  split; [exact H|]. split; [exact He|].
  apply (preview_needs_floats constant_model linspace_steps blank_ui fresh
           "mkt_cap" ValueError H He).
Defined.

Lemma length_linspace_steps a b n : length (linspace_steps a b n) = n.
Proof. unfold linspace_steps. cbv zeta. by rewrite length_map, length_seq. Qed.

Lemma preview_simulates_prices_example :
  float_all example_ui MODEL_FEATURES = Ok example_base /\
  exists prices sim_df,
    length prices = 30%nat /\ nrows sim_df = 30%nat /\
    (forall f c, assoc f (cols sim_df) = Some c ->
       c = if String.eqb f "price" then prices
           else replicate 30 (base_value example_ui f)) /\
    predict_calls (preview constant_model linspace_steps example_ui fresh).2
      = predict_calls fresh ++ [sim_df] /\
    csv_history (preview constant_model linspace_steps example_ui fresh).2
      = csv_history fresh /\
    (preview constant_model linspace_steps example_ui fresh).1 =
      Ok match predict constant_model sim_df with
         | Ok preds =>
             if Nat.eqb (length preds) 30 then Chart prices preds
             else Unavailable ValueError
         | Raise e => Unavailable e
         end.
Proof.
  split; [vm_compute; reflexivity|].
  apply (preview_simulates_prices constant_model linspace_steps example_ui fresh
           example_base).
  - exact length_linspace_steps.
  - vm_compute; reflexivity.
Defined.

Lemma history_stays_rectangular_example :
  history_rectangular fresh /\
  history_rectangular
    (run_all cellwise_numeric constant_model example_now saving_canvas
       [Batch example_upload; Single blank_ui] fresh).
Proof.
  split; [exact I|].
  apply (history_stays_rectangular cellwise_numeric constant_model example_now saving_canvas
           [Batch example_upload; Single blank_ui] fresh).
  exact I.
Defined.
